(** * Fear & Greed backtest engine: a shallow embedding of
      [src/strategies/backtest.ts] and the properties of its simulation loop.

    Modelling conventions.
    - A JavaScript [number] that carries money, prices, share counts or a
      sentiment value is an exact rational ([Q]); equality of such numbers is
      [Qeq] ([==]).  Rounding of IEEE doubles is outside the model.  The only
      places where the source can divide by a quantity that may be zero with
      positive prices are the three return metrics computed after the loop;
      they are modelled with the extended numbers [JsNum] below.
    - A [Date] is its time value ([getTime()], milliseconds since the epoch,
      an integer); only valid dates are modelled.
    - A typed array has no holes: [x[i]] is [nth_error], and the branches the
      source takes on [undefined] are the [None] branches. *)

From Stdlib Require Import ZArith QArith Qround Qabs Qminmax.
From Stdlib Require Import String Ascii List Bool Lia Lqa Sorted.
Import ListNotations.

Local Open Scope Q_scope.

(** ** Numbers *)

(** [x <= y] and [x < y] on [number], as booleans. *)
Definition Qleb (x y : Q) : bool := Qle_bool x y.
Definition Qltb (x y : Q) : bool := negb (Qle_bool y x).

(** The result of a floating division whose divisor may be zero, and what
    [Math.pow] makes of it. *)
Inductive JsNum :=
| JFin (q : Q)
| JPosInf
| JNegInf
| JNaN.

(** [x / y] for finite [x] and [y]: a zero divisor gives an infinity with
    the sign of [x], or [NaN] for [0 / 0]. *)
Definition jsdiv (x y : Q) : JsNum :=
  if Qeq_bool y 0 then
    if Qltb 0 x then JPosInf else if Qltb x 0 then JNegInf else JNaN
  else JFin (x / y).

(** [x + c] and [x - c] for a finite constant [c]. *)
Definition jsadd (x : JsNum) (c : Q) : JsNum :=
  match x with
  | JFin q => JFin (q + c)
  | other => other
  end.

Definition jssub (x : JsNum) (c : Q) : JsNum := jsadd x (- c).

(** [Math.pow(base, exponent)].  The value at a finite non-zero exponent is
    in general irrational and is kept symbolic; the cases ECMAScript decides
    by inspection of the arguments are computed. *)
Inductive PowResult :=
| PowSym (base : JsNum) (exponent : Q)
| PowVal (v : JsNum).

Definition Math_pow (base exponent : JsNum) : PowResult :=
  match exponent with
  | JNaN => PowVal JNaN
  | JFin e => if Qeq_bool e 0 then PowVal (JFin 1) else PowSym base e
  | JPosInf =>
      match base with
      | JNaN => PowVal JNaN
      | JPosInf | JNegInf => PowVal JPosInf
      | JFin b =>
          if Qltb 1 (Qabs b) then PowVal JPosInf
          else if Qeq_bool (Qabs b) 1 then PowVal JNaN
          else PowVal (JFin 0)
      end
  | JNegInf =>
      match base with
      | JNaN => PowVal JNaN
      | JPosInf | JNegInf => PowVal (JFin 0)
      | JFin b =>
          if Qltb 1 (Qabs b) then PowVal (JFin 0)
          else if Qeq_bool (Qabs b) 1 then PowVal JNaN
          else PowVal JPosInf
      end
  end.

(** [p - 1] for the result of [Math.pow]. *)
Inductive Annualized :=
| AnnSym (base : JsNum) (exponent : Q)   (* Math.pow(base, exponent) - 1 *)
| AnnVal (v : JsNum).

Definition pow_minus_one (p : PowResult) : Annualized :=
  match p with
  | PowSym b e => AnnSym b e
  | PowVal v => AnnVal (jssub v 1)
  end.

(** ** Dates *)

Definition Date := Z.
Definition getTime (d : Date) : Z := d.

Definition MS_PER_DAY : Z := 1000 * 60 * 60 * 24.

(** Year, month and day (UTC, proleptic Gregorian) of a day number counted
    from 1970-01-01. *)
Definition civil_from_days (z : Z) : Z * Z * Z :=
  let z := (z + 719468)%Z in
  let era := (z / 146097)%Z in
  let doe := (z - era * 146097)%Z in
  let yoe := ((doe - doe / 1460 + doe / 36524 - doe / 146096) / 365)%Z in
  let y := (yoe + era * 400)%Z in
  let doy := (doe - (365 * yoe + yoe / 4 - yoe / 100))%Z in
  let mp := ((5 * doy + 2) / 153)%Z in
  let d := (doy - (153 * mp + 2) / 5 + 1)%Z in
  let m := (if mp <? 10 then mp + 3 else mp - 9)%Z in
  ((if m <=? 2 then y + 1 else y)%Z, m, d).

Definition digit_char (d : Z) : ascii := ascii_of_nat (48 + Z.to_nat d).

(** The last [width] decimal digits of [n >= 0]. *)
Fixpoint pad_digits (width : nat) (n : Z) : string :=
  match width with
  | O => EmptyString
  | S w => (pad_digits w (n / 10) ++ String (digit_char (n mod 10)) EmptyString)%string
  end.

Definition iso_year (y : Z) : string :=
  if ((0 <=? y) && (y <=? 9999))%Z then pad_digits 4 y
  else ((if (y <? 0)%Z then "-" else "+") ++ pad_digits 6 (Z.abs y))%string.

(** [date.toISOString().split('T')[0]]: the UTC calendar date as text. *)
Definition isoDateString (d : Date) : string :=
  let '(y, m, dd) := civil_from_days (getTime d / MS_PER_DAY)%Z in
  (iso_year y ++ "-" ++ pad_digits 2 m ++ "-" ++ pad_digits 2 dd)%string.

(** ** Types *)

Record MarketDataPoint := mkMarket {
  md_date : Date;
  close : Q
}.

Record FearGreedDataPoint := mkFearGreed {
  fg_date : Date;
  value : Q;
  classification : string
}.

Inductive StrategyVariant :=
| Default          (* 'default' *)
| ExtremeOnly      (* 'extreme-only' *)
| ExtremeFearHold  (* 'extreme-fear-hold' *)
| Combined.        (* 'combined' *)

Definition variant_eqb (a b : StrategyVariant) : bool :=
  match a, b with
  | Default, Default | ExtremeOnly, ExtremeOnly
  | ExtremeFearHold, ExtremeFearHold | Combined, Combined => true
  | _, _ => false
  end.

Record BacktestParams := mkParams {
  marketData : list MarketDataPoint;
  fearGreedData : list FearGreedDataPoint;
  symbol : string;
  initialCapital : Q;
  strategyVariant : StrategyVariant;
  weeklyContribution : Q;
  useLumpSum : bool
}.

Inductive TradeType := buy | sell.

(** The [reason] text of a trade, kept as the template that produced it and
    the values interpolated into it. *)
Inductive Reason :=
| WeeklyContributionInvested
    (fg : option FearGreedDataPoint) (doubled : bool) (accumulated : option Q)
| TakingProfit (fg : FearGreedDataPoint) (profit : Q)
| AccumulatedCashInvested (fg : FearGreedDataPoint)
| FearSignal (fg : FearGreedDataPoint) (despiteDowntrend : bool)
| FinalCashAllocation.

Record Trade := mkTrade {
  trade_date : Date;
  trade_type : TradeType;
  price : Q;
  trade_shares : Q;
  trade_value : Q;
  reason : Reason
}.

(** ** Constants *)

Definition DEFAULT_FEAR_THRESHOLD : Z := 40.
Definition DEFAULT_GREED_THRESHOLD : Z := 85.
Definition EXTREME_FEAR_THRESHOLD : Q := 20.
Definition EXTREME_GREED_THRESHOLD : Q := 80.

(** [FEAR_THRESHOLD] and [GREED_THRESHOLD] are read once from the
    environment ([parseInt], so integers); the rest are literals. *)
Record Config := mkConfig {
  FEAR_THRESHOLD_Z : Z;
  GREED_THRESHOLD_Z : Z
}.

Definition FEAR_THRESHOLD (cfg : Config) : Q := inject_Z (FEAR_THRESHOLD_Z cfg).
Definition GREED_THRESHOLD (cfg : Config) : Q := inject_Z (GREED_THRESHOLD_Z cfg).

Definition default_config : Config :=
  mkConfig DEFAULT_FEAR_THRESHOLD DEFAULT_GREED_THRESHOLD.

Definition ALLOCATION_PERCENTAGE : Q := 0.4.
Definition SELL_PERCENTAGE : Q := 0.3.
Definition MIN_PROFIT_PERCENT : Q := 0.10.
Definition TREND_MA_PERIOD : nat := 50.
Definition DEFAULT_WEEKLY_CONTRIBUTION : Q := 500.
Definition DAYS_IN_WEEK : Q := 7.

(** ** Indicator index *)

(** The fallback scan of [findClosestFearGreedData]: [closestIndex] starts
    at [-1] and [minDiff] at [Infinity] ([None]). *)
Definition closest_step (timestamp : Z) (fearGreedData : list FearGreedDataPoint)
    (st : Z * option Z) (i : nat) : Z * option Z :=
  match nth_error fearGreedData i with
  | None => st
  | Some item =>
      let diff := Z.abs (getTime (fg_date item) - timestamp) in
      let smaller :=
        match snd st with
        | None => true
        | Some minDiff => (diff <? minDiff)%Z
        end in
      if smaller then (Z.of_nat i, Some diff) else st
  end.

Definition closest_scan (timestamp : Z) (fearGreedData : list FearGreedDataPoint)
  : Z * option Z :=
  fold_left (closest_step timestamp fearGreedData)
    (seq 0 (length fearGreedData)) ((-1)%Z, None).

Definition findClosestFearGreedData (date : Date)
    (fearGreedData : list FearGreedDataPoint) : option FearGreedDataPoint :=
  if (length fearGreedData =? 0)%nat then None
  else
    let dateStr := isoDateString date in
    let exactMatch :=
      find (fun item => String.eqb (isoDateString (fg_date item)) dateStr)
           fearGreedData in
    match exactMatch with
    | Some item => Some item
    | None =>
        let timestamp := getTime date in
        let '(closestIndex, _) := closest_scan timestamp fearGreedData in
        if (0 <=? closestIndex)%Z
        then nth_error fearGreedData (Z.to_nat closestIndex)
        else None
    end.

(** ** Drawdown tracker *)

Definition drawdown_step (st : Q * Q) (value : Q) : Q * Q :=
  let '(maxDrawdown, peak) := st in
  if Qltb peak value then (maxDrawdown, value)
  else if Qltb 0 peak then
    let drawdown := (peak - value) / peak in
    (Qmax maxDrawdown drawdown, peak)
  else st.

Definition calculateMaxDrawdown (equityCurve : list Q) : Q :=
  match equityCurve with
  | [] => 0
  | firstValue :: _ => fst (fold_left drawdown_step equityCurve (0, firstValue))
  end.

(** ** Trend detector *)

Definition calculateMovingAverage (data : list MarketDataPoint)
    (periods : nat) (endIndex : nat) : option Q :=
  if ((endIndex <? periods - 1) || (periods <=? 0))%nat then None
  else
    let start := (endIndex + 1 - periods)%nat in
    let '(sum, count) :=
      fold_left
        (fun (st : Q * Z) (i : nat) =>
           match nth_error data i with
           | None => st
           | Some item => (fst st + close item, (snd st + 1)%Z)
           end)
        (seq start (endIndex + 1 - start))
        (0, 0%Z) in
    if (0 <? count)%Z then Some (sum / inject_Z count) else None.

Definition isInDowntrend (data : list MarketDataPoint) (currentIndex : nat) : bool :=
  if (currentIndex <? TREND_MA_PERIOD)%nat then false
  else
    match calculateMovingAverage data TREND_MA_PERIOD currentIndex with
    | None => false
    | Some ma =>
        if Qeq_bool ma 0 then false
        else
          match nth_error data currentIndex with
          | None => false
          | Some day =>
              if Qeq_bool (close day) 0 then false
              else Qltb (close day) ma
          end
    end.

(** ** Cooldown policy *)

(** The [dateDiffs] array: one entry, in days, per index [1 <= i < min(10, n)]. *)
Definition dateDiffs_step (marketData : list MarketDataPoint)
    (acc : list Q) (i : nat) : list Q :=
  match nth_error marketData i, nth_error marketData (i - 1) with
  | Some current, Some previous =>
      let diff := (getTime (md_date current) - getTime (md_date previous))%Z in
      acc ++ [inject_Z diff / inject_Z MS_PER_DAY]
  | _, _ => acc
  end.

Definition dateDiffs (marketData : list MarketDataPoint) : list Q :=
  fold_left (dateDiffs_step marketData)
    (seq 1 (Nat.min 10 (length marketData) - 1)) [].

Definition avgDaysBetweenPoints (marketData : list MarketDataPoint) : Q :=
  let diffs := dateDiffs marketData in
  fold_left Qplus diffs 0 / inject_Z (Z.of_nat (length diffs)).

Definition determineCooldownPeriod (marketData : list MarketDataPoint) : Z :=
  if (length marketData <? 2)%nat then 20%Z
  else
    let avg := avgDaysBetweenPoints marketData in
    if Qltb 20 avg then 1%Z
    else if Qltb 5 avg then 3%Z
    else 15%Z.

(** ** Decision engine *)

Definition shouldInvestWeeklyAmount (cfg : Config) (fearGreedValue : option Q)
    (inDowntrend : bool) (variant : StrategyVariant) : bool :=
  match fearGreedValue with
  | None => false
  | Some v =>
      if variant_eqb variant Default && Qleb v (FEAR_THRESHOLD cfg) then true
      else if variant_eqb variant ExtremeOnly && Qleb v EXTREME_FEAR_THRESHOLD then true
      else if variant_eqb variant ExtremeFearHold && Qleb v EXTREME_FEAR_THRESHOLD then true
      else if variant_eqb variant Combined
              && (Qleb v (FEAR_THRESHOLD cfg) || Qleb v EXTREME_FEAR_THRESHOLD) then true
      else if inDowntrend && Qltb EXTREME_FEAR_THRESHOLD v then false
      else false
  end.

Definition shouldInvestDouble (fearGreedValue : option Q) : bool :=
  match fearGreedValue with
  | None => false
  | Some v => Qleb v EXTREME_FEAR_THRESHOLD
  end.

(** ** Simulation state *)

(** The counters of [debugInfo] that the loop updates, and [dataFrequency]
    ([dbg_inDowntrend] is [debugInfo.inDowntrend]).  The fields the source
    initialises and never touches again ([fearGreedAboveThreshold], [noCash],
    [inCooldown]), the echoed parameters and the sample arrays are left out. *)
Record DebugInfo := mkDebug {
  totalPossibleTrades : Z;
  noFearGreedData : Z;
  zeroShares : Z;
  executedBuys : Z;
  executedSells : Z;
  sellOpportunities : Z;
  insufficientProfit : Z;
  dbg_inDowntrend : Z;
  notExtremeFear : Z;
  notExtremeGreed : Z;
  weeklyContributionsSkipped : Z;
  weeklyContributionsInvested : Z;
  doubleInvestments : Z;
  cashAccumulated : Q;
  accumulatedCashInvested : Q;
  dataFrequency : string
}.

(** The local variables of [runBacktest] that live across loop iterations. *)
Record State := mkState {
  trades : list Trade;
  cash : Q;
  shares : Q;
  equityCurve : list Q;
  lastBuyDate : option Date;
  lastBuyPrice : option Q;
  lastSellDate : option Date;
  totalInvested : Q;
  skippedContributions : Z;
  totalContributions : Z;
  accumulatedCash : Q;
  buyAndHoldCash : Q;
  buyAndHoldShares : Q;
  lastContributionDate : Date;
  debugInfo : DebugInfo
}.

(** Assignment to one variable; every other one keeps its value. *)
Definition set_totalPossibleTrades (d : DebugInfo) (v : Z) : DebugInfo :=
  mkDebug v (noFearGreedData d) (zeroShares d) (executedBuys d)
    (executedSells d) (sellOpportunities d) (insufficientProfit d)
    (dbg_inDowntrend d) (notExtremeFear d) (notExtremeGreed d)
    (weeklyContributionsSkipped d) (weeklyContributionsInvested d)
    (doubleInvestments d) (cashAccumulated d) (accumulatedCashInvested d)
    (dataFrequency d).

Definition set_noFearGreedData (d : DebugInfo) (v : Z) : DebugInfo :=
  mkDebug (totalPossibleTrades d) v (zeroShares d) (executedBuys d)
    (executedSells d) (sellOpportunities d) (insufficientProfit d)
    (dbg_inDowntrend d) (notExtremeFear d) (notExtremeGreed d)
    (weeklyContributionsSkipped d) (weeklyContributionsInvested d)
    (doubleInvestments d) (cashAccumulated d) (accumulatedCashInvested d)
    (dataFrequency d).

Definition set_zeroShares (d : DebugInfo) (v : Z) : DebugInfo :=
  mkDebug (totalPossibleTrades d) (noFearGreedData d) v (executedBuys d)
    (executedSells d) (sellOpportunities d) (insufficientProfit d)
    (dbg_inDowntrend d) (notExtremeFear d) (notExtremeGreed d)
    (weeklyContributionsSkipped d) (weeklyContributionsInvested d)
    (doubleInvestments d) (cashAccumulated d) (accumulatedCashInvested d)
    (dataFrequency d).

Definition set_executedBuys (d : DebugInfo) (v : Z) : DebugInfo :=
  mkDebug (totalPossibleTrades d) (noFearGreedData d) (zeroShares d) v
    (executedSells d) (sellOpportunities d) (insufficientProfit d)
    (dbg_inDowntrend d) (notExtremeFear d) (notExtremeGreed d)
    (weeklyContributionsSkipped d) (weeklyContributionsInvested d)
    (doubleInvestments d) (cashAccumulated d) (accumulatedCashInvested d)
    (dataFrequency d).

Definition set_executedSells (d : DebugInfo) (v : Z) : DebugInfo :=
  mkDebug (totalPossibleTrades d) (noFearGreedData d) (zeroShares d)
    (executedBuys d) v (sellOpportunities d) (insufficientProfit d)
    (dbg_inDowntrend d) (notExtremeFear d) (notExtremeGreed d)
    (weeklyContributionsSkipped d) (weeklyContributionsInvested d)
    (doubleInvestments d) (cashAccumulated d) (accumulatedCashInvested d)
    (dataFrequency d).

Definition set_sellOpportunities (d : DebugInfo) (v : Z) : DebugInfo :=
  mkDebug (totalPossibleTrades d) (noFearGreedData d) (zeroShares d)
    (executedBuys d) (executedSells d) v (insufficientProfit d)
    (dbg_inDowntrend d) (notExtremeFear d) (notExtremeGreed d)
    (weeklyContributionsSkipped d) (weeklyContributionsInvested d)
    (doubleInvestments d) (cashAccumulated d) (accumulatedCashInvested d)
    (dataFrequency d).

Definition set_insufficientProfit (d : DebugInfo) (v : Z) : DebugInfo :=
  mkDebug (totalPossibleTrades d) (noFearGreedData d) (zeroShares d)
    (executedBuys d) (executedSells d) (sellOpportunities d) v
    (dbg_inDowntrend d) (notExtremeFear d) (notExtremeGreed d)
    (weeklyContributionsSkipped d) (weeklyContributionsInvested d)
    (doubleInvestments d) (cashAccumulated d) (accumulatedCashInvested d)
    (dataFrequency d).

Definition set_dbg_inDowntrend (d : DebugInfo) (v : Z) : DebugInfo :=
  mkDebug (totalPossibleTrades d) (noFearGreedData d) (zeroShares d)
    (executedBuys d) (executedSells d) (sellOpportunities d)
    (insufficientProfit d) v (notExtremeFear d) (notExtremeGreed d)
    (weeklyContributionsSkipped d) (weeklyContributionsInvested d)
    (doubleInvestments d) (cashAccumulated d) (accumulatedCashInvested d)
    (dataFrequency d).

Definition set_notExtremeFear (d : DebugInfo) (v : Z) : DebugInfo :=
  mkDebug (totalPossibleTrades d) (noFearGreedData d) (zeroShares d)
    (executedBuys d) (executedSells d) (sellOpportunities d)
    (insufficientProfit d) (dbg_inDowntrend d) v (notExtremeGreed d)
    (weeklyContributionsSkipped d) (weeklyContributionsInvested d)
    (doubleInvestments d) (cashAccumulated d) (accumulatedCashInvested d)
    (dataFrequency d).

Definition set_notExtremeGreed (d : DebugInfo) (v : Z) : DebugInfo :=
  mkDebug (totalPossibleTrades d) (noFearGreedData d) (zeroShares d)
    (executedBuys d) (executedSells d) (sellOpportunities d)
    (insufficientProfit d) (dbg_inDowntrend d) (notExtremeFear d) v
    (weeklyContributionsSkipped d) (weeklyContributionsInvested d)
    (doubleInvestments d) (cashAccumulated d) (accumulatedCashInvested d)
    (dataFrequency d).

Definition set_weeklyContributionsSkipped (d : DebugInfo) (v : Z) : DebugInfo :=
  mkDebug (totalPossibleTrades d) (noFearGreedData d) (zeroShares d)
    (executedBuys d) (executedSells d) (sellOpportunities d)
    (insufficientProfit d) (dbg_inDowntrend d) (notExtremeFear d)
    (notExtremeGreed d) v (weeklyContributionsInvested d) (doubleInvestments
    d) (cashAccumulated d) (accumulatedCashInvested d) (dataFrequency d).

Definition set_weeklyContributionsInvested (d : DebugInfo) (v : Z) : DebugInfo :=
  mkDebug (totalPossibleTrades d) (noFearGreedData d) (zeroShares d)
    (executedBuys d) (executedSells d) (sellOpportunities d)
    (insufficientProfit d) (dbg_inDowntrend d) (notExtremeFear d)
    (notExtremeGreed d) (weeklyContributionsSkipped d) v (doubleInvestments
    d) (cashAccumulated d) (accumulatedCashInvested d) (dataFrequency d).

Definition set_doubleInvestments (d : DebugInfo) (v : Z) : DebugInfo :=
  mkDebug (totalPossibleTrades d) (noFearGreedData d) (zeroShares d)
    (executedBuys d) (executedSells d) (sellOpportunities d)
    (insufficientProfit d) (dbg_inDowntrend d) (notExtremeFear d)
    (notExtremeGreed d) (weeklyContributionsSkipped d)
    (weeklyContributionsInvested d) v (cashAccumulated d)
    (accumulatedCashInvested d) (dataFrequency d).

Definition set_cashAccumulated (d : DebugInfo) (v : Q) : DebugInfo :=
  mkDebug (totalPossibleTrades d) (noFearGreedData d) (zeroShares d)
    (executedBuys d) (executedSells d) (sellOpportunities d)
    (insufficientProfit d) (dbg_inDowntrend d) (notExtremeFear d)
    (notExtremeGreed d) (weeklyContributionsSkipped d)
    (weeklyContributionsInvested d) (doubleInvestments d) v
    (accumulatedCashInvested d) (dataFrequency d).

Definition set_accumulatedCashInvested (d : DebugInfo) (v : Q) : DebugInfo :=
  mkDebug (totalPossibleTrades d) (noFearGreedData d) (zeroShares d)
    (executedBuys d) (executedSells d) (sellOpportunities d)
    (insufficientProfit d) (dbg_inDowntrend d) (notExtremeFear d)
    (notExtremeGreed d) (weeklyContributionsSkipped d)
    (weeklyContributionsInvested d) (doubleInvestments d) (cashAccumulated
    d) v (dataFrequency d).

Definition set_dataFrequency (d : DebugInfo) (v : string) : DebugInfo :=
  mkDebug (totalPossibleTrades d) (noFearGreedData d) (zeroShares d)
    (executedBuys d) (executedSells d) (sellOpportunities d)
    (insufficientProfit d) (dbg_inDowntrend d) (notExtremeFear d)
    (notExtremeGreed d) (weeklyContributionsSkipped d)
    (weeklyContributionsInvested d) (doubleInvestments d) (cashAccumulated
    d) (accumulatedCashInvested d) v.

Definition set_trades (s : State) (v : list Trade) : State :=
  mkState v (cash s) (shares s) (equityCurve s) (lastBuyDate s)
    (lastBuyPrice s) (lastSellDate s) (totalInvested s)
    (skippedContributions s) (totalContributions s) (accumulatedCash s)
    (buyAndHoldCash s) (buyAndHoldShares s) (lastContributionDate s)
    (debugInfo s).

Definition set_cash (s : State) (v : Q) : State :=
  mkState (trades s) v (shares s) (equityCurve s) (lastBuyDate s)
    (lastBuyPrice s) (lastSellDate s) (totalInvested s)
    (skippedContributions s) (totalContributions s) (accumulatedCash s)
    (buyAndHoldCash s) (buyAndHoldShares s) (lastContributionDate s)
    (debugInfo s).

Definition set_shares (s : State) (v : Q) : State :=
  mkState (trades s) (cash s) v (equityCurve s) (lastBuyDate s)
    (lastBuyPrice s) (lastSellDate s) (totalInvested s)
    (skippedContributions s) (totalContributions s) (accumulatedCash s)
    (buyAndHoldCash s) (buyAndHoldShares s) (lastContributionDate s)
    (debugInfo s).

Definition set_equityCurve (s : State) (v : list Q) : State :=
  mkState (trades s) (cash s) (shares s) v (lastBuyDate s) (lastBuyPrice s)
    (lastSellDate s) (totalInvested s) (skippedContributions s)
    (totalContributions s) (accumulatedCash s) (buyAndHoldCash s)
    (buyAndHoldShares s) (lastContributionDate s) (debugInfo s).

Definition set_lastBuyDate (s : State) (v : option Date) : State :=
  mkState (trades s) (cash s) (shares s) (equityCurve s) v (lastBuyPrice s)
    (lastSellDate s) (totalInvested s) (skippedContributions s)
    (totalContributions s) (accumulatedCash s) (buyAndHoldCash s)
    (buyAndHoldShares s) (lastContributionDate s) (debugInfo s).

Definition set_lastBuyPrice (s : State) (v : option Q) : State :=
  mkState (trades s) (cash s) (shares s) (equityCurve s) (lastBuyDate s) v
    (lastSellDate s) (totalInvested s) (skippedContributions s)
    (totalContributions s) (accumulatedCash s) (buyAndHoldCash s)
    (buyAndHoldShares s) (lastContributionDate s) (debugInfo s).

Definition set_lastSellDate (s : State) (v : option Date) : State :=
  mkState (trades s) (cash s) (shares s) (equityCurve s) (lastBuyDate s)
    (lastBuyPrice s) v (totalInvested s) (skippedContributions s)
    (totalContributions s) (accumulatedCash s) (buyAndHoldCash s)
    (buyAndHoldShares s) (lastContributionDate s) (debugInfo s).

Definition set_totalInvested (s : State) (v : Q) : State :=
  mkState (trades s) (cash s) (shares s) (equityCurve s) (lastBuyDate s)
    (lastBuyPrice s) (lastSellDate s) v (skippedContributions s)
    (totalContributions s) (accumulatedCash s) (buyAndHoldCash s)
    (buyAndHoldShares s) (lastContributionDate s) (debugInfo s).

Definition set_skippedContributions (s : State) (v : Z) : State :=
  mkState (trades s) (cash s) (shares s) (equityCurve s) (lastBuyDate s)
    (lastBuyPrice s) (lastSellDate s) (totalInvested s) v
    (totalContributions s) (accumulatedCash s) (buyAndHoldCash s)
    (buyAndHoldShares s) (lastContributionDate s) (debugInfo s).

Definition set_totalContributions (s : State) (v : Z) : State :=
  mkState (trades s) (cash s) (shares s) (equityCurve s) (lastBuyDate s)
    (lastBuyPrice s) (lastSellDate s) (totalInvested s)
    (skippedContributions s) v (accumulatedCash s) (buyAndHoldCash s)
    (buyAndHoldShares s) (lastContributionDate s) (debugInfo s).

Definition set_accumulatedCash (s : State) (v : Q) : State :=
  mkState (trades s) (cash s) (shares s) (equityCurve s) (lastBuyDate s)
    (lastBuyPrice s) (lastSellDate s) (totalInvested s)
    (skippedContributions s) (totalContributions s) v (buyAndHoldCash s)
    (buyAndHoldShares s) (lastContributionDate s) (debugInfo s).

Definition set_buyAndHoldCash (s : State) (v : Q) : State :=
  mkState (trades s) (cash s) (shares s) (equityCurve s) (lastBuyDate s)
    (lastBuyPrice s) (lastSellDate s) (totalInvested s)
    (skippedContributions s) (totalContributions s) (accumulatedCash s) v
    (buyAndHoldShares s) (lastContributionDate s) (debugInfo s).

Definition set_buyAndHoldShares (s : State) (v : Q) : State :=
  mkState (trades s) (cash s) (shares s) (equityCurve s) (lastBuyDate s)
    (lastBuyPrice s) (lastSellDate s) (totalInvested s)
    (skippedContributions s) (totalContributions s) (accumulatedCash s)
    (buyAndHoldCash s) v (lastContributionDate s) (debugInfo s).

Definition set_lastContributionDate (s : State) (v : Date) : State :=
  mkState (trades s) (cash s) (shares s) (equityCurve s) (lastBuyDate s)
    (lastBuyPrice s) (lastSellDate s) (totalInvested s)
    (skippedContributions s) (totalContributions s) (accumulatedCash s)
    (buyAndHoldCash s) (buyAndHoldShares s) v (debugInfo s).

Definition set_debugInfo (s : State) (v : DebugInfo) : State :=
  mkState (trades s) (cash s) (shares s) (equityCurve s) (lastBuyDate s)
    (lastBuyPrice s) (lastSellDate s) (totalInvested s)
    (skippedContributions s) (totalContributions s) (accumulatedCash s)
    (buyAndHoldCash s) (buyAndHoldShares s) (lastContributionDate s) v.
(** [debugInfo.f++] and [debugInfo.f += x], through the state. *)
Definition debug (f : DebugInfo -> DebugInfo) (s : State) : State :=
  set_debugInfo s (f (debugInfo s)).

Definition push_trade (s : State) (t : Trade) : State :=
  set_trades s (trades s ++ [t]).

Definition ENABLE_FRACTIONAL_SHARES : bool := true.

(** [ENABLE_FRACTIONAL_SHARES ? amount / price : Math.floor(amount / price)] *)
Definition sharesFor (amount price : Q) : Q :=
  if ENABLE_FRACTIONAL_SHARES then amount / price
  else inject_Z (Qfloor (amount / price)).

Inductive BacktestError :=
| NoMarketData (sym : string)
| InvalidMarketData (sym : string)
| InvalidFinalMarketData (sym : string).

Record StrategyResult := mkResult {
  res_symbol : string;
  res_strategyName : string;
  res_trades : list Trade;
  res_finalValue : Q;
  res_totalReturn : JsNum;
  res_annualizedReturn : Annualized;
  res_maxDrawdown : Q;
  res_buyAndHoldValue : Q;
  res_buyAndHoldReturn : JsNum;
  res_skippedContributions : Z;
  res_totalContributions : Z;
  res_totalInvested : Q;
  res_debugInfo : DebugInfo
}.

Section Simulation.

Variable cfg : Config.
Variable params : BacktestParams.
(** [cooldownPeriods], fixed before the loop starts. *)
Variable cooldownPeriods : Z.

(** The body shared by the three buys inside the loop: the ledger update,
    the last-buy bookkeeping and the trade-log entry. *)
Definition record_buy (currentDay : MarketDataPoint) (sharesToBuy : Q)
    (why : Reason) (s : State) : State :=
  let cost := sharesToBuy * close currentDay in
  let s := set_shares s (shares s + sharesToBuy) in
  let s := set_cash s (cash s - cost) in
  let s := set_lastBuyDate s (Some (md_date currentDay)) in
  let s := set_lastBuyPrice s (Some (close currentDay)) in
  let s := debug (fun d => set_executedBuys d (executedBuys d + 1)%Z) s in
  push_trade s
    (mkTrade (md_date currentDay) buy (close currentDay) sharesToBuy cost why).

(** A due contribution that is invested now. *)
Definition invest_contribution (currentDay : MarketDataPoint)
    (fearGreedToday : option FearGreedDataPoint) (s : State) : State :=
  let w := weeklyContribution params in
  let fgValue := option_map value fearGreedToday in
  let doubleInvestment := shouldInvestDouble fgValue in
  let amountToInvest := if doubleInvestment then w * 2 else w in
  let s :=
    if doubleInvestment
    then debug (fun d => set_doubleInvestments d (doubleInvestments d + 1)%Z) s
    else s in
  let foldAccumulated :=
    match fgValue with
    | Some v => Qleb v EXTREME_FEAR_THRESHOLD && Qltb 0 (accumulatedCash s)
    | None => false
    end in
  let acc := accumulatedCash s in
  let amountToInvest :=
    if foldAccumulated then amountToInvest + acc else amountToInvest in
  let s :=
    if foldAccumulated then
      let s := debug (fun d =>
                 set_accumulatedCashInvested d (accumulatedCashInvested d + acc)) s in
      let s := debug (fun d => set_cashAccumulated d (cashAccumulated d - acc)) s in
      let s := set_totalInvested s (totalInvested s + acc) in
      set_accumulatedCash s 0
    else s in
  let s := set_cash s (cash s + amountToInvest) in
  let s := set_totalInvested s (totalInvested s + w) in
  let s := debug (fun d =>
             set_weeklyContributionsInvested d
               (weeklyContributionsInvested d + 1)%Z) s in
  if Qltb 0 (cash s) then
    let sharesToBuy := sharesFor (cash s) (close currentDay) in
    if Qltb 0 sharesToBuy then
      record_buy currentDay sharesToBuy
        (WeeklyContributionInvested fearGreedToday doubleInvestment
           (if Qltb (w * 2) amountToInvest
            then Some (amountToInvest - (if doubleInvestment then w * 2 else w))
            else None))
        s
    else s
  else s.

(** A due contribution that is held back. *)
Definition defer_contribution (s : State) : State :=
  let w := weeklyContribution params in
  let s := set_accumulatedCash s (accumulatedCash s + w) in
  let s := debug (fun d => set_cashAccumulated d (cashAccumulated d + w)) s in
  let s := set_skippedContributions s (skippedContributions s + 1)%Z in
  debug (fun d =>
    set_weeklyContributionsSkipped d (weeklyContributionsSkipped d + 1)%Z) s.

(** [if (!useLumpSum) { ... }]: the weekly contribution. *)
Definition contribution_phase (i : nat) (currentDay : MarketDataPoint)
    (fearGreedToday : option FearGreedDataPoint) (s : State) : State :=
  if useLumpSum params then s
  else
    let daysSinceLastContribution :=
      inject_Z (getTime (md_date currentDay) - getTime (lastContributionDate s))
      / inject_Z MS_PER_DAY in
    if Qleb DAYS_IN_WEEK daysSinceLastContribution then
      let s := set_totalContributions s (totalContributions s + 1)%Z in
      let s := set_lastContributionDate s (md_date currentDay) in
      let s := set_buyAndHoldCash s (buyAndHoldCash s + weeklyContribution params) in
      let newBuyAndHoldShares := buyAndHoldCash s / close currentDay in
      let s := set_buyAndHoldShares s (buyAndHoldShares s + newBuyAndHoldShares) in
      let s := set_buyAndHoldCash s 0 in
      let inDowntrend := isInDowntrend (marketData params) i in
      if shouldInvestWeeklyAmount cfg (option_map value fearGreedToday)
           inDowntrend (strategyVariant params)
      then invest_contribution currentDay fearGreedToday s
      else defer_contribution s
    else s.

(** The sell signal of the variant. *)
Definition shouldSell (v : Q) : bool :=
  let variant := strategyVariant params in
  if variant_eqb variant Default && Qleb (GREED_THRESHOLD cfg) v then true
  else if variant_eqb variant ExtremeOnly && Qleb EXTREME_GREED_THRESHOLD v then true
  else if variant_eqb variant Combined
          && (Qleb (GREED_THRESHOLD cfg) v || Qleb EXTREME_GREED_THRESHOLD v)
  then true
  else false.

(** SELL STRATEGY *)
Definition sell_phase (currentDay : MarketDataPoint)
    (fearGreedToday : FearGreedDataPoint) (s : State) : State :=
  if negb (variant_eqb (strategyVariant params) ExtremeFearHold)
     && Qltb 0 (shares s)
  then
    match lastBuyPrice s with
    | None => s
    | Some lastBuyPrice =>
        if shouldSell (value fearGreedToday) then
          let s := debug (fun d =>
                     set_sellOpportunities d (sellOpportunities d + 1)%Z) s in
          let currentProfit := (close currentDay - lastBuyPrice) / lastBuyPrice in
          if Qleb MIN_PROFIT_PERCENT currentProfit then
            let sharesToSell := shares s * SELL_PERCENTAGE in
            let sellValue := sharesToSell * close currentDay in
            if Qltb 0 sharesToSell then
              let s := set_shares s (shares s - sharesToSell) in
              let s := set_cash s (cash s + sellValue) in
              let s := set_lastSellDate s (Some (md_date currentDay)) in
              let s := debug (fun d =>
                         set_executedSells d (executedSells d + 1)%Z) s in
              push_trade s
                (mkTrade (md_date currentDay) sell (close currentDay)
                   sharesToSell sellValue
                   (TakingProfit fearGreedToday currentProfit))
            else s
          else
            debug (fun d =>
              set_insufficientProfit d (insufficientProfit d + 1)%Z) s
        else if Qltb (value fearGreedToday) EXTREME_GREED_THRESHOLD then
          debug (fun d => set_notExtremeGreed d (notExtremeGreed d + 1)%Z) s
        else s
    end
  else s.

(** Release of the accumulated cash during extreme fear. *)
Definition release_phase (currentDay : MarketDataPoint)
    (fearGreedToday : FearGreedDataPoint) (inCooldown : bool) (s : State) : State :=
  if negb (useLumpSum params)
     && Qltb 0 (accumulatedCash s)
     && Qleb (value fearGreedToday) EXTREME_FEAR_THRESHOLD
     && negb inCooldown
  then
    let cashToInvest := accumulatedCash s in
    let s := set_cash s (cash s + cashToInvest) in
    let s := set_accumulatedCash s 0 in
    let s := debug (fun d =>
               set_accumulatedCashInvested d
                 (accumulatedCashInvested d + cashToInvest)) s in
    let s := set_totalInvested s (totalInvested s + cashToInvest) in
    if Qltb 0 (cash s) then
      let sharesToBuy := sharesFor (cash s) (close currentDay) in
      if Qltb 0 sharesToBuy then
        record_buy currentDay sharesToBuy (AccumulatedCashInvested fearGreedToday) s
      else s
    else s
  else s.

(** The buy signal of the variant on the lump-sum path. *)
Definition shouldBuy (v : Q) : bool :=
  let variant := strategyVariant params in
  if variant_eqb variant Default && Qleb v (FEAR_THRESHOLD cfg) then true
  else if variant_eqb variant ExtremeOnly && Qleb v EXTREME_FEAR_THRESHOLD then true
  else if variant_eqb variant ExtremeFearHold && Qleb v EXTREME_FEAR_THRESHOLD then true
  else if variant_eqb variant Combined
          && (Qleb v (FEAR_THRESHOLD cfg) || Qleb v EXTREME_FEAR_THRESHOLD)
  then true
  else false.

Definition allocationMultiplier (v : Q) : Q :=
  let fearLevel := Qmax 0 (FEAR_THRESHOLD cfg - v) / FEAR_THRESHOLD cfg in
  if Qleb v EXTREME_FEAR_THRESHOLD
  then ALLOCATION_PERCENTAGE + fearLevel * 0.3
  else ALLOCATION_PERCENTAGE + fearLevel * 0.1.

(** BUY STRATEGY, lump sum only *)
Definition lump_sum_phase (currentDay : MarketDataPoint)
    (fearGreedToday : FearGreedDataPoint) (inCooldown inDowntrend : bool)
    (s : State) : State :=
  if useLumpSum params then
    let v := value fearGreedToday in
    let s :=
      if shouldBuy v then s
      else debug (fun d => set_notExtremeFear d (notExtremeFear d + 1)%Z) s in
    if shouldBuy v
       && Qltb 0 (cash s)
       && negb inCooldown
       && (variant_eqb (strategyVariant params) ExtremeFearHold
           || negb inDowntrend
           || Qleb v EXTREME_FEAR_THRESHOLD)
    then
      let cashToSpend := cash s * allocationMultiplier v in
      let sharesToBuy := sharesFor cashToSpend (close currentDay) in
      if Qltb 0 sharesToBuy then
        record_buy currentDay sharesToBuy (FearSignal fearGreedToday inDowntrend) s
      else debug (fun d => set_zeroShares d (zeroShares d + 1)%Z) s
    else s
  else s.

Definition inBuyCooldown (currentDay : MarketDataPoint) (s : State) : bool :=
  match lastBuyDate s with
  | None => false
  | Some d =>
      (getTime (md_date currentDay) - getTime d
       <? cooldownPeriods * 24 * 60 * 60 * 1000)%Z
  end.

Definition inSellCooldown (currentDay : MarketDataPoint) (s : State) : bool :=
  match lastSellDate s with
  | None => false
  | Some d =>
      (getTime (md_date currentDay) - getTime d
       <? Qceiling (inject_Z cooldownPeriods / 2) * 24 * 60 * 60 * 1000)%Z
  end.

(** One iteration of the loop over the trading days. *)
Definition day_step (s : State) (i : nat) : State :=
  match nth_error (marketData params) i with
  | None => s
  | Some currentDay =>
      let s := debug (fun d =>
                 set_totalPossibleTrades d (totalPossibleTrades d + 1)%Z) s in
      let fearGreedToday :=
        findClosestFearGreedData (md_date currentDay) (fearGreedData params) in
      let s := contribution_phase i currentDay fearGreedToday s in
      let portfolioValue := cash s + shares s * close currentDay in
      let s := set_equityCurve s (equityCurve s ++ [portfolioValue]) in
      let inCooldown := inBuyCooldown currentDay s || inSellCooldown currentDay s in
      match fearGreedToday with
      | None =>
          debug (fun d => set_noFearGreedData d (noFearGreedData d + 1)%Z) s
      | Some fg =>
          let inDowntrend := isInDowntrend (marketData params) i in
          let s :=
            if inDowntrend
            then debug (fun d => set_dbg_inDowntrend d (dbg_inDowntrend d + 1)%Z) s
            else s in
          let s := sell_phase currentDay fg s in
          let s := release_phase currentDay fg inCooldown s in
          lump_sum_phase currentDay fg inCooldown inDowntrend s
      end
  end.

(** The state after the first [k] iterations. *)
Definition simulate_days (init : State) (k : nat) : State :=
  fold_left day_step (seq 0 k) init.

(** The final purchase with whatever cash is left. *)
Definition final_sweep (finalDay : MarketDataPoint) (s : State) : State :=
  if Qltb 0 (cash s) then
    let finalSharesToBuy := sharesFor (cash s) (close finalDay) in
    if Qltb 0 finalSharesToBuy then
      let cost := finalSharesToBuy * close finalDay in
      let s := set_shares s (shares s + finalSharesToBuy) in
      let s := set_cash s (cash s - cost) in
      let s := debug (fun d => set_executedBuys d (executedBuys d + 1)%Z) s in
      push_trade s
        (mkTrade (md_date finalDay) buy (close finalDay) finalSharesToBuy cost
           FinalCashAllocation)
    else debug (fun d => set_zeroShares d (zeroShares d + 1)%Z) s
  else s.

End Simulation.

(** ** The backtest *)

Definition strategyNameOf (variant : StrategyVariant) : string :=
  match variant with
  | Default => "Fear & Greed"
  | ExtremeOnly => "Extreme Fear & Greed Only"
  | ExtremeFearHold => "Extreme Fear Buy & Hold"
  | Combined => "Combined Approach"
  end.

Definition dataFrequencyOf (marketData : list MarketDataPoint) : string :=
  if (2 <=? length marketData)%nat then
    let avg := avgDaysBetweenPoints marketData in
    if Qltb 60 avg then "quarterly"
    else if Qltb 25 avg then "monthly"
    else if Qltb 5 avg then "weekly"
    else "daily"
  else "unknown".

Definition initial_debug (params : BacktestParams) : DebugInfo :=
  mkDebug 0 0 0 0 0 0 0 0 0 0 0 0 0 0 0 (dataFrequencyOf (marketData params)).

(** The variables as they stand when the loop is entered. *)
Definition initial_state (params : BacktestParams)
    (firstDayData : MarketDataPoint) : State :=
  let start := if useLumpSum params then initialCapital params else 0 in
  {| trades := [];
     cash := start;
     shares := 0;
     equityCurve := [start];
     lastBuyDate := None;
     lastBuyPrice := None;
     lastSellDate := None;
     totalInvested := start;
     skippedContributions := 0;
     totalContributions := 0;
     accumulatedCash := 0;
     buyAndHoldCash := start;
     buyAndHoldShares :=
       if useLumpSum params
       then initialCapital params / close firstDayData
       else 0;
     lastContributionDate := md_date firstDayData;
     debugInfo := initial_debug params |}.

(** The state after the first [k] trading days of a run. *)
Definition state_after (cfg : Config) (params : BacktestParams)
    (firstDayData : MarketDataPoint) (k : nat) : State :=
  simulate_days cfg params (determineCooldownPeriod (marketData params))
    (initial_state params firstDayData) k.

(** The metrics computed from the state once the final purchase is made. *)
Definition summarize (params : BacktestParams)
    (firstDayData finalDay : MarketDataPoint) (s : State) : StrategyResult :=
  let finalValue := cash s + shares s * close finalDay + accumulatedCash s in
  let totalInvested :=
    if useLumpSum params then totalInvested s
    else totalInvested s + accumulatedCash s in
  let totalReturn := jssub (jsdiv finalValue totalInvested) 1 in
  let yearFraction :=
    inject_Z (getTime (md_date finalDay) - getTime (md_date firstDayData))
    / inject_Z (1000 * 60 * 60 * 24 * 365) in
  let annualizedReturn :=
    pow_minus_one (Math_pow (jsadd totalReturn 1) (jsdiv 1 yearFraction)) in
  let buyAndHoldValue := buyAndHoldShares s * close finalDay in
  let buyAndHoldReturn := jssub (jsdiv buyAndHoldValue totalInvested) 1 in
  let maxDrawdown := calculateMaxDrawdown (equityCurve s) in
  {| res_symbol := symbol params;
     res_strategyName := strategyNameOf (strategyVariant params);
     res_trades := trades s;
     res_finalValue := finalValue;
     res_totalReturn := totalReturn;
     res_annualizedReturn := annualizedReturn;
     res_maxDrawdown := maxDrawdown;
     res_buyAndHoldValue := buyAndHoldValue;
     res_buyAndHoldReturn := buyAndHoldReturn;
     res_skippedContributions := skippedContributions s;
     res_totalContributions := totalContributions s;
     res_totalInvested := totalInvested;
     res_debugInfo := debugInfo s |}.

Definition runBacktest (cfg : Config) (params : BacktestParams)
  : BacktestError + StrategyResult :=
  match marketData params with
  | [] => inl (NoMarketData (symbol params))
  | firstDayData :: _ =>
      let n := length (marketData params) in
      let s := state_after cfg params firstDayData n in
      match nth_error (marketData params) (n - 1) with
      | None => inl (InvalidFinalMarketData (symbol params))
      | Some finalDay =>
          inr (summarize params firstDayData finalDay (final_sweep finalDay s))
      end
  end.


(** ** All the variants *)

Definition strategyVariants : list StrategyVariant :=
  [Default; ExtremeOnly; ExtremeFearHold; Combined].

(** [{...params, strategyVariant: variant, useLumpSum: false,
      weeklyContribution: 500}] *)
Definition variantParams (params : BacktestParams) (variant : StrategyVariant)
  : BacktestParams :=
  {| marketData := marketData params;
     fearGreedData := fearGreedData params;
     symbol := symbol params;
     initialCapital := initialCapital params;
     strategyVariant := variant;
     weeklyContribution := 500;
     useLumpSum := false |}.

(** The loop over the variants; an error of [runBacktest] ends it.  The
    [strategyVariant] of [params] is not read: the source's parameter type
    has no such field. *)
Definition runAllStrategyVariations (cfg : Config) (params : BacktestParams)
  : BacktestError + list StrategyResult :=
  fold_left
    (fun (acc : BacktestError + list StrategyResult) (variant : StrategyVariant) =>
       match acc with
       | inl e => inl e
       | inr results =>
           match runBacktest cfg (variantParams params variant) with
           | inl e => inl e
           | inr result => inr (results ++ [result])
           end
       end)
    strategyVariants (inr []).

(** ** The report ([formatResults]) *)

Definition isBuy (t : Trade) : bool :=
  match trade_type t with buy => true | sell => false end.
Definition isSell (t : Trade) : bool :=
  match trade_type t with sell => true | buy => false end.

(** [buyTrades] and [sellTrades] of the report. *)
Definition buyTrades (results : StrategyResult) : nat :=
  length (filter isBuy (res_trades results)).
Definition sellTrades (results : StrategyResult) : nat :=
  length (filter isSell (res_trades results)).

(** [a - b], [a > b] and [Math.abs(a)] on numbers that may be infinite or
    [NaN]. *)
Definition jsminus (a b : JsNum) : JsNum :=
  match a, b with
  | JNaN, _ | _, JNaN => JNaN
  | JFin x, JFin y => JFin (x - y)
  | JFin _, JPosInf => JNegInf
  | JFin _, JNegInf => JPosInf
  | JPosInf, JPosInf => JNaN
  | JPosInf, _ => JPosInf
  | JNegInf, JNegInf => JNaN
  | JNegInf, _ => JNegInf
  end.

Definition jsgtb (a b : JsNum) : bool :=
  match a, b with
  | JNaN, _ | _, JNaN => false
  | JFin x, JFin y => Qltb y x
  | JFin _, JPosInf => false
  | JFin _, JNegInf => true
  | JPosInf, JPosInf => false
  | JPosInf, _ => true
  | JNegInf, _ => false
  end.

Definition jsabs (a : JsNum) : JsNum :=
  match a with
  | JFin x => JFin (Qabs x)
  | JPosInf | JNegInf => JPosInf
  | JNaN => JNaN
  end.

(** The verdict line of the report, with the amount it prints. *)
Inductive Comparison :=
| OUTPERFORMED (amount : JsNum)
| UNDERPERFORMED (amount : JsNum)
| MATCHED.

Definition comparison (results : StrategyResult) : Comparison :=
  let outperformance :=
    jsminus (res_totalReturn results) (res_buyAndHoldReturn results) in
  if jsgtb outperformance (JFin 0) then OUTPERFORMED outperformance
  else if jsgtb (JFin 0) outperformance then UNDERPERFORMED (jsabs outperformance)
  else MATCHED.

(** ** The best strategy ([main]) *)

(** The best-strategy scan of [main]: index of the result with the highest
    [totalReturn], [None] for no results. *)
Definition best_step (results : list StrategyResult) (st : nat * JsNum) (i : nat)
  : nat * JsNum :=
  match nth_error results i with
  | None => st
  | Some result =>
      if jsgtb (res_totalReturn result) (snd st)
      then (i, res_totalReturn result)
      else st
  end.

Definition bestStrategyIndex (results : list StrategyResult) : option nat :=
  match results with
  | [] => None
  | firstResult :: _ =>
      Some (fst (fold_left (best_step results)
                   (seq 1 (length results - 1))
                   (0%nat, res_totalReturn firstResult)))
  end.

(** ** Reference notions used to state the properties *)








(** The running maximum of an equity curve up to and including index [i]. *)
Definition running_peak (l : list Q) (i : nat) : Q :=
  fold_left Qmax (firstn (S i) l) (hd 0 l).

(** The drawdown at index [i], measured from the running peak. *)
Definition drawdown_at (l : list Q) (i : nat) : Q :=
  (running_peak l i - nth i l 0) / running_peak l i.

Definition nondecreasing (l : list Q) : Prop :=
  forall i, (S i < length l)%nat -> nth i l 0 <= nth (S i) l 0.

(** What the drawdown loop holds after the first [k] values. *)
Definition drawdown_invariant (l : list Q) (k : nat) (st : Q * Q) : Prop :=
  snd st = fold_left Qmax (firstn k l) (hd 0 l)
  /\ 0 <= fst st <= 1
  /\ (forall i, (i < k)%nat -> drawdown_at l i <= fst st)
  /\ (fst st == 0 \/ exists i, (i < k)%nat /\ fst st == drawdown_at l i).

(** How one operation of the loop can change the trade log and the last-buy
    price: not at all, by appending a buy, or by appending a sell, which
    needs a recorded last-buy price and a variant other than
    'extreme-fear-hold'. *)
Inductive log_step (variant : StrategyVariant) (s s' : State) : Prop :=
| log_same :
    trades s' = trades s -> lastBuyPrice s' = lastBuyPrice s ->
    log_step variant s s'
| log_buy (t : Trade) :
    trades s' = trades s ++ [t] -> trade_type t = buy ->
    log_step variant s s'
| log_sell (t : Trade) :
    trades s' = trades s ++ [t] -> trade_type t = sell ->
    lastBuyPrice s' = lastBuyPrice s ->
    lastBuyPrice s <> None ->
    variant <> ExtremeFearHold ->
    log_step variant s s'.

Definition noSell (log : list Trade) : Prop :=
  Forall (fun t => trade_type t = buy) log.

(** The log starts with a buy, and a last-buy price is only on record when
    the log is not empty. *)
Definition buyFirst (s : State) : Prop :=
  (forall t rest, trades s = t :: rest -> trade_type t = buy)
  /\ (lastBuyPrice s <> None -> trades s <> []).

Definition ledger_ok (s : State) : Prop := 0 <= cash s /\ 0 <= shares s.

(** Whether the lump-sum buy rule of the variant fires on [day]. *)
Definition lumpSumSignal (cfg : Config) (params : BacktestParams)
    (day : MarketDataPoint) : bool :=
  match findClosestFearGreedData (md_date day) (fearGreedData params) with
  | Some fg => shouldBuy cfg params (value fg)
  | None => false
  end.

(** The shares a lump-sum buy takes out of the untouched initial capital. *)
Definition lumpSumShares (cfg : Config) (params : BacktestParams)
    (day : MarketDataPoint) (fg : FearGreedDataPoint) : Q :=
  sharesFor (initialCapital params * allocationMultiplier cfg (value fg))
    (close day).


(** Capital the run starts with. *)
Definition startingCapital (params : BacktestParams) : Q :=
  if useLumpSum params then initialCapital params else 0.

(** Money put into [cash] from outside the ledger, read off the run's own
    counters: the starting capital, one contribution per invested week, one
    more per doubled week, and the accumulated cash released. *)
Definition capitalInjected (params : BacktestParams) (d : DebugInfo) : Q :=
  startingCapital params
  + weeklyContribution params
    * inject_Z (weeklyContributionsInvested d + doubleInvestments d)
  + accumulatedCashInvested d.

(** Value bought minus value sold over a trade log. *)
Definition signedValue (t : Trade) : Q :=
  match trade_type t with
  | buy => trade_value t
  | sell => - trade_value t
  end.

Definition netSpent (log : list Trade) : Q :=
  fold_right (fun t acc => signedValue t + acc) 0 log.

(** Every contribution due so far is either in [totalInvested] or waiting in
    [accumulatedCash]. *)
Definition contributions_accounted (params : BacktestParams) (s : State) : Prop :=
  totalInvested s + accumulatedCash s
  == startingCapital params
     + weeklyContribution params * inject_Z (totalContributions s).

(** Cash is what was injected, minus what the trades spent. *)
Definition cash_conserved (params : BacktestParams) (s : State) : Prop :=
  cash s + netSpent (trades s) == capitalInjected params (debugInfo s).

(** The part of the state these two accounts read. *)
Definition same_books (s s' : State) : Prop :=
  trades s' = trades s
  /\ cash s' = cash s
  /\ totalInvested s' = totalInvested s
  /\ accumulatedCash s' = accumulatedCash s
  /\ totalContributions s' = totalContributions s
  /\ weeklyContributionsInvested (debugInfo s')
     = weeklyContributionsInvested (debugInfo s)
  /\ doubleInvestments (debugInfo s') = doubleInvestments (debugInfo s)
  /\ accumulatedCashInvested (debugInfo s')
     = accumulatedCashInvested (debugInfo s).

Definition books (params : BacktestParams) (s : State) : Prop :=
  contributions_accounted params s /\ cash_conserved params s.

(** *** Sample runs *)

(** One price point, no sentiment data, lump sum. *)
Definition singlePointRun : BacktestParams :=
  {| marketData := [mkMarket 0%Z 100];
     fearGreedData := [];
     symbol := "S&P 500";
     initialCapital := 10000;
     strategyVariant := Default;
     weeklyContribution := 500;
     useLumpSum := true |}.


(** Two price points a week apart, extreme fear on the second, weekly
    contributions of 500. *)
Definition contributionRun : BacktestParams :=
  {| marketData := [mkMarket 0%Z 100; mkMarket (7 * MS_PER_DAY)%Z 100];
     fearGreedData := [mkFearGreed (7 * MS_PER_DAY)%Z 10 "Extreme Fear"];
     symbol := "S&P 500";
     initialCapital := 10000;
     strategyVariant := Default;
     weeklyContribution := 500;
     useLumpSum := false |}.

(** Fear at 100, then greed at 150 a month later, lump sum. *)
Definition fearThenGreed (variant : StrategyVariant) : BacktestParams :=
  {| marketData := [mkMarket 0%Z 100; mkMarket (30 * MS_PER_DAY)%Z 150];
     fearGreedData := [mkFearGreed 0%Z 10 "Extreme Fear";
                       mkFearGreed (30 * MS_PER_DAY)%Z 90 "Extreme Greed"];
     symbol := "S&P 500";
     initialCapital := 10000;
     strategyVariant := variant;
     weeklyContribution := 500;
     useLumpSum := true |}.

(** ** Reference notions for the further properties *)

(** The same parameters with another initial capital. *)
Definition withInitialCapital (params : BacktestParams) (capital : Q)
  : BacktestParams :=
  {| marketData := marketData params;
     fearGreedData := fearGreedData params;
     symbol := symbol params;
     initialCapital := capital;
     strategyVariant := strategyVariant params;
     weeklyContribution := weeklyContribution params;
     useLumpSum := useLumpSum params |}.

(** The counters of contributions agree with each other, and the deferred
    contributions are either still accumulated or were released. *)
Definition contributions_counted (params : BacktestParams) (s : State) : Prop :=
  totalContributions s
  = (skippedContributions s + weeklyContributionsInvested (debugInfo s))%Z
  /\ weeklyContributionsSkipped (debugInfo s) = skippedContributions s
  /\ accumulatedCash s + accumulatedCashInvested (debugInfo s)
     == weeklyContribution params * inject_Z (skippedContributions s).

(** The counters of executed trades agree with the trade log. *)
Definition trades_counted (s : State) : Prop :=
  executedBuys (debugInfo s) = Z.of_nat (length (filter isBuy (trades s)))
  /\ executedSells (debugInfo s) = Z.of_nat (length (filter isSell (trades s))).

(** The variables and counters of the contribution schedule. *)
Definition same_schedule (s s' : State) : Prop :=
  totalInvested s' = totalInvested s
  /\ accumulatedCash s' = accumulatedCash s
  /\ totalContributions s' = totalContributions s
  /\ skippedContributions s' = skippedContributions s
  /\ buyAndHoldShares s' = buyAndHoldShares s
  /\ lastContributionDate s' = lastContributionDate s
  /\ weeklyContributionsInvested (debugInfo s')
     = weeklyContributionsInvested (debugInfo s)
  /\ doubleInvestments (debugInfo s') = doubleInvestments (debugInfo s).

(** In lump-sum mode the contribution schedule never runs. *)
Definition schedule_idle (params : BacktestParams) (d0 : MarketDataPoint)
    (s : State) : Prop :=
  totalInvested s = initialCapital params
  /\ accumulatedCash s = 0
  /\ totalContributions s = 0%Z
  /\ skippedContributions s = 0%Z
  /\ buyAndHoldShares s = initialCapital params / close d0.

(** Every contribution invested so far was doubled. *)
Definition all_doubled (s : State) : Prop :=
  weeklyContributionsInvested (debugInfo s) = doubleInvestments (debugInfo s).

(** Contributions are at least seven days apart. *)
Definition contributions_spaced (d0 : MarketDataPoint) (s : State) : Prop :=
  (7 * MS_PER_DAY * totalContributions s
   <= getTime (lastContributionDate s) - getTime (md_date d0))%Z.

(** A trade made on [day]: it carries the day's date and close, its value is
    shares times price, and it moves a positive number of shares. *)
Definition trade_on (day : MarketDataPoint) (t : Trade) : Prop :=
  trade_date t = md_date day
  /\ price t = close day
  /\ trade_value t = trade_shares t * price t
  /\ 0 < trade_shares t.

(** The trades [s'] has on top of those of [s] were all made on [day]. *)
Definition day_log (day : MarketDataPoint) (s s' : State) : Prop :=
  exists l, trades s' = trades s ++ l /\ Forall (trade_on day) l.

(** Every trade of the log was made on a day of the price series. *)
Definition trades_on_market (marketData : list MarketDataPoint) (log : list Trade)
  : Prop :=
  Forall (fun t => exists i day,
            nth_error marketData i = Some day /\ trade_on day t) log.

(** The price series is in date order. *)
Definition dates_ascending (marketData : list MarketDataPoint) : Prop :=
  forall i j di dj,
    (i <= j)%nat ->
    nth_error marketData i = Some di -> nth_error marketData j = Some dj ->
    (getTime (md_date di) <= getTime (md_date dj))%Z.

(** The log is in date order and was made on the first [k] days. *)
Definition log_in_order (marketData : list MarketDataPoint) (k : nat)
    (log : list Trade) : Prop :=
  StronglySorted Z.le (map trade_date log)
  /\ Forall (fun t => exists j dj,
               (j < k)%nat /\ nth_error marketData j = Some dj
               /\ trade_date t = md_date dj) log.

(** The ledger is not negative and neither is any recorded valuation. *)
Definition equity_ok (s : State) : Prop :=
  ledger_ok s /\ Forall (fun v => 0 <= v) (equityCurve s).

(** The inputs of a run in their domain: positive prices, sentiment values
    and capital amounts that are not negative, a positive fear threshold. *)
Definition inputs_in_domain (cfg : Config) (params : BacktestParams) : Prop :=
  Forall (fun day => 0 < close day) (marketData params)
  /\ Forall (fun p => 0 <= value p) (fearGreedData params)
  /\ 0 < FEAR_THRESHOLD cfg
  /\ 0 <= initialCapital params
  /\ 0 <= weeklyContribution params.

(** The [periods] price points that end at index [endIndex]. *)
Definition priceWindow (data : list MarketDataPoint) (periods endIndex : nat)
  : list MarketDataPoint :=
  firstn periods (skipn (endIndex + 1 - periods) data).

Definition sumOfCloses (window : list MarketDataPoint) : Q :=
  fold_left (fun acc item => acc + close item) window 0.

(** The body of the averaging loop of [calculateMovingAverage]. *)
Definition average_step (data : list MarketDataPoint) (st : Q * Z) (i : nat)
  : Q * Z :=
  match nth_error data i with
  | None => st
  | Some item => (fst st + close item, (snd st + 1)%Z)
  end.

(** Profit of selling at [sellPrice] what was bought at [buyPrice]. *)
Definition profitOver (buyPrice sellPrice : Q) : Q :=
  (sellPrice - buyPrice) / buyPrice.

(** How one operation can change the log and the last-buy price, with the
    prices involved: a buy that records its price or (the final purchase)
    leaves the record alone, or a sell at a profit of at least
    [MIN_PROFIT_PERCENT] over the recorded price. *)
Inductive priced_step (s s' : State) : Prop :=
| priced_same :
    trades s' = trades s -> lastBuyPrice s' = lastBuyPrice s ->
    priced_step s s'
| priced_buy (t : Trade) :
    trades s' = trades s ++ [t] -> trade_type t = buy ->
    lastBuyPrice s' = Some (price t) \/ lastBuyPrice s' = lastBuyPrice s ->
    priced_step s s'
| priced_sell (t : Trade) (lastBuy : Q) :
    trades s' = trades s ++ [t] -> trade_type t = sell ->
    lastBuyPrice s = Some lastBuy -> lastBuyPrice s' = Some lastBuy ->
    MIN_PROFIT_PERCENT <= profitOver lastBuy (price t) ->
    priced_step s s'.

(** The recorded last-buy price is the price of a buy of the log, and every
    sell of the log made the minimum profit over an earlier buy. *)
Definition sells_at_profit (s : State) : Prop :=
  (forall p, lastBuyPrice s = Some p ->
     exists i b, nth_error (trades s) i = Some b
                 /\ trade_type b = buy /\ price b = p)
  /\ (forall j t, nth_error (trades s) j = Some t -> trade_type t = sell ->
        exists i b, (i < j)%nat /\ nth_error (trades s) i = Some b
                    /\ trade_type b = buy
                    /\ MIN_PROFIT_PERCENT <= profitOver (price b) (price t)).

(** The date of the last contribution is the date of a price point. *)
Definition last_contribution_on_market (params : BacktestParams) (s : State)
  : Prop :=
  exists j dj,
    nth_error (marketData params) j = Some dj
    /\ lastContributionDate s = md_date dj.

(** The result has a finite total return [q]. *)
Definition finiteReturn (result : StrategyResult) (q : Q) : Prop :=
  res_totalReturn result = JFin q.

(** What the best-strategy scan holds after looking at the results before
    index [k]: the first index, among those, of a highest return. *)
Definition best_invariant (results : list StrategyResult) (k : nat)
    (st : nat * JsNum) : Prop :=
  exists best q,
    (fst st < k)%nat
    /\ nth_error results (fst st) = Some best
    /\ finiteReturn best q
    /\ snd st = JFin q
    /\ (forall j r' q', (j < k)%nat -> nth_error results j = Some r' ->
          finiteReturn r' q' -> q' <= q)
    /\ (forall j r' q', (j < fst st)%nat -> nth_error results j = Some r' ->
          finiteReturn r' q' -> q' < q).

(** Shares bought minus shares sold over a trade log. *)
Definition signedShares (t : Trade) : Q :=
  match trade_type t with
  | buy => trade_shares t
  | sell => - trade_shares t
  end.

Definition netShares (log : list Trade) : Q :=
  fold_right (fun t acc => signedShares t + acc) 0 log.

(** How one operation can change the log and the shares held. *)
Inductive sized_step (s s' : State) : Prop :=
| sized_same :
    trades s' = trades s -> shares s' = shares s -> sized_step s s'
| sized_buy (t : Trade) :
    trades s' = trades s ++ [t] -> trade_type t = buy ->
    shares s' = shares s + trade_shares t ->
    sized_step s s'
| sized_sell (t : Trade) :
    trades s' = trades s ++ [t] -> trade_type t = sell ->
    trade_shares t = shares s * SELL_PERCENTAGE ->
    shares s' = shares s - trade_shares t ->
    sized_step s s'.

(** The shares held are the net shares of the log, and every sell of the log
    sold [SELL_PERCENTAGE] of the shares held before it. *)
Definition sells_sized (s : State) : Prop :=
  shares s == netShares (trades s)
  /\ (forall j t, nth_error (trades s) j = Some t -> trade_type t = sell ->
        trade_shares t == SELL_PERCENTAGE * netShares (firstn j (trades s))).



(** Two price points a week apart, extreme fear on the second, weekly
    contributions of 500, for a given variant. *)
Definition weeklyFearRun (variant : StrategyVariant) : BacktestParams :=
  {| marketData := [mkMarket 0%Z 100; mkMarket (7 * MS_PER_DAY)%Z 100];
     fearGreedData := [mkFearGreed (7 * MS_PER_DAY)%Z 10 "Extreme Fear"];
     symbol := "NYSE Composite";
     initialCapital := 10000;
     strategyVariant := variant;
     weeklyContribution := 500;
     useLumpSum := false |}.
(** * Properties *)

(** ** Comparisons *)

Lemma Qleb_true (x y : Q) : Qleb x y = true <-> x <= y.
Proof. apply Qle_bool_iff. Qed.

Lemma Qleb_false (x y : Q) : Qleb x y = false <-> y < x.
Proof.
  unfold Qleb. split; intro H.
  - apply Qnot_le_lt. intro Hle. apply Qle_bool_iff in Hle. congruence.
  - destruct (Qle_bool x y) eqn:E; [|reflexivity].
    apply Qle_bool_iff in E. exfalso. apply (Qlt_not_le _ _ H E).
Qed.

Lemma Qltb_true (x y : Q) : Qltb x y = true <-> x < y.
Proof.
  unfold Qltb. rewrite negb_true_iff. apply (Qleb_false y x).
Qed.

Lemma Qltb_false (x y : Q) : Qltb x y = false <-> y <= x.
Proof.
  unfold Qltb. rewrite negb_false_iff. apply (Qleb_true y x).
Qed.

(** Turns the boolean tests recorded in the context into order facts. *)
Ltac reflect_tests :=
  repeat match goal with
  | H : Qleb _ _ = true |- _ => apply Qleb_true in H
  | H : Qleb _ _ = false |- _ => apply Qleb_false in H
  | H : Qltb _ _ = true |- _ => apply Qltb_true in H
  | H : Qltb _ _ = false |- _ => apply Qltb_false in H
  | H : Qeq_bool _ _ = true |- _ => apply Qeq_bool_iff in H
  | H : Qeq_bool _ _ = false |- _ => apply Qeq_bool_neq in H
  end.

(** Case analysis on every test the goal branches on. *)
Ltac break_tests :=
  repeat match goal with
  | |- context [if ?c then _ else _] => destruct c eqn:?
  | |- context [match ?c with Some _ => _ | None => _ end] => destruct c eqn:?
  end.

(** Splits the conjunctions of tests recorded in the context. *)
Ltac split_tests :=
  repeat match goal with
  | H : match ?c with Some _ => _ | None => _ end = true |- _ =>
      destruct c; [|discriminate H]
  end;
  rewrite ?andb_true_iff in *;
  repeat match goal with H : _ /\ _ |- _ => destruct H end.

(** Reads a variable through the assignments made to the state. *)
Ltac state_simpl :=
  cbn [trades cash shares equityCurve lastBuyDate lastBuyPrice lastSellDate
       totalInvested skippedContributions totalContributions accumulatedCash
       buyAndHoldCash buyAndHoldShares lastContributionDate debugInfo
       set_trades set_cash set_shares set_equityCurve set_lastBuyDate
       set_lastBuyPrice set_lastSellDate set_totalInvested
       set_skippedContributions set_totalContributions set_accumulatedCash
       set_buyAndHoldCash set_buyAndHoldShares set_lastContributionDate
       set_debugInfo debug push_trade record_buy] in *.

Ltac debug_simpl :=
  cbn [totalPossibleTrades noFearGreedData zeroShares executedBuys executedSells
       sellOpportunities insufficientProfit dbg_inDowntrend notExtremeFear
       notExtremeGreed weeklyContributionsSkipped weeklyContributionsInvested
       doubleInvestments cashAccumulated accumulatedCashInvested dataFrequency
       set_totalPossibleTrades set_noFearGreedData set_zeroShares
       set_executedBuys set_executedSells set_sellOpportunities
       set_insufficientProfit set_dbg_inDowntrend set_notExtremeFear
       set_notExtremeGreed set_weeklyContributionsSkipped
       set_weeklyContributionsInvested set_doubleInvestments
       set_cashAccumulated set_accumulatedCashInvested] in *.

Lemma Qeq_bool_false_pos (x : Q) : 0 < x -> Qeq_bool x 0 = false.
Proof.
  intro H. destruct (Qeq_bool x 0) eqn:E; [|reflexivity].
  apply Qeq_bool_iff in E. rewrite E in H. exfalso. apply (Qlt_irrefl _ H).
Qed.

Lemma div_mul_cancel (a c : Q) : ~ c == 0 -> a / c * c == a.
Proof. intro Hc. field. exact Hc. Qed.

(** List facts the loops below are read through. *)
Lemma firstn_snoc_nth_error {A : Type} (l : list A) (k : nat) (x : A) :
  nth_error l k = Some x -> firstn (S k) l = firstn k l ++ [x].
Proof.
  revert k. induction l as [|a l IH]; intros k Hk.
  - destruct k; discriminate.
  - destruct k as [|k].
    + cbn in Hk. injection Hk as ->. reflexivity.
    + change (firstn (S (S k)) (a :: l)) with (a :: firstn (S k) l).
      rewrite (IH k Hk). reflexivity.
Qed.

Lemma firstn_snoc {A : Type} (d : A) (l : list A) (k : nat) :
  (k < length l)%nat -> firstn (S k) l = firstn k l ++ [nth k l d].
Proof.
  intro Hk. apply firstn_snoc_nth_error. apply nth_error_nth'. exact Hk.
Qed.

(** ** Decision engine *)

(** The downtrend flag has no influence on the weekly decision: the test on
    it sits behind the variant rules and both of its branches give [false]. *)
Lemma shouldInvestWeeklyAmount_ignores_downtrend
    (cfg : Config) (v : option Q) (variant : StrategyVariant) :
  shouldInvestWeeklyAmount cfg v true variant
  = shouldInvestWeeklyAmount cfg v false variant.
Proof.
  unfold shouldInvestWeeklyAmount.
  destruct v as [v|]; [|reflexivity].
  repeat match goal with
  | |- context [if ?c then _ else _] => destruct c
  end; reflexivity.
Qed.

(** C1 (the code departs from it): in a downtrend, with the sentiment value
    30 strictly above the extreme-fear threshold 20, the weekly decision of
    the 'default' variant is still [true]; the variant rule returns before
    the downtrend test is reached. *)
Theorem shouldInvestWeeklyAmount_downtrend_not_vetoed :
  Qltb EXTREME_FEAR_THRESHOLD 30 = true
  /\ shouldInvestWeeklyAmount default_config (Some 30) true Default = true.
Proof. split; reflexivity. Qed.

(** ** Indicator index *)





(** The point returned is one of the sequence. *)
Lemma findClosest_In date fgData p :
  findClosestFearGreedData date fgData = Some p -> In p fgData.
Proof.
  unfold findClosestFearGreedData.
  destruct (length fgData =? 0)%nat; [discriminate|].
  destruct (find _ fgData) as [m|] eqn:Hfind.
  - intros [= <-]. apply find_some in Hfind. apply Hfind.
  - destruct (closest_scan (getTime date) fgData) as [ci md].
    destruct (0 <=? ci)%Z; [|discriminate].
    apply nth_error_In.
Qed.
(** ** Drawdown tracker *)

Lemma Qmax_ltb (x y : Q) : Qmax x y = if Qltb x y then y else x.
Proof.
  unfold Qmax, GenericMinMax.gmax.
  destruct (x ?= y) eqn:C; destruct (Qltb x y) eqn:E; try reflexivity;
    exfalso.
  - apply Qltb_true in E. apply Qeq_alt in C. rewrite C in E.
    apply (Qlt_irrefl _ E).
  - apply Qltb_false in E. apply Qlt_alt in C. apply (Qlt_not_le _ _ C E).
  - apply Qltb_true in E. apply Qgt_alt in C.
    apply (Qlt_irrefl x). eapply Qlt_trans; eassumption.
Qed.

Lemma drawdown_step_peak (st : Q * Q) (v : Q) :
  snd (drawdown_step st v) = Qmax (snd st) v.
Proof.
  destruct st as [m pk]. unfold drawdown_step. cbn [snd]. rewrite (Qmax_ltb pk v).
  destruct (Qltb pk v); [reflexivity|].
  destruct (Qltb 0 pk); reflexivity.
Qed.

Lemma drawdown_fold_peak (pre : list Q) (st : Q * Q) :
  snd (fold_left drawdown_step pre st) = fold_left Qmax pre (snd st).
Proof.
  revert st. induction pre as [|v pre IH]; intro st; cbn [fold_left].
  - reflexivity.
  - rewrite IH, drawdown_step_peak. reflexivity.
Qed.

Lemma fold_Qmax_ge (pre : list Q) (x : Q) : x <= fold_left Qmax pre x.
Proof.
  revert x. induction pre as [|v pre IH]; intro x; cbn [fold_left].
  - apply Qle_refl.
  - eapply Qle_trans; [|apply IH]. apply Q.le_max_l.
Qed.

Lemma running_peak_S (l : list Q) (k : nat) :
  (S k < length l)%nat ->
  running_peak l (S k) = Qmax (running_peak l k) (nth (S k) l 0).
Proof.
  intro Hk. unfold running_peak.
  rewrite (firstn_snoc 0 l (S k) Hk), fold_left_app. reflexivity.
Qed.

Lemma running_peak_0 (l : list Q) : l <> [] -> running_peak l 0 = hd 0 l.
Proof.
  destruct l as [|a l]; [congruence|intros _].
  unfold running_peak. cbn. rewrite Qmax_ltb.
  destruct (Qltb a a); reflexivity.
Qed.

Lemma drawdown_zero (x y : Q) : x == y -> (x - y) / x == 0.
Proof.
  intro H. unfold Qdiv. setoid_replace (x - y) with 0 by (rewrite H; ring).
  ring.
Qed.

Lemma drawdown_bounds (pk v : Q) :
  0 < v -> v <= pk -> 0 <= (pk - v) / pk /\ (pk - v) / pk <= 1.
Proof.
  intros Hv Hle. assert (Hpk : 0 < pk) by lra. split.
  - apply Qle_shift_div_l; [exact Hpk|lra].
  - apply Qle_shift_div_r; [exact Hpk|lra].
Qed.

Lemma nth_positive (l : list Q) (i : nat) :
  Forall (fun v => 0 < v) l -> (i < length l)%nat -> 0 < nth i l 0.
Proof.
  intros Hpos Hi. rewrite Forall_forall in Hpos.
  apply Hpos. apply nth_In. exact Hi.
Qed.

Lemma hd_positive (l : list Q) :
  Forall (fun v => 0 < v) l -> l <> [] -> 0 < hd 0 l.
Proof.
  intros Hpos Hne. destruct l as [|a l]; [congruence|].
  apply (nth_positive (a :: l) 0 Hpos). cbn. lia.
Qed.

Lemma drawdown_prefix (l : list Q) (k : nat) :
  Forall (fun v => 0 < v) l ->
  (k <= length l)%nat ->
  drawdown_invariant l k (fold_left drawdown_step (firstn k l) (0, hd 0 l)).
Proof.
  intro l_positive.
  induction k as [|k IH]; intro Hk.
  - unfold drawdown_invariant. cbn [firstn fold_left fst snd].
    split; [reflexivity|]. split; [lra|]. split; [intros; lia|].
    left. reflexivity.
  - specialize (IH ltac:(lia)).
    assert (Hlt : (k < length l)%nat) by lia.
    rewrite (firstn_snoc 0 l k Hlt), fold_left_app. cbn [fold_left].
    destruct (fold_left drawdown_step (firstn k l) (0, hd 0 l)) as [m pk].
    destruct IH as (Hpk & Hm & Hub & Hatt). cbn [fst snd] in *.
    pose proof (nth_positive l k l_positive Hlt) as Hv.
    assert (Hrp : running_peak l k = Qmax pk (nth k l 0)).
    { unfold running_peak.
      rewrite (firstn_snoc 0 l k Hlt), fold_left_app, <- Hpk. reflexivity. }
    assert (Hhd : 0 < pk).
    { rewrite Hpk. eapply Qlt_le_trans; [|apply fold_Qmax_ge].
      apply hd_positive; [exact l_positive|].
      intros ->. cbn in Hlt. lia. }
    split.
    { rewrite drawdown_step_peak. cbn [snd]. symmetry. exact Hrp. }
    unfold drawdown_step.
    destruct (Qltb pk (nth k l 0)) eqn:Hcmp; cbn [fst].
    + assert (Hdd : drawdown_at l k == 0).
      { unfold drawdown_at. rewrite Hrp, Qmax_ltb, Hcmp.
        apply drawdown_zero. reflexivity. }
      split; [exact Hm|]. split.
      * intros i Hi. destruct (Nat.eq_dec i k) as [->|Hne].
        -- rewrite Hdd. apply Hm.
        -- apply Hub. lia.
      * destruct Hatt as [H0|(i & Hi & Heq)]; [left; exact H0|].
        right. exists i. split; [lia|exact Heq].
    + assert (Hpos : Qltb 0 pk = true) by (apply Qltb_true; exact Hhd).
      rewrite Hpos. cbn [fst].
      assert (Hdd : drawdown_at l k = (pk - nth k l 0) / pk).
      { unfold drawdown_at. rewrite Hrp, Qmax_ltb, Hcmp. reflexivity. }
      apply Qltb_false in Hcmp.
      destruct (drawdown_bounds pk (nth k l 0) Hv Hcmp) as [Hlo Hhi].
      split.
      { split.
        - eapply Qle_trans; [apply Hm|apply Q.le_max_l].
        - apply Q.max_lub; [apply Hm|exact Hhi]. }
      split.
      * intros i Hi. destruct (Nat.eq_dec i k) as [->|Hne].
        -- rewrite Hdd. apply Q.le_max_r.
        -- eapply Qle_trans; [apply Hub; lia|apply Q.le_max_l].
      * destruct (Q.max_spec m ((pk - nth k l 0) / pk)) as [[_ Hmax]|[_ Hmax]].
        -- right. exists k. split; [lia|]. rewrite Hdd. exact Hmax.
        -- destruct Hatt as [H0|(i & Hi & Heq)].
           ++ left. rewrite Hmax. exact H0.
           ++ right. exists i. split; [lia|]. rewrite Hmax. exact Heq.
Qed.

Lemma running_peak_nondecreasing (l : list Q) (i : nat) :
  nondecreasing l -> (i < length l)%nat -> running_peak l i == nth i l 0.
Proof.
  intros Hmono. induction i as [|i IH]; intro Hi.
  - rewrite running_peak_0.
    + destruct l; [cbn in Hi; lia|reflexivity].
    + intros ->. cbn in Hi. lia.
  - rewrite (running_peak_S l i Hi).
    rewrite Q.max_r; [reflexivity|].
    rewrite (IH ltac:(lia)). apply Hmono. exact Hi.
Qed.

(** C9: for a non-empty equity curve of positive values, the result of
    [calculateMaxDrawdown] lies in [0, 1]; it is the maximum over the indices
    of the drawdown measured from the running peak (an upper bound of all of
    them, and attained by one); and it is 0 for a non-decreasing curve. *)
Theorem calculateMaxDrawdown_spec (equityCurve : list Q) :
  equityCurve <> [] ->
  Forall (fun v => 0 < v) equityCurve ->
  (0 <= calculateMaxDrawdown equityCurve <= 1)
  /\ (forall i, (i < length equityCurve)%nat ->
        drawdown_at equityCurve i <= calculateMaxDrawdown equityCurve)
  /\ (exists i, (i < length equityCurve)%nat
        /\ calculateMaxDrawdown equityCurve == drawdown_at equityCurve i)
  /\ (nondecreasing equityCurve -> calculateMaxDrawdown equityCurve == 0).
Proof.
  intros Hne Hpos.
  pose proof (drawdown_prefix equityCurve (length equityCurve) Hpos (le_n _))
    as Hinv.
  rewrite firstn_all in Hinv.
  assert (Hcalc : calculateMaxDrawdown equityCurve
                  = fst (fold_left drawdown_step equityCurve (0, hd 0 equityCurve))).
  { destruct equityCurve; [congruence|reflexivity]. }
  rewrite Hcalc.
  destruct Hinv as (_ & Hm & Hub & Hatt).
  assert (Hlen : (0 < length equityCurve)%nat).
  { destruct equityCurve; [congruence|cbn; lia]. }
  assert (Hdd0 : drawdown_at equityCurve 0 == 0).
  { unfold drawdown_at. rewrite running_peak_0 by exact Hne.
    apply drawdown_zero. destruct equityCurve; [congruence|reflexivity]. }
  assert (Hatt' : exists i, (i < length equityCurve)%nat
            /\ fst (fold_left drawdown_step equityCurve (0, hd 0 equityCurve))
               == drawdown_at equityCurve i).
  { destruct Hatt as [H0|Hex]; [|exact Hex].
    exists 0%nat. split; [exact Hlen|]. rewrite H0, Hdd0. reflexivity. }
  repeat split; try apply Hm; auto.
  intro Hmono. destruct Hatt' as (i & Hi & ->).
  unfold drawdown_at. apply drawdown_zero.
  apply running_peak_nondecreasing; assumption.
Qed.
(** ** Cooldown policy *)






(** ** The trade log *)

(** Every phase of a day is one [log_step]. *)
Section LogSteps.
Variable cfg : Config.
Variable params : BacktestParams.
Variable cooldownPeriods : Z.
Local Abbreviation variant := (strategyVariant params).

Lemma record_buy_log day n why s :
  log_step variant s (record_buy day n why s).
Proof. eapply log_buy; reflexivity. Qed.

Lemma invest_contribution_log day fg s :
  log_step variant s (invest_contribution params day fg s).
Proof.
  unfold invest_contribution. cbv zeta.
  break_tests; first [eapply log_buy; reflexivity | apply log_same; reflexivity].
Qed.

Lemma contribution_phase_log i day fg s :
  log_step variant s (contribution_phase cfg params i day fg s).
Proof.
  unfold contribution_phase. cbv zeta.
  destruct (useLumpSum params); [apply log_same; reflexivity|].
  match goal with |- context [if ?c then _ else _] => destruct c end;
    [|apply log_same; reflexivity].
  match goal with |- context [if ?c then _ else _] => destruct c end.
  - match goal with |- log_step _ _ (invest_contribution _ ?d ?f ?s1) =>
      destruct (invest_contribution_log d f s1) as [Ht Hp|t Ht Hb|t Ht Hb Hp Hn Hv]
    end.
    + apply log_same; [rewrite Ht|rewrite Hp]; reflexivity.
    + eapply log_buy; [rewrite Ht; reflexivity|exact Hb].
    + eapply log_sell; eauto.
  - apply log_same; reflexivity.
Qed.

Lemma sell_phase_log day fg s :
  log_step variant s (sell_phase cfg params day fg s).
Proof.
  unfold sell_phase. cbv zeta.
  destruct (variant_eqb variant ExtremeFearHold) eqn:Hv; cbn [negb andb];
    [apply log_same; reflexivity|].
  assert (Hne : variant <> ExtremeFearHold).
  { intro E. rewrite E in Hv. discriminate. }
  destruct (Qltb 0 (shares s)); [|apply log_same; reflexivity].
  destruct (lastBuyPrice s) as [lbp|] eqn:Hlbp; [|apply log_same; reflexivity].
  break_tests; try (apply log_same; reflexivity).
  eapply log_sell; try reflexivity; [|exact Hne].
  cbn. rewrite Hlbp. discriminate.
Qed.

Lemma release_phase_log day fg inCooldown s :
  log_step variant s (release_phase params day fg inCooldown s).
Proof.
  unfold release_phase. cbv zeta.
  break_tests; first [eapply log_buy; reflexivity | apply log_same; reflexivity].
Qed.

Lemma lump_sum_phase_log day fg inCooldown inDowntrend s :
  log_step variant s (lump_sum_phase cfg params day fg inCooldown inDowntrend s).
Proof.
  unfold lump_sum_phase. cbv zeta.
  break_tests; first [eapply log_buy; reflexivity | apply log_same; reflexivity].
Qed.

Lemma final_sweep_log day s :
  log_step variant s (final_sweep day s).
Proof.
  unfold final_sweep. cbv zeta.
  break_tests; first [eapply log_buy; reflexivity | apply log_same; reflexivity].
Qed.
End LogSteps.

Section LogInvariant.
Variable cfg : Config.
Variable params : BacktestParams.
Variable cooldownPeriods : Z.
Variable P : State -> Prop.
Hypothesis P_closed :
  forall s s', log_step (strategyVariant params) s s' -> P s -> P s'.

Lemma debug_closed f s : P s -> P (debug f s).
Proof. apply (P_closed s). apply log_same; reflexivity. Qed.

Lemma day_step_closed s i : P s -> P (day_step cfg params cooldownPeriods s i).
Proof.
  intro Hs. unfold day_step.
  destruct (nth_error (marketData params) i) as [currentDay|]; [|exact Hs].
  cbv zeta.
  set (fgToday := findClosestFearGreedData (md_date currentDay) (fearGreedData params)).
  set (s1 := debug _ s).
  assert (H1 : P s1) by (apply debug_closed; exact Hs).
  set (s2 := contribution_phase cfg params i currentDay fgToday s1).
  assert (H2 : P s2) by (eapply P_closed; [apply contribution_phase_log|exact H1]).
  set (s3 := set_equityCurve s2 _).
  assert (H3 : P s3) by (apply (P_closed s2); [apply log_same; reflexivity|exact H2]).
  clearbody s3. clear H2 H1 Hs. clearbody fgToday.
  destruct fgToday as [fg|]; [|apply debug_closed; exact H3].
  eapply P_closed; [apply lump_sum_phase_log|].
  eapply P_closed; [apply release_phase_log|].
  eapply P_closed; [apply sell_phase_log|].
  destruct (isInDowntrend (marketData params) i); [apply debug_closed|]; exact H3.
Qed.

Lemma simulate_days_closed init k :
  P init -> P (simulate_days cfg params cooldownPeriods init k).
Proof.
  intro Hinit. unfold simulate_days. induction k as [|k IH].
  - exact Hinit.
  - rewrite seq_S, fold_left_app. cbn [fold_left]. apply day_step_closed. exact IH.
Qed.

Lemma final_sweep_closed day s : P s -> P (final_sweep day s).
Proof. apply P_closed. apply final_sweep_log. Qed.
End LogInvariant.

Lemma runBacktest_inr cfg params r :
  runBacktest cfg params = inr r ->
  exists firstDayData finalDay,
    hd_error (marketData params) = Some firstDayData
    /\ nth_error (marketData params) (length (marketData params) - 1) = Some finalDay
    /\ r = summarize params firstDayData finalDay
             (final_sweep finalDay
                (state_after cfg params firstDayData (length (marketData params)))).
Proof.
  unfold runBacktest. destruct (marketData params) as [|d0 rest] eqn:Hmd; [discriminate|].
  cbv zeta.
  destruct (nth_error (d0 :: rest) (length (d0 :: rest) - 1)) as [fd|] eqn:Hfd;
    [|discriminate].
  intros [= <-]. exists d0, fd. repeat split.
Qed.

Lemma noSell_closed params :
  strategyVariant params = ExtremeFearHold ->
  forall s s', log_step (strategyVariant params) s s' ->
    noSell (trades s) -> noSell (trades s').
Proof.
  intros Hv s s' Hstep Hs. unfold noSell in *.
  destruct Hstep as [Ht _|t Ht Hb|t _ _ _ _ Hne].
  - rewrite Ht. exact Hs.
  - rewrite Ht. apply Forall_app. split; [exact Hs|]. constructor; [exact Hb|constructor].
  - congruence.
Qed.

(** C6: a run with the 'extreme-fear-hold' variant returns a trade log that
    holds no sell. *)
Theorem extreme_fear_hold_never_sells cfg params r :
  strategyVariant params = ExtremeFearHold ->
  runBacktest cfg params = inr r ->
  forall t, In t (res_trades r) -> trade_type t <> sell.
Proof.
  intros Hv Hrun.
  apply runBacktest_inr in Hrun as (d0 & fd & _ & _ & ->).
  cbn [summarize res_trades].
  assert (H : noSell (trades (final_sweep fd
              (state_after cfg params d0 (length (marketData params)))))).
  { apply (final_sweep_closed params (fun s => noSell (trades s))
             (noSell_closed params Hv)).
    apply (simulate_days_closed cfg params _ (fun s => noSell (trades s))
             (noSell_closed params Hv)).
    constructor. }
  intros t Hin. unfold noSell in H. rewrite Forall_forall in H.
  rewrite (H t Hin). discriminate.
Qed.

Lemma buyFirst_closed params :
  forall s s', log_step (strategyVariant params) s s' -> buyFirst s -> buyFirst s'.
Proof.
  intros s s' Hstep [Hfirst Hlast]. unfold buyFirst.
  destruct Hstep as [Ht Hp|t Ht Hb|t Ht Hs Hp Hsome _].
  - rewrite Ht, Hp. split; assumption.
  - rewrite Ht. split.
    + intros t0 rest Heq. destruct (trades s) as [|t1 l] eqn:Hl.
      * cbn in Heq. injection Heq as <- _. exact Hb.
      * cbn in Heq. injection Heq as <- _. apply (Hfirst t1 l eq_refl).
    + intros _ Hnil. apply app_eq_nil in Hnil as [_ Hnil]. discriminate.
  - rewrite Ht. split.
    + intros t0 rest Heq. destruct (trades s) as [|t1 l] eqn:Hl.
      * exfalso. apply (Hlast Hsome). reflexivity.
      * cbn in Heq. injection Heq as <- _. apply (Hfirst t1 l eq_refl).
    + intros _ Hnil. apply app_eq_nil in Hnil as [_ Hnil]. discriminate.
Qed.

(** C10: in the trade log a run returns, every sell has a buy before it,
    and a non-empty log starts with a buy. *)
Theorem sell_preceded_by_buy cfg params r :
  runBacktest cfg params = inr r ->
  (forall j t, nth_error (res_trades r) j = Some t -> trade_type t = sell ->
     exists k t', (k < j)%nat /\ nth_error (res_trades r) k = Some t'
                  /\ trade_type t' = buy)
  /\ (forall t rest, res_trades r = t :: rest -> trade_type t = buy).
Proof.
  intro Hrun.
  apply runBacktest_inr in Hrun as (d0 & fd & _ & _ & ->).
  cbn [summarize res_trades].
  assert (H : buyFirst (final_sweep fd
              (state_after cfg params d0 (length (marketData params))))).
  { apply (final_sweep_closed params buyFirst (buyFirst_closed params)).
    apply (simulate_days_closed cfg params _ buyFirst (buyFirst_closed params)).
    split; [discriminate|]. intro Hl. exfalso. apply Hl. reflexivity. }
  destruct H as [Hfirst _]. split; [|exact Hfirst].
  intros j t Hj Hsell.
  destruct (trades (final_sweep fd _)) as [|t0 l] eqn:Hl.
  - destruct j; discriminate.
  - specialize (Hfirst t0 l eq_refl).
    destruct j as [|j]; [cbn in Hj; congruence|].
    exists 0%nat, t0. repeat split; [lia|exact Hfirst].
Qed.
(** ** The ledger *)

Lemma sharesFor_cost (amount price : Q) :
  0 < price -> sharesFor amount price * price == amount.
Proof.
  intro Hp. unfold sharesFor. cbn [ENABLE_FRACTIONAL_SHARES].
  apply div_mul_cancel. lra.
Qed.

Lemma record_buy_ok day n why s :
  ledger_ok s -> 0 < n -> n * close day <= cash s ->
  ledger_ok (record_buy day n why s).
Proof.
  intros [Hc Hs] Hn Hcost. unfold ledger_ok. state_simpl. lra.
Qed.

Lemma ledger_ok_debug f s : ledger_ok s -> ledger_ok (debug f s).
Proof. intro H. exact H. Qed.

Lemma ledger_ok_equityCurve s v : ledger_ok s -> ledger_ok (set_equityCurve s v).
Proof. intro H. exact H. Qed.

(** Spending all the cash there is. *)
Lemma buy_all_ok day why s :
  0 < close day -> ledger_ok s ->
  0 < sharesFor (cash s) (close day) ->
  ledger_ok (record_buy day (sharesFor (cash s) (close day)) why s).
Proof.
  intros Hp Hs Hn. apply record_buy_ok; [exact Hs|exact Hn|].
  rewrite sharesFor_cost by exact Hp. apply Qle_refl.
Qed.

Lemma sharesFor_positive (amount price : Q) :
  0 < price -> 0 < amount -> 0 < sharesFor amount price.
Proof.
  intros Hp Ha. unfold sharesFor. cbn [ENABLE_FRACTIONAL_SHARES].
  apply Qlt_shift_div_l; [exact Hp|]. rewrite Qmult_0_l. exact Ha.
Qed.

(** The share of cash a lump-sum buy spends: between 40% and 70%. *)
Lemma allocationMultiplier_range cfg v :
  0 < FEAR_THRESHOLD cfg -> 0 <= v ->
  0.4 <= allocationMultiplier cfg v <= 0.7.
Proof.
  intros HF Hv. unfold allocationMultiplier. cbv zeta.
  set (fearLevel := Qmax 0 (FEAR_THRESHOLD cfg - v) / FEAR_THRESHOLD cfg).
  assert (Hlevel : 0 <= fearLevel <= 1).
  { unfold fearLevel. split.
    - apply Qle_shift_div_l; [exact HF|]. rewrite Qmult_0_l. apply Q.le_max_l.
    - apply Qle_shift_div_r; [exact HF|]. rewrite Qmult_1_l.
      apply Q.max_lub; lra. }
  unfold ALLOCATION_PERCENTAGE.
  destruct (Qleb v EXTREME_FEAR_THRESHOLD); lra.
Qed.

Section Ledger.
Variable cfg : Config.
Variable params : BacktestParams.
Variable cooldownPeriods : Z.
Hypothesis threshold_positive : 0 < FEAR_THRESHOLD cfg.
Hypothesis contribution_nonneg : 0 <= weeklyContribution params.

Lemma invest_contribution_ok day fg s :
  0 < close day -> ledger_ok s ->
  ledger_ok (invest_contribution params day fg s).
Proof.
  intros Hp [Hc Hs]. unfold invest_contribution. cbv zeta.
  set (w := weeklyContribution params) in *.
  break_tests;
    try match goal with
    | |- ledger_ok (record_buy ?d (sharesFor (cash ?s1) _) ?why ?s1) =>
        apply (buy_all_ok d why s1); [exact Hp| |reflect_tests; assumption]
    end;
    unfold ledger_ok; state_simpl;
    repeat match goal with
    | H : match ?c with Some _ => _ | None => _ end = true |- _ =>
        destruct c; [|discriminate H]
    end;
    rewrite ?andb_true_iff in *;
    repeat match goal with H : _ /\ _ |- _ => destruct H end;
    reflect_tests; split; lra.
Qed.

Lemma contribution_phase_ok i day fg s :
  0 < close day -> ledger_ok s ->
  ledger_ok (contribution_phase cfg params i day fg s).
Proof.
  intros Hp Hs. unfold contribution_phase. cbv zeta.
  destruct (useLumpSum params); [exact Hs|].
  match goal with |- context [if ?c then _ else _] => destruct c end;
    [|exact Hs].
  match goal with |- context [if ?c then _ else _] => destruct c end.
  - apply invest_contribution_ok; [exact Hp|exact Hs].
  - exact Hs.
Qed.

Lemma sell_phase_ok day fg s :
  0 < close day -> ledger_ok s ->
  ledger_ok (sell_phase cfg params day fg s).
Proof.
  intros Hp [Hc Hs]. unfold sell_phase. cbv zeta.
  break_tests; try (split; assumption).
  unfold ledger_ok. state_simpl.
  rewrite ?andb_true_iff in *;
    repeat match goal with H : _ /\ _ |- _ => destruct H end.
  reflect_tests. unfold SELL_PERCENTAGE in *.
  split.
  - assert (0 <= shares s * 0.3 * close day); [|lra].
    apply Qmult_le_0_compat; lra.
  - lra.
Qed.

Lemma release_phase_ok day fg inCooldown s :
  0 < close day -> ledger_ok s ->
  ledger_ok (release_phase params day fg inCooldown s).
Proof.
  intros Hp [Hc Hs]. unfold release_phase. cbv zeta.
  break_tests; try (split; assumption);
    rewrite !andb_true_iff in *;
    repeat match goal with H : _ /\ _ |- _ => destruct H end;
    try match goal with
    | |- ledger_ok (record_buy ?d (sharesFor (cash ?s1) _) ?why ?s1) =>
        apply (buy_all_ok d why s1); [exact Hp| |reflect_tests; assumption]
    end;
    unfold ledger_ok; state_simpl; reflect_tests; split; lra.
Qed.

Lemma lump_sum_phase_ok day fg inCooldown inDowntrend s :
  0 < close day -> 0 <= value fg -> ledger_ok s ->
  ledger_ok (lump_sum_phase cfg params day fg inCooldown inDowntrend s).
Proof.
  intros Hp Hv [Hc Hs]. unfold lump_sum_phase. cbv zeta.
  destruct (useLumpSum params); [|split; assumption].
  destruct (shouldBuy cfg params (value fg)); cbn [andb];
    [|split; assumption].
  destruct (Qltb 0 (cash s)) eqn:Hcash; cbn [andb]; [|split; assumption].
  match goal with |- context [if ?c then _ else _] => destruct c end;
    [|split; assumption].
  match goal with |- context [if ?c then _ else _] => destruct c eqn:Hn end;
    [|split; assumption].
  reflect_tests.
  match goal with
  | |- ledger_ok (record_buy ?d ?n ?why ?s1) =>
      apply (record_buy_ok d n why s1); [split; assumption|exact Hn|]
  end.
  rewrite sharesFor_cost by exact Hp.
  destruct (allocationMultiplier_range cfg (value fg) threshold_positive Hv)
    as [Hlo Hhi].
  rewrite <- (Qmult_1_r (cash s)) at 2.
  apply Qmult_le_l; [exact Hcash|lra].
Qed.

Lemma final_sweep_ok day s :
  0 < close day -> ledger_ok s -> ledger_ok (final_sweep day s).
Proof.
  intros Hp [Hc Hs]. unfold final_sweep. cbv zeta.
  break_tests; try (split; assumption).
  reflect_tests. unfold ledger_ok. state_simpl.
  pose proof (sharesFor_cost (cash s) (close day) Hp). split; lra.
Qed.

Hypothesis prices_positive :
  Forall (fun day => 0 < close day) (marketData params).
Hypothesis sentiment_nonneg :
  Forall (fun p => 0 <= value p) (fearGreedData params).

Lemma day_step_ok s i :
  ledger_ok s -> ledger_ok (day_step cfg params cooldownPeriods s i).
Proof.
  intro Hs. unfold day_step.
  destruct (nth_error (marketData params) i) as [day|] eqn:Hday; [|exact Hs].
  assert (Hp : 0 < close day).
  { rewrite Forall_forall in prices_positive.
    apply prices_positive. eapply nth_error_In. exact Hday. }
  cbv zeta.
  destruct (findClosestFearGreedData (md_date day) (fearGreedData params))
    as [fg|] eqn:Hfg.
  - assert (Hv : 0 <= value fg).
    { rewrite Forall_forall in sentiment_nonneg.
      apply sentiment_nonneg. eapply findClosest_In. exact Hfg. }
    apply lump_sum_phase_ok; [exact Hp|exact Hv|].
    apply release_phase_ok; [exact Hp|].
    apply sell_phase_ok; [exact Hp|].
    match goal with |- ledger_ok (if ?c then _ else _) => destruct c end;
      [apply ledger_ok_debug|]; apply ledger_ok_equityCurve;
      (apply contribution_phase_ok; [exact Hp|]); apply ledger_ok_debug;
      exact Hs.
  - apply ledger_ok_debug, ledger_ok_equityCurve.
    apply contribution_phase_ok; [exact Hp|]. apply ledger_ok_debug. exact Hs.
Qed.

Lemma simulate_days_ok init k :
  ledger_ok init -> ledger_ok (simulate_days cfg params cooldownPeriods init k).
Proof.
  intro Hinit. unfold simulate_days. induction k as [|k IH].
  - exact Hinit.
  - rewrite seq_S, fold_left_app. cbn [fold_left]. apply day_step_ok. exact IH.
Qed.

End Ledger.

(** C3: with positive prices, sentiment values that are not negative, a
    positive fear threshold and capital amounts that are not negative, cash
    and shares are never negative: after every simulated day, and after the
    final purchase. *)
Theorem ledger_never_negative cfg params firstDayData :
  hd_error (marketData params) = Some firstDayData ->
  Forall (fun day => 0 < close day) (marketData params) ->
  Forall (fun p => 0 <= value p) (fearGreedData params) ->
  0 < FEAR_THRESHOLD cfg ->
  0 <= initialCapital params ->
  0 <= weeklyContribution params ->
  (forall k,
     0 <= cash (state_after cfg params firstDayData k)
     /\ 0 <= shares (state_after cfg params firstDayData k))
  /\ (forall finalDay,
        nth_error (marketData params) (length (marketData params) - 1)
        = Some finalDay ->
        let s := final_sweep finalDay
                   (state_after cfg params firstDayData
                      (length (marketData params))) in
        0 <= cash s /\ 0 <= shares s).
Proof.
  intros _ Hprices Hsent HF HIC Hw.
  assert (Hloop : forall k, ledger_ok (state_after cfg params firstDayData k)).
  { intro k. unfold state_after.
    apply simulate_days_ok; try assumption.
    unfold ledger_ok, initial_state. state_simpl.
    destruct (useLumpSum params); split; lra. }
  split; [exact Hloop|].
  intros finalDay Hfd. cbv zeta.
  apply final_sweep_ok; [|apply Hloop].
  rewrite Forall_forall in Hprices. apply Hprices.
  eapply nth_error_In. exact Hfd.
Qed.
(** ** Runs over a single price point *)

Lemma isInDowntrend_early data i :
  (i < TREND_MA_PERIOD)%nat -> isInDowntrend data i = false.
Proof.
  intro Hi. unfold isInDowntrend. apply Nat.ltb_lt in Hi. rewrite Hi. reflexivity.
Qed.

Lemma contribution_phase_lump cfg params i day fg s :
  useLumpSum params = true -> contribution_phase cfg params i day fg s = s.
Proof. intro H. unfold contribution_phase. rewrite H. reflexivity. Qed.

Lemma release_phase_lump params day fg inCooldown s :
  useLumpSum params = true -> release_phase params day fg inCooldown s = s.
Proof. intro H. unfold release_phase. rewrite H. reflexivity. Qed.

Lemma sell_phase_no_shares cfg params day fg s :
  Qltb 0 (shares s) = false -> sell_phase cfg params day fg s = s.
Proof. intro H. unfold sell_phase. rewrite H, andb_false_r. reflexivity. Qed.

Lemma single_point_day cfg params d :
  marketData params = [d] ->
  useLumpSum params = true ->
  0 < initialCapital params ->
  let s1 := state_after cfg params d 1 in
  accumulatedCash s1 = 0
  /\ totalInvested s1 = initialCapital params
  /\ ((trades s1 = [] /\ cash s1 = initialCapital params /\ shares s1 = 0
       /\ (lumpSumSignal cfg params d = false
           \/ exists fg,
                findClosestFearGreedData (md_date d) (fearGreedData params) = Some fg
                /\ lumpSumShares cfg params d fg <= 0))
      \/ exists fg,
           findClosestFearGreedData (md_date d) (fearGreedData params) = Some fg
           /\ lumpSumSignal cfg params d = true
           /\ 0 < lumpSumShares cfg params d fg
           /\ trades s1
              = [mkTrade (md_date d) buy (close d) (lumpSumShares cfg params d fg)
                   (lumpSumShares cfg params d fg * close d) (FearSignal fg false)]
           /\ cash s1
              = initialCapital params - lumpSumShares cfg params d fg * close d
           /\ shares s1 = 0 + lumpSumShares cfg params d fg).
Proof.
  intros Hmd Hlump HIC. cbv zeta.
  unfold state_after, simulate_days. cbn [seq fold_left].
  unfold day_step. rewrite Hmd. cbn [nth_error]. cbv zeta.
  rewrite !(contribution_phase_lump cfg params 0 d _ _ Hlump).
  set (s0 := debug _ (initial_state params d)).
  set (sC := set_equityCurve s0 _).
  assert (Hfields : trades sC = [] /\ cash sC = initialCapital params
                    /\ shares sC = 0 /\ accumulatedCash sC = 0
                    /\ totalInvested sC = initialCapital params
                    /\ lastBuyDate sC = None /\ lastSellDate sC = None).
  { unfold sC, s0, initial_state. rewrite Hlump. repeat split. }
  clearbody sC. clear s0.
  destruct Hfields as (Ht & Hc & Hs & Ha & Hti & Hlb & Hls).
  unfold lumpSumSignal, lumpSumShares.
  destruct (findClosestFearGreedData (md_date d) (fearGreedData params))
    as [fg|] eqn:Hfg.
  2:{ state_simpl. rewrite Ht, Hc, Hs, Ha, Hti.
      split; [reflexivity|]. split; [reflexivity|]. left.
      split; [reflexivity|]. split; [reflexivity|]. split; [reflexivity|].
      left. reflexivity. }
  rewrite (isInDowntrend_early [d] 0)
    by (unfold TREND_MA_PERIOD; lia).
  rewrite (release_phase_lump params d fg _ _ Hlump).
  rewrite (sell_phase_no_shares cfg params d fg sC) by (rewrite Hs; reflexivity).
  unfold inBuyCooldown, inSellCooldown. rewrite Hlb, Hls. cbn [orb].
  unfold lump_sum_phase. rewrite Hlump. cbv zeta.
  assert (Hcash : Qltb 0 (initialCapital params) = true)
    by (apply Qltb_true; exact HIC).
  destruct (shouldBuy cfg params (value fg)) eqn:Hbuy.
  - rewrite Hc, Hcash. cbn [andb negb orb]. rewrite orb_true_r. cbn [orb andb].
    destruct (Qltb 0 (sharesFor (initialCapital params
                                 * allocationMultiplier cfg (value fg)) (close d)))
      eqn:Hn.
    + state_simpl. rewrite Ht, Hc, Hs, Ha, Hti.
      split; [reflexivity|]. split; [reflexivity|]. right. exists fg.
      apply Qltb_true in Hn.
      split; [reflexivity|]. split; [reflexivity|]. split; [exact Hn|].
      split; [reflexivity|]. split; reflexivity.
    + state_simpl. rewrite Ht, Hc, Hs, Ha, Hti.
      split; [reflexivity|]. split; [reflexivity|]. left.
      split; [reflexivity|]. split; [reflexivity|]. split; [reflexivity|].
      right. exists fg.
      apply Qltb_false in Hn. split; [reflexivity|exact Hn].
  - cbn [andb]. state_simpl. rewrite Ht, Hc, Hs, Ha, Hti.
    split; [reflexivity|]. split; [reflexivity|]. left.
    split; [reflexivity|]. split; [reflexivity|]. split; [reflexivity|].
    left. reflexivity.
Qed.

(** What the final purchase does to the ledger. *)
Lemma final_sweep_fields day s :
  0 < close day ->
  accumulatedCash (final_sweep day s) = accumulatedCash s
  /\ totalInvested (final_sweep day s) = totalInvested s
  /\ (0 < cash s ->
      trades (final_sweep day s)
      = trades s ++ [mkTrade (md_date day) buy (close day)
                       (sharesFor (cash s) (close day))
                       (sharesFor (cash s) (close day) * close day)
                       FinalCashAllocation]
      /\ cash (final_sweep day s)
         = cash s - sharesFor (cash s) (close day) * close day
      /\ shares (final_sweep day s)
         = shares s + sharesFor (cash s) (close day))
  /\ (cash s <= 0 -> final_sweep day s = s).
Proof.
  intro Hp. unfold final_sweep. cbv zeta.
  destruct (Qltb 0 (cash s)) eqn:Hc.
  - apply Qltb_true in Hc.
    pose proof (sharesFor_positive (cash s) (close day) Hp Hc) as Hn.
    apply Qltb_true in Hn. rewrite Hn. state_simpl.
    split; [reflexivity|]. split; [reflexivity|]. split.
    + intros _. split; [reflexivity|]. split; reflexivity.
    + intro Hle. exfalso. apply (Qlt_not_le _ _ Hc Hle).
  - apply Qltb_false in Hc.
    split; [reflexivity|]. split; [reflexivity|]. split.
    + intro Hlt. exfalso. apply (Qlt_not_le _ _ Hlt Hc).
    + reflexivity.
Qed.

Lemma runBacktest_single cfg params d :
  marketData params = [d] ->
  runBacktest cfg params
  = inr (summarize params d d (final_sweep d (state_after cfg params d 1))).
Proof. intro Hmd. unfold runBacktest. rewrite Hmd. reflexivity. Qed.

Lemma single_point_value cfg params d :
  marketData params = [d] ->
  useLumpSum params = true ->
  0 < initialCapital params ->
  0 < close d ->
  let s := final_sweep d (state_after cfg params d 1) in
  cash s + shares s * close d + accumulatedCash s == initialCapital params
  /\ totalInvested s = initialCapital params.
Proof.
  intros Hmd Hlump HIC Hp. cbv zeta.
  destruct (single_point_day cfg params d Hmd Hlump HIC) as (Ha & Hti & Hcases).
  set (s1 := state_after cfg params d 1) in *.
  destruct (final_sweep_fields d s1 Hp) as (Fa & Fti & Fbuy & Fnone).
  rewrite Fa, Fti, Ha, Hti. split; [|reflexivity].
  pose proof (sharesFor_cost (cash s1) (close d) Hp) as Hcost.
  destruct (Qlt_le_dec 0 (cash s1)) as [Hpos|Hle].
  - destruct (Fbuy Hpos) as (_ & -> & ->).
    destruct Hcases as [(_ & Hc & Hs & _)|(fg & _ & _ & _ & _ & Hc & Hs)];
      rewrite Hs; rewrite Hc in *;
      set (m := sharesFor _ (close d)) in *; clearbody m; lra.
  - rewrite (Fnone Hle).
    destruct Hcases as [(_ & Hc & Hs & _)|(fg & _ & _ & _ & _ & Hc & Hs)];
      rewrite Hs, Hc; lra.
Qed.

(** C4 (the code departs from it): on a single price point with lump sum,
    positive capital and a positive price, the year fraction is zero, the
    exponent [1 / yearFraction] is [Infinity], the base is 1, and the
    annualized return the run reports is [NaN]: no guard stands in the way. *)
Theorem single_point_annualizedReturn_NaN cfg params d :
  marketData params = [d] ->
  useLumpSum params = true ->
  0 < initialCapital params ->
  0 < close d ->
  exists r,
    runBacktest cfg params = inr r
    /\ res_annualizedReturn r = AnnVal JNaN.
Proof.
  intros Hmd Hlump HIC Hp.
  eexists. split; [apply (runBacktest_single cfg params d Hmd)|].
  destruct (single_point_value cfg params d Hmd Hlump HIC Hp) as [Hval Hti].
  set (s := final_sweep d (state_after cfg params d 1)) in *. clearbody s.
  unfold summarize. cbn [res_annualizedReturn]. rewrite Hlump, Hti.
  set (fv := cash s + shares s * close d + accumulatedCash s) in *.
  rewrite Z.sub_diag.
  change (jsdiv 1 (inject_Z 0 / inject_Z (1000 * 60 * 60 * 24 * 365)))
    with JPosInf.
  unfold jsdiv. rewrite (Qeq_bool_false_pos _ HIC).
  cbn [jssub jsadd Math_pow].
  assert (Hb : fv / initialCapital params + - (1) + 1 == 1).
  { rewrite Hval. field. lra. }
  assert (Habs : Qabs (fv / initialCapital params + - (1) + 1) == 1).
  { rewrite Hb. reflexivity. }
  assert (H1 : Qltb 1 (Qabs (fv / initialCapital params + - (1) + 1)) = false).
  { apply Qltb_false. rewrite Habs. apply Qle_refl. }
  assert (H2 : Qeq_bool (Qabs (fv / initialCapital params + - (1) + 1)) 1 = true).
  { apply Qeq_bool_iff. exact Habs. }
  rewrite H1, H2. reflexivity.
Qed.

(** ** Contributions and cash *)

Lemma netSpent_app (l : list Trade) (t : Trade) :
  netSpent (l ++ [t]) == netSpent l + signedValue t.
Proof.
  induction l as [|a l IH]; cbn [app netSpent fold_right].
  - ring.
  - fold (netSpent (l ++ [t])). fold (netSpent l). rewrite IH. ring.
Qed.

Lemma books_frame params s s' :
  same_books s s' -> books params s -> books params s'.
Proof.
  intros (Ht & Hc & Hti & Ha & Htc & Hw & Hd & Hai) [Hacc Hcash].
  unfold books, contributions_accounted, cash_conserved, capitalInjected in *.
  rewrite Ht, Hc, Hti, Ha, Htc, Hw, Hd, Hai. split; assumption.
Qed.

Ltac frame :=
  unfold same_books; state_simpl; debug_simpl;
  repeat match goal with |- _ /\ _ => split end; reflexivity.

(** A purchase moves its cost from [cash] to the trade log. *)
Lemma record_buy_books params day n why s :
  books params s -> books params (record_buy day n why s).
Proof.
  intros [Hacc Hcash]. split.
  - exact Hacc.
  - unfold cash_conserved in *. state_simpl. debug_simpl.
    rewrite netSpent_app. unfold signedValue. cbn [trade_type trade_value].
    unfold capitalInjected in *. debug_simpl. rewrite <- Hcash. ring.
Qed.

Section Funds.
Variable cfg : Config.
Variable params : BacktestParams.
Variable cooldownPeriods : Z.

Lemma invest_contribution_books day fg s :
  totalInvested s + accumulatedCash s
  == startingCapital params
     + weeklyContribution params * inject_Z (totalContributions s - 1) ->
  cash_conserved params s ->
  books params (invest_contribution params day fg s).
Proof.
  intros Hacc Hcash.
  assert (Hstep : inject_Z (totalContributions s)
                  == inject_Z (totalContributions s - 1) + 1).
  { change 1 with (inject_Z 1). rewrite <- inject_Z_plus.
    apply inject_Z_injective. lia. }
  unfold invest_contribution. cbv zeta.
  break_tests;
    try match goal with
    | |- books _ (record_buy ?d ?n ?why ?s1) =>
        apply (record_buy_books params d n why s1)
    end;
    unfold books, contributions_accounted, cash_conserved, capitalInjected in *;
    state_simpl; debug_simpl;
    rewrite ?inject_Z_plus, ?Hstep in *; change (inject_Z 1) with 1 in *;
    split; lra.
Qed.

Lemma contribution_phase_books i day fg s :
  books params s -> books params (contribution_phase cfg params i day fg s).
Proof.
  intros [Hacc Hcash]. unfold contribution_phase. cbv zeta.
  destruct (useLumpSum params) eqn:Hlump; [split; assumption|].
  match goal with |- context [if ?c then _ else _] => destruct c end;
    [|split; assumption].
  match goal with |- context [if ?c then _ else _] => destruct c end.
  - apply invest_contribution_books.
    + state_simpl. unfold contributions_accounted in Hacc. rewrite Hacc.
      replace (totalContributions s + 1 - 1)%Z with (totalContributions s) by lia.
      reflexivity.
    + exact Hcash.
  - unfold defer_contribution, books, contributions_accounted, cash_conserved,
      capitalInjected in *.
    state_simpl. debug_simpl. rewrite ?inject_Z_plus in *.
    change (inject_Z 1) with 1 in *. split; lra.
Qed.

Lemma sell_phase_books day fg s :
  books params s -> books params (sell_phase cfg params day fg s).
Proof.
  intros [Hacc Hcash]. unfold sell_phase. cbv zeta.
  break_tests; try (split; assumption);
    try (apply (books_frame params s); [frame|split; assumption]).
  split; [exact Hacc|].
  unfold cash_conserved, capitalInjected in *. state_simpl. debug_simpl.
  rewrite netSpent_app. unfold signedValue. cbn [trade_type trade_value]. lra.
Qed.

Lemma release_phase_books day fg inCooldown s :
  books params s -> books params (release_phase params day fg inCooldown s).
Proof.
  intros [Hacc Hcash]. unfold release_phase. cbv zeta.
  break_tests; try (split; assumption);
    try match goal with
    | |- books _ (record_buy ?d ?n ?why ?s1) =>
        apply (record_buy_books params d n why s1)
    end;
    unfold books, contributions_accounted, cash_conserved, capitalInjected in *;
    state_simpl; debug_simpl; split; lra.
Qed.

Lemma lump_sum_phase_books day fg inCooldown inDowntrend s :
  books params s ->
  books params (lump_sum_phase cfg params day fg inCooldown inDowntrend s).
Proof.
  intros Hs. unfold lump_sum_phase. cbv zeta.
  break_tests; try exact Hs;
    try match goal with
    | |- books _ (record_buy ?d ?n ?why ?s1) =>
        apply (record_buy_books params d n why s1)
    end;
    try exact Hs;
    (apply (books_frame params s); [frame|exact Hs]).
Qed.

Lemma final_sweep_books day s :
  books params s -> books params (final_sweep day s).
Proof.
  intros [Hacc Hcash]. unfold final_sweep. cbv zeta.
  break_tests; try (split; assumption);
    try (apply (books_frame params s); [frame|split; assumption]).
  split; [exact Hacc|].
  unfold cash_conserved, capitalInjected in *. state_simpl. debug_simpl.
  rewrite netSpent_app. unfold signedValue. cbn [trade_type trade_value]. lra.
Qed.

Lemma day_step_books s i :
  books params s -> books params (day_step cfg params cooldownPeriods s i).
Proof.
  intro Hs. unfold day_step.
  destruct (nth_error (marketData params) i) as [day|]; [|exact Hs].
  cbv zeta.
  set (fgToday := findClosestFearGreedData (md_date day) (fearGreedData params)).
  set (s1 := debug _ s).
  assert (H1 : books params s1) by (apply (books_frame params s); [frame|exact Hs]).
  set (s2 := contribution_phase cfg params i day fgToday s1).
  assert (H2 : books params s2) by (apply contribution_phase_books; exact H1).
  set (s3 := set_equityCurve s2 _).
  assert (H3 : books params s3) by (apply (books_frame params s2); [frame|exact H2]).
  clearbody s3. clear H2 H1 Hs. clearbody fgToday.
  destruct fgToday as [fg|].
  - apply lump_sum_phase_books, release_phase_books, sell_phase_books.
    destruct (isInDowntrend (marketData params) i); [|exact H3].
    apply (books_frame params s3); [frame|exact H3].
  - apply (books_frame params s3); [frame|exact H3].
Qed.

Lemma simulate_days_books init k :
  books params init ->
  books params (simulate_days cfg params cooldownPeriods init k).
Proof.
  intro Hinit. unfold simulate_days. induction k as [|k IH].
  - exact Hinit.
  - rewrite seq_S, fold_left_app. cbn [fold_left]. apply day_step_books. exact IH.
Qed.
End Funds.

Lemma initial_state_books params d : books params (initial_state params d).
Proof.
  unfold books, contributions_accounted, cash_conserved, capitalInjected,
    startingCapital, initial_state, initial_debug.
  state_simpl. debug_simpl. cbn [netSpent fold_right Z.add].
  change (inject_Z 0) with 0.
  destruct (useLumpSum params); split; ring.
Qed.

Lemma final_state_books cfg params d0 fd :
  books params
    (final_sweep fd (state_after cfg params d0 (length (marketData params)))).
Proof.
  apply final_sweep_books. unfold state_after.
  apply simulate_days_books. apply initial_state_books.
Qed.

(** C2 (the code departs from it): two price points a week apart, extreme
    fear on the second, weekly contributions of 500.  The contribution is
    doubled: 1000 goes into cash and is spent on the one buy, the final value
    is 1000, and [totalInvested] is 500. *)
Theorem doubled_contribution_not_in_totalInvested :
  exists r,
    runBacktest default_config contributionRun = inr r
    /\ res_totalInvested r == 500
    /\ capitalInjected contributionRun (res_debugInfo r) == 1000
    /\ netSpent (res_trades r) == 1000
    /\ res_finalValue r == 1000.
Proof.
  eexists. split; [vm_compute; reflexivity|].
  repeat split.
Qed.
(** * Further properties of the engine and its callers *)

Ltac params_simpl :=
  cbn [withInitialCapital marketData fearGreedData symbol initialCapital
       strategyVariant weeklyContribution useLumpSum].

Section Capital.
Variable cfg : Config.
Variable params : BacktestParams.
Variable capital : Q.
Local Abbreviation params' := (withInitialCapital params capital).

Lemma invest_contribution_capital :
  invest_contribution params' = invest_contribution params.
Proof. reflexivity. Qed.

Lemma defer_contribution_capital :
  defer_contribution params' = defer_contribution params.
Proof. reflexivity. Qed.

Lemma contribution_phase_capital :
  contribution_phase cfg params' = contribution_phase cfg params.
Proof.
  unfold contribution_phase.
  rewrite invest_contribution_capital, defer_contribution_capital.
  reflexivity.
Qed.

Lemma shouldSell_capital : shouldSell cfg params' = shouldSell cfg params.
Proof. reflexivity. Qed.

Lemma sell_phase_capital : sell_phase cfg params' = sell_phase cfg params.
Proof. unfold sell_phase. rewrite shouldSell_capital. reflexivity. Qed.

Lemma release_phase_capital : release_phase params' = release_phase params.
Proof. reflexivity. Qed.

Lemma shouldBuy_capital : shouldBuy cfg params' = shouldBuy cfg params.
Proof. reflexivity. Qed.

Lemma lump_sum_phase_capital :
  lump_sum_phase cfg params' = lump_sum_phase cfg params.
Proof. unfold lump_sum_phase. rewrite shouldBuy_capital. reflexivity. Qed.

Lemma day_step_capital cooldownPeriods :
  day_step cfg params' cooldownPeriods = day_step cfg params cooldownPeriods.
Proof.
  unfold day_step.
  rewrite contribution_phase_capital, sell_phase_capital,
    release_phase_capital, lump_sum_phase_capital.
  reflexivity.
Qed.

Lemma periodic_ignores_initialCapital :
  useLumpSum params = false ->
  runBacktest cfg params' = runBacktest cfg params.
Proof.
  intro Hlump. unfold runBacktest. params_simpl.
  destruct (marketData params) as [|d0 rest] eqn:Hmd; [reflexivity|].
  cbv zeta. unfold state_after, simulate_days. params_simpl.
  rewrite day_step_capital.
  assert (Hinit : initial_state params' d0 = initial_state params d0).
  { unfold initial_state, initial_debug. params_simpl. rewrite Hlump. reflexivity. }
  rewrite Hinit. reflexivity.
Qed.
End Capital.

Section DayInvariant.
Variable cfg : Config.
Variable params : BacktestParams.
Variable cooldownPeriods : Z.
Variable P : State -> Prop.
Variable i : nat.
Variable day : MarketDataPoint.

Local Abbreviation fgToday :=
  (findClosestFearGreedData (md_date day) (fearGreedData params)).

Hypothesis P_tick : forall s,
  P s ->
  P (debug (fun d => set_totalPossibleTrades d (totalPossibleTrades d + 1)%Z) s).
Hypothesis P_contribution : forall s,
  P s -> P (contribution_phase cfg params i day fgToday s).
Hypothesis P_equity : forall s,
  P s ->
  P (set_equityCurve s (equityCurve s ++ [cash s + shares s * close day])).
Hypothesis P_noData : forall s,
  P s ->
  P (debug (fun d => set_noFearGreedData d (noFearGreedData d + 1)%Z) s).
Hypothesis P_downtrend : forall s,
  P s ->
  P (debug (fun d => set_dbg_inDowntrend d (dbg_inDowntrend d + 1)%Z) s).
Hypothesis P_sell : forall fg s,
  fgToday = Some fg -> P s -> P (sell_phase cfg params day fg s).
Hypothesis P_release : forall fg inCooldown s,
  fgToday = Some fg -> P s -> P (release_phase params day fg inCooldown s).
Hypothesis P_lump : forall fg inCooldown inDowntrend s,
  fgToday = Some fg -> P s ->
  P (lump_sum_phase cfg params day fg inCooldown inDowntrend s).

(** A property kept by every phase of a day is kept by the day. *)
Lemma day_step_inv s :
  nth_error (marketData params) i = Some day ->
  P s -> P (day_step cfg params cooldownPeriods s i).
Proof.
  intros Hday Hs. unfold day_step. rewrite Hday. cbv zeta.
  set (s1 := debug _ s).
  assert (H1 : P s1) by (apply P_tick; exact Hs).
  set (s2 := contribution_phase cfg params i day fgToday s1).
  assert (H2 : P s2) by (apply P_contribution; exact H1).
  set (s3 := set_equityCurve s2 _).
  assert (H3 : P s3) by (apply P_equity; exact H2).
  clearbody s3. clear H2 H1 Hs s2 s1.
  destruct fgToday as [fg|] eqn:Hfg; [|apply P_noData; exact H3].
  apply (P_lump fg _ _ _ eq_refl), (P_release fg _ _ eq_refl),
    (P_sell fg _ eq_refl).
  destruct (isInDowntrend (marketData params) i); [apply P_downtrend|]; exact H3.
Qed.

End DayInvariant.

(** A property kept by every day is kept by the loop. *)
Lemma simulate_days_inv cfg params cooldownPeriods (P : State -> Prop) init k :
  (forall s i day, nth_error (marketData params) i = Some day ->
     P s -> P (day_step cfg params cooldownPeriods s i)) ->
  P init -> P (simulate_days cfg params cooldownPeriods init k).
Proof.
  intros Hstep Hinit. unfold simulate_days. induction k as [|k IH].
  - exact Hinit.
  - rewrite seq_S, fold_left_app. cbn [fold_left Nat.add].
    destruct (nth_error (marketData params) k) as [day|] eqn:Hday.
    + apply (Hstep _ k day Hday IH).
    + unfold day_step at 1. rewrite Hday. exact IH.
Qed.

Ltac phase_cases :=
  cbv zeta; break_tests; state_simpl; debug_simpl.

Section Counting.
Variable cfg : Config.
Variable params : BacktestParams.

Lemma invest_contribution_counted day fg s :
  (totalContributions s - 1
   = skippedContributions s + weeklyContributionsInvested (debugInfo s))%Z ->
  weeklyContributionsSkipped (debugInfo s) = skippedContributions s ->
  accumulatedCash s + accumulatedCashInvested (debugInfo s)
  == weeklyContribution params * inject_Z (skippedContributions s) ->
  contributions_counted params (invest_contribution params day fg s).
Proof.
  intros H1 H2 H3. unfold contributions_counted, invest_contribution.
  phase_cases; (split; [lia|]); (split; [exact H2|]); lra.
Qed.

Lemma contribution_phase_counted i day fg s :
  contributions_counted params s ->
  contributions_counted params (contribution_phase cfg params i day fg s).
Proof.
  intros (H1 & H2 & H3). unfold contribution_phase. cbv zeta.
  destruct (useLumpSum params); [repeat split; assumption|].
  match goal with |- context [if ?c then _ else _] => destruct c end;
    [|repeat split; assumption].
  match goal with |- context [if ?c then _ else _] => destruct c end.
  - apply invest_contribution_counted; state_simpl; debug_simpl;
      [lia|exact H2|exact H3].
  - unfold contributions_counted, defer_contribution. state_simpl. debug_simpl.
    split; [lia|]. split; [lia|].
    rewrite inject_Z_plus. change (inject_Z 1) with 1. lra.
Qed.

Lemma sell_phase_counted day fg s :
  contributions_counted params s ->
  contributions_counted params (sell_phase cfg params day fg s).
Proof.
  intros Hs. unfold sell_phase. phase_cases; exact Hs.
Qed.

Lemma release_phase_counted day fg inCooldown s :
  contributions_counted params s ->
  contributions_counted params (release_phase params day fg inCooldown s).
Proof.
  intros (H1 & H2 & H3). unfold release_phase, contributions_counted.
  phase_cases; (split; [exact H1|]); (split; [exact H2|]); lra.
Qed.

Lemma lump_sum_phase_counted day fg inCooldown inDowntrend s :
  contributions_counted params s ->
  contributions_counted params
    (lump_sum_phase cfg params day fg inCooldown inDowntrend s).
Proof.
  intros Hs. unfold lump_sum_phase. phase_cases; exact Hs.
Qed.

Lemma final_sweep_counted day s :
  contributions_counted params s ->
  contributions_counted params (final_sweep day s).
Proof.
  intros Hs. unfold final_sweep. phase_cases; exact Hs.
Qed.

Lemma state_after_counted d0 k :
  contributions_counted params (state_after cfg params d0 k).
Proof.
  unfold state_after. apply simulate_days_inv.
  - intros s i day Hday Hs.
    apply (day_step_inv cfg params _ (contributions_counted params) i day);
      try (intros; assumption); auto.
    + intros s0. apply contribution_phase_counted.
    + intros fg s0 _. apply sell_phase_counted.
    + intros fg c s0 _. apply release_phase_counted.
    + intros fg c dt s0 _. apply lump_sum_phase_counted.
  - unfold contributions_counted, initial_state, initial_debug.
    state_simpl. debug_simpl. repeat split. change (inject_Z 0) with 0. ring.
Qed.

End Counting.

Ltac schedule_frame :=
  unfold same_schedule; state_simpl; debug_simpl;
  repeat match goal with |- _ /\ _ => split end; reflexivity.

Lemma same_schedule_refl s : same_schedule s s.
Proof. schedule_frame. Qed.

Lemma sell_phase_schedule cfg params day fg s :
  same_schedule s (sell_phase cfg params day fg s).
Proof. unfold sell_phase. cbv zeta. break_tests; schedule_frame. Qed.

Lemma lump_sum_phase_schedule cfg params day fg inCooldown inDowntrend s :
  same_schedule s (lump_sum_phase cfg params day fg inCooldown inDowntrend s).
Proof. unfold lump_sum_phase. cbv zeta. break_tests; schedule_frame. Qed.

Lemma final_sweep_schedule day s : same_schedule s (final_sweep day s).
Proof. unfold final_sweep. cbv zeta. break_tests; schedule_frame. Qed.

Lemma release_phase_schedule params day fg inCooldown s :
  totalContributions (release_phase params day fg inCooldown s)
  = totalContributions s
  /\ skippedContributions (release_phase params day fg inCooldown s)
     = skippedContributions s
  /\ buyAndHoldShares (release_phase params day fg inCooldown s)
     = buyAndHoldShares s
  /\ lastContributionDate (release_phase params day fg inCooldown s)
     = lastContributionDate s
  /\ weeklyContributionsInvested
       (debugInfo (release_phase params day fg inCooldown s))
     = weeklyContributionsInvested (debugInfo s)
  /\ doubleInvestments (debugInfo (release_phase params day fg inCooldown s))
     = doubleInvestments (debugInfo s).
Proof.
  unfold release_phase. cbv zeta.
  break_tests; state_simpl; debug_simpl;
    repeat match goal with |- _ /\ _ => split end; reflexivity.
Qed.

(** The telemetry updates and the equity-curve entry leave the schedule
    alone. *)
Ltac schedule_trivia Hs :=
  first
  [ exact Hs
  | let H := fresh in
    intro H; exact H ].

Section Schedule.
Variable cfg : Config.
Variable params : BacktestParams.
Variable d0 : MarketDataPoint.

Lemma schedule_idle_frame s s' :
  same_schedule s s' -> schedule_idle params d0 s -> schedule_idle params d0 s'.
Proof.
  intros (H1 & H2 & H3 & H4 & H5 & _) (I1 & I2 & I3 & I4 & I5).
  unfold schedule_idle. rewrite H1, H2, H3, H4, H5. repeat split; assumption.
Qed.

Lemma state_after_idle k :
  useLumpSum params = true ->
  schedule_idle params d0 (state_after cfg params d0 k).
Proof.
  intro Hlump. unfold state_after. apply simulate_days_inv.
  - intros s i day Hday Hs.
    apply (day_step_inv cfg params _ (schedule_idle params d0) i day);
      try (intros s0 H0; exact H0); auto.
    + intros s0 H0. rewrite (contribution_phase_lump cfg params i day _ s0 Hlump).
      exact H0.
    + intros fg s0 _. apply schedule_idle_frame, sell_phase_schedule.
    + intros fg c s0 _ H0. rewrite (release_phase_lump params day fg c s0 Hlump).
      exact H0.
    + intros fg c dt s0 _. apply schedule_idle_frame, lump_sum_phase_schedule.
  - unfold schedule_idle, initial_state. state_simpl. rewrite Hlump.
    repeat split.
Qed.

End Schedule.

Lemma runBacktest_lump_sum_schedule cfg params r :
  useLumpSum params = true ->
  runBacktest cfg params = inr r ->
  res_totalInvested r = initialCapital params
  /\ res_totalContributions r = 0%Z
  /\ res_skippedContributions r = 0%Z.
Proof.
  intros Hlump Hrun.
  apply runBacktest_inr in Hrun as (d0 & fd & _ & _ & ->).
  pose proof (state_after_idle cfg params d0 (length (marketData params)) Hlump)
    as Hidle.
  apply (schedule_idle_frame params d0 _ _ (final_sweep_schedule fd _)) in Hidle.
  destruct Hidle as (I1 & I2 & I3 & I4 & I5).
  cbn [summarize res_totalInvested res_totalContributions res_skippedContributions].
  rewrite Hlump. repeat split; assumption.
Qed.

(** *** Trade counters *)

Lemma count_snoc_buy (f : Trade -> bool) (log : list Trade) (t : Trade) :
  length (filter f (log ++ [t]))
  = (length (filter f log) + (if f t then 1 else 0))%nat.
Proof.
  rewrite filter_app, length_app. cbn [filter]. destruct (f t); reflexivity.
Qed.

Lemma record_buy_trades_counted day n why s :
  trades_counted s -> trades_counted (record_buy day n why s).
Proof.
  intros [Hb Hs]. unfold trades_counted. state_simpl. debug_simpl.
  rewrite !count_snoc_buy. cbn [isBuy isSell trade_type].
  split; [rewrite Hb|rewrite Hs]; lia.
Qed.

Ltac counted_frame Hs :=
  let Hb := fresh in
  let Hc := fresh in
  destruct Hs as [Hb Hc]; unfold trades_counted; state_simpl; debug_simpl;
  rewrite ?count_snoc_buy; cbn [isBuy isSell trade_type];
  split; [rewrite ?Hb|rewrite ?Hc]; lia.

Section TradeCounters.
Variable cfg : Config.
Variable params : BacktestParams.

Lemma contribution_phase_trades_counted i day fg s :
  trades_counted s -> trades_counted (contribution_phase cfg params i day fg s).
Proof.
  intro Hs. unfold contribution_phase, invest_contribution, defer_contribution.
  cbv zeta. break_tests; counted_frame Hs.
Qed.

Lemma sell_phase_trades_counted day fg s :
  trades_counted s -> trades_counted (sell_phase cfg params day fg s).
Proof.
  intro Hs. unfold sell_phase. cbv zeta. break_tests; counted_frame Hs.
Qed.

Lemma release_phase_trades_counted day fg inCooldown s :
  trades_counted s -> trades_counted (release_phase params day fg inCooldown s).
Proof.
  intro Hs. unfold release_phase. cbv zeta. break_tests; counted_frame Hs.
Qed.

Lemma lump_sum_phase_trades_counted day fg inCooldown inDowntrend s :
  trades_counted s ->
  trades_counted (lump_sum_phase cfg params day fg inCooldown inDowntrend s).
Proof.
  intro Hs. unfold lump_sum_phase. cbv zeta. break_tests; counted_frame Hs.
Qed.

Lemma final_sweep_trades_counted day s :
  trades_counted s -> trades_counted (final_sweep day s).
Proof.
  intro Hs. unfold final_sweep. cbv zeta. break_tests; counted_frame Hs.
Qed.

Lemma state_after_trades_counted d0 k :
  trades_counted (state_after cfg params d0 k).
Proof.
  unfold state_after. apply simulate_days_inv.
  - intros s i day Hday Hs.
    apply (day_step_inv cfg params _ trades_counted i day);
      try (intros s0 H0; exact H0); auto.
    + intros s0. apply contribution_phase_trades_counted.
    + intros fg s0 _. apply sell_phase_trades_counted.
    + intros fg c s0 _. apply release_phase_trades_counted.
    + intros fg c dt s0 _. apply lump_sum_phase_trades_counted.
  - split; reflexivity.
Qed.

End TradeCounters.

(** X20: the numbers of buys and sells the report counts in the trade log
    are the run's own counters of executed buys and sells, and add up to the
    length of the log. *)
Theorem trade_breakdown_matches_counters cfg params r :
  runBacktest cfg params = inr r ->
  Z.of_nat (buyTrades r) = executedBuys (res_debugInfo r)
  /\ Z.of_nat (sellTrades r) = executedSells (res_debugInfo r)
  /\ (buyTrades r + sellTrades r)%nat = length (res_trades r).
Proof.
  intro Hrun. apply runBacktest_inr in Hrun as (d0 & fd & _ & _ & ->).
  pose proof (final_sweep_trades_counted fd _
                (state_after_trades_counted cfg params d0
                   (length (marketData params)))) as [Hb Hs].
  unfold buyTrades, sellTrades. cbn [summarize res_trades res_debugInfo].
  set (log := trades (final_sweep fd _)) in *. clearbody log.
  split; [symmetry; exact Hb|]. split; [symmetry; exact Hs|].
  clear Hb Hs. induction log as [|t log IH]; [reflexivity|].
  cbn [filter length]. unfold isBuy at 1, isSell at 1.
  destruct (trade_type t); cbn [length]; lia.
Qed.

(** *** Doubling and spacing of contributions *)

Lemma extreme_rule_is_double_rule cfg v inDowntrend variant :
  variant = ExtremeOnly \/ variant = ExtremeFearHold ->
  shouldInvestWeeklyAmount cfg v inDowntrend variant = shouldInvestDouble v.
Proof.
  intros [-> | ->]; unfold shouldInvestWeeklyAmount, shouldInvestDouble;
    destruct v as [v|]; try reflexivity; cbn [variant_eqb andb];
    destruct (Qleb v EXTREME_FEAR_THRESHOLD); try reflexivity;
    destruct (inDowntrend && Qltb EXTREME_FEAR_THRESHOLD v); reflexivity.
Qed.

Lemma invest_contribution_schedule params day fg s :
  totalContributions (invest_contribution params day fg s) = totalContributions s
  /\ skippedContributions (invest_contribution params day fg s)
     = skippedContributions s
  /\ lastContributionDate (invest_contribution params day fg s)
     = lastContributionDate s
  /\ buyAndHoldShares (invest_contribution params day fg s) = buyAndHoldShares s
  /\ weeklyContributionsInvested (debugInfo (invest_contribution params day fg s))
     = (weeklyContributionsInvested (debugInfo s) + 1)%Z
  /\ doubleInvestments (debugInfo (invest_contribution params day fg s))
     = (doubleInvestments (debugInfo s)
        + if shouldInvestDouble (option_map value fg) then 1 else 0)%Z.
Proof.
  unfold invest_contribution. cbv zeta.
  break_tests; state_simpl; debug_simpl;
    repeat match goal with |- _ /\ _ => split end; try reflexivity; lia.
Qed.

Lemma week_elapsed (elapsed : Z) :
  Qleb DAYS_IN_WEEK (inject_Z elapsed / inject_Z MS_PER_DAY) = true <->
  (7 * MS_PER_DAY <= elapsed)%Z.
Proof.
  rewrite Qleb_true. unfold DAYS_IN_WEEK.
  assert (Hms : 0 < inject_Z MS_PER_DAY) by reflexivity.
  split; intro H.
  - rewrite Zle_Qle, inject_Z_mult.
    apply (Qmult_le_compat_r _ _ (inject_Z MS_PER_DAY)) in H; [|apply Qlt_le_weak, Hms].
    rewrite div_mul_cancel in H by (intro E; rewrite E in Hms; discriminate).
    exact H.
  - apply Qle_shift_div_l; [exact Hms|].
    rewrite Zle_Qle, inject_Z_mult in H. exact H.
Qed.

Section Doubling.
Variable cfg : Config.
Variable params : BacktestParams.
Variable d0 : MarketDataPoint.

Lemma all_doubled_frame s s' :
  same_schedule s s' -> all_doubled s -> all_doubled s'.
Proof.
  intros (_ & _ & _ & _ & _ & _ & H7 & H8) Hs. unfold all_doubled in *.
  rewrite H7, H8. exact Hs.
Qed.

Lemma contribution_phase_doubled i day fg s :
  strategyVariant params = ExtremeOnly
  \/ strategyVariant params = ExtremeFearHold ->
  all_doubled s -> all_doubled (contribution_phase cfg params i day fg s).
Proof.
  intros Hv Hs. unfold contribution_phase. cbv zeta.
  destruct (useLumpSum params); [exact Hs|].
  match goal with |- context [if ?c then _ else _] => destruct c end;
    [|exact Hs].
  rewrite (extreme_rule_is_double_rule cfg _ _ _ Hv).
  destruct (shouldInvestDouble (option_map value fg)) eqn:Hd.
  - unfold all_doubled.
    match goal with
    | |- context [invest_contribution params day fg ?s1] =>
        destruct (invest_contribution_schedule params day fg s1)
          as (_ & _ & _ & _ & -> & ->)
    end.
    rewrite Hd. state_simpl. unfold all_doubled in Hs. rewrite Hs. reflexivity.
  - unfold all_doubled, defer_contribution in *. state_simpl. debug_simpl.
    exact Hs.
Qed.

Lemma release_phase_doubled day fg inCooldown s :
  all_doubled s -> all_doubled (release_phase params day fg inCooldown s).
Proof.
  intro Hs. unfold all_doubled in *.
  destruct (release_phase_schedule params day fg inCooldown s)
    as (_ & _ & _ & _ & -> & ->).
  exact Hs.
Qed.

Lemma state_after_doubled k :
  strategyVariant params = ExtremeOnly
  \/ strategyVariant params = ExtremeFearHold ->
  all_doubled (state_after cfg params d0 k).
Proof.
  intro Hv. unfold state_after. apply simulate_days_inv.
  - intros s i day Hday Hs.
    apply (day_step_inv cfg params _ all_doubled i day);
      try (intros s0 H0; exact H0); auto.
    + intros s0. apply contribution_phase_doubled. exact Hv.
    + intros fg s0 _. apply all_doubled_frame, sell_phase_schedule.
    + intros fg c s0 _. apply release_phase_doubled.
    + intros fg c dt s0 _. apply all_doubled_frame, lump_sum_phase_schedule.
  - reflexivity.
Qed.

Lemma contributions_spaced_frame s s' :
  same_schedule s s' -> contributions_spaced d0 s -> contributions_spaced d0 s'.
Proof.
  intros (_ & _ & H3 & _ & _ & H6 & _) Hs. unfold contributions_spaced in *.
  rewrite H3, H6. exact Hs.
Qed.

Lemma contribution_phase_spaced i day fg s :
  contributions_spaced d0 s ->
  contributions_spaced d0 (contribution_phase cfg params i day fg s).
Proof.
  intro Hs. unfold contribution_phase. cbv zeta.
  destruct (useLumpSum params); [exact Hs|].
  match goal with |- context [if ?c then _ else _] => destruct c eqn:Hweek end;
    [|exact Hs].
  apply week_elapsed in Hweek.
  assert (Hnew : forall s1,
            totalContributions s1 = (totalContributions s + 1)%Z ->
            lastContributionDate s1 = md_date day ->
            contributions_spaced d0 s1).
  { intros s1 Htc Hlast. unfold contributions_spaced in *.
    rewrite Htc, Hlast. unfold getTime in *. lia. }
  match goal with |- context [if ?c then _ else _] => destruct c end.
  - match goal with
    | |- context [invest_contribution params day fg ?s1] =>
        destruct (invest_contribution_schedule params day fg s1)
          as (Htc & _ & Hlast & _)
    end.
    apply Hnew; [rewrite Htc|rewrite Hlast]; reflexivity.
  - apply Hnew; reflexivity.
Qed.

Lemma release_phase_spaced day fg inCooldown s :
  contributions_spaced d0 s ->
  contributions_spaced d0 (release_phase params day fg inCooldown s).
Proof.
  intro Hs. unfold contributions_spaced in *.
  destruct (release_phase_schedule params day fg inCooldown s)
    as (-> & _ & _ & -> & _).
  exact Hs.
Qed.

Lemma state_after_spaced k :
  contributions_spaced d0 (state_after cfg params d0 k).
Proof.
  unfold state_after. apply simulate_days_inv.
  - intros s i day Hday Hs.
    apply (day_step_inv cfg params _ (contributions_spaced d0) i day);
      try (intros s0 H0; exact H0); auto.
    + intros s0. apply contribution_phase_spaced.
    + intros fg s0 _. apply contributions_spaced_frame, sell_phase_schedule.
    + intros fg c s0 _. apply release_phase_spaced.
    + intros fg c dt s0 _.
      apply contributions_spaced_frame, lump_sum_phase_schedule.
  - unfold contributions_spaced, initial_state. state_simpl. unfold getTime. lia.
Qed.

End Doubling.

Lemma day_log_refl day s : day_log day s s.
Proof. exists []. rewrite app_nil_r. split; [reflexivity|constructor]. Qed.

Lemma day_log_trans day s1 s2 s3 :
  day_log day s1 s2 -> day_log day s2 s3 -> day_log day s1 s3.
Proof.
  intros (l1 & H1 & F1) (l2 & H2 & F2). exists (l1 ++ l2).
  rewrite H2, H1, app_assoc. split; [reflexivity|].
  apply Forall_app. split; assumption.
Qed.

Lemma day_log_same day s s' : trades s' = trades s -> day_log day s s'.
Proof.
  intro H. exists []. rewrite app_nil_r. split; [exact H|constructor].
Qed.

Lemma day_log_one day s s' t :
  trades s' = trades s ++ [t] -> trade_on day t -> day_log day s s'.
Proof.
  intros H Ht. exists [t]. split; [exact H|]. constructor; [exact Ht|constructor].
Qed.

Ltac day_log_cases :=
  cbv zeta; break_tests;
  first
  [ apply day_log_same; reflexivity
  | eapply day_log_one;
    [ reflexivity
    | unfold trade_on; cbn [trade_date price trade_value trade_shares];
      repeat match goal with |- _ /\ _ => split end; try reflexivity;
      reflect_tests; assumption ] ].

Section DayLog.
Variable cfg : Config.
Variable params : BacktestParams.
Variable cooldownPeriods : Z.

Lemma contribution_phase_day_log i day fg s :
  day_log day s (contribution_phase cfg params i day fg s).
Proof.
  unfold contribution_phase, invest_contribution, defer_contribution.
  day_log_cases.
Qed.

Lemma sell_phase_day_log day fg s :
  day_log day s (sell_phase cfg params day fg s).
Proof. unfold sell_phase. day_log_cases. Qed.

Lemma release_phase_day_log day fg inCooldown s :
  day_log day s (release_phase params day fg inCooldown s).
Proof. unfold release_phase. day_log_cases. Qed.

Lemma lump_sum_phase_day_log day fg inCooldown inDowntrend s :
  day_log day s (lump_sum_phase cfg params day fg inCooldown inDowntrend s).
Proof. unfold lump_sum_phase. day_log_cases. Qed.

Lemma final_sweep_day_log day s : day_log day s (final_sweep day s).
Proof. unfold final_sweep. day_log_cases. Qed.

Lemma day_step_day_log s i day :
  nth_error (marketData params) i = Some day ->
  day_log day s (day_step cfg params cooldownPeriods s i).
Proof.
  intro Hday.
  apply (day_step_inv cfg params _ (day_log day s) i day);
    try (intros s0 H0; exact H0); auto.
  - intros s0 H0. eapply day_log_trans; [exact H0|].
    apply contribution_phase_day_log.
  - intros fg s0 _ H0. eapply day_log_trans; [exact H0|].
    apply sell_phase_day_log.
  - intros fg c s0 _ H0. eapply day_log_trans; [exact H0|].
    apply release_phase_day_log.
  - intros fg c dt s0 _ H0. eapply day_log_trans; [exact H0|].
    apply lump_sum_phase_day_log.
  - apply day_log_refl.
Qed.

End DayLog.

(** The loop, with a property that may depend on the number of days done. *)
Lemma simulate_days_indexed cfg params cooldownPeriods
    (P : nat -> State -> Prop) init :
  (forall k s day, nth_error (marketData params) k = Some day ->
     P k s -> P (S k) (day_step cfg params cooldownPeriods s k)) ->
  (forall k s, nth_error (marketData params) k = None -> P k s -> P (S k) s) ->
  P 0%nat init ->
  forall k, P k (simulate_days cfg params cooldownPeriods init k).
Proof.
  intros Hstep Hskip Hinit k. unfold simulate_days. induction k as [|k IH].
  - exact Hinit.
  - rewrite seq_S, fold_left_app. cbn [fold_left Nat.add].
    destruct (nth_error (marketData params) k) as [day|] eqn:Hday.
    + apply (Hstep k _ day Hday IH).
    + unfold day_step at 1. rewrite Hday. apply Hskip; assumption.
Qed.

Lemma final_day_index (marketData : list MarketDataPoint) finalDay :
  nth_error marketData (length marketData - 1) = Some finalDay ->
  (length marketData - 1 < length marketData)%nat.
Proof.
  intro H. apply nth_error_Some. congruence.
Qed.

(** X7: every trade a run returns was made on a day of the price series, at
    that day's date and close, for a positive number of shares, and its value
    is shares times price. *)
Theorem trades_made_on_market_days cfg params r :
  runBacktest cfg params = inr r ->
  trades_on_market (marketData params) (res_trades r).
Proof.
  intro Hrun. apply runBacktest_inr in Hrun as (d0 & fd & _ & Hfd & ->).
  cbn [summarize res_trades].
  assert (Hloop : forall k,
            trades_on_market (marketData params)
              (trades (state_after cfg params d0 k))).
  { intro k. unfold state_after.
    apply (simulate_days_inv cfg params _
             (fun s => trades_on_market (marketData params) (trades s))).
    - intros s i day Hday Hs.
      destruct (day_step_day_log cfg params
                  (determineCooldownPeriod (marketData params)) s i day Hday)
        as (l & -> & Hl).
      apply Forall_app. split; [exact Hs|].
      eapply Forall_impl; [|exact Hl]. intros t Ht. exists i, day.
      split; assumption.
    - constructor. }
  destruct (final_sweep_day_log fd
              (state_after cfg params d0 (length (marketData params))))
    as (l & -> & Hl).
  apply Forall_app. split; [apply Hloop|].
  eapply Forall_impl; [|exact Hl]. intros t Ht.
  exists (length (marketData params) - 1)%nat, fd. split; assumption.
Qed.

Lemma sorted_snoc_all (l extra : list Z) (x : Z) :
  StronglySorted Z.le l ->
  Forall (fun y => (y <= x)%Z) l ->
  Forall (fun y => y = x) extra ->
  StronglySorted Z.le (l ++ extra).
Proof.
  intros Hs Hle Hx. induction l as [|a l IH]; cbn [app].
  - induction extra as [|b extra IHe]; [constructor|].
    inversion Hx as [|? ? Hb Hrest]; subst.
    constructor; [apply IHe; exact Hrest|].
    eapply Forall_impl; [|exact Hrest]. intros y ->. lia.
  - inversion Hs as [|? ? Hs' Ha]; subst.
    inversion Hle as [|? ? Hax Hle']; subst.
    constructor; [apply IH; assumption|].
    apply Forall_app. split; [exact Ha|].
    eapply Forall_impl; [|exact Hx]. intros y ->. exact Hax.
Qed.

Lemma log_in_order_day marketData k day (log l : list Trade) :
  dates_ascending marketData ->
  nth_error marketData k = Some day ->
  log_in_order marketData k log ->
  Forall (trade_on day) l ->
  log_in_order marketData (S k) (log ++ l).
Proof.
  intros Hasc Hday [Hsorted Hdays] Hl. split.
  - rewrite map_app.
    apply (sorted_snoc_all _ _ (md_date day)); [exact Hsorted| |].
    + apply Forall_map. eapply Forall_impl; [|exact Hdays].
      intros t (j & dj & Hj & Hdj & ->).
      apply (Hasc j k dj day); [lia|assumption|assumption].
    + apply Forall_map. eapply Forall_impl; [|exact Hl].
      intros t Ht. apply Ht.
  - apply Forall_app. split.
    + eapply Forall_impl; [|exact Hdays].
      intros t (j & dj & Hj & Hdj & Ht). exists j, dj.
      repeat split; [lia|assumption|assumption].
    + eapply Forall_impl; [|exact Hl].
      intros t Ht. exists k, day. repeat split; [lia|assumption|apply Ht].
Qed.

Lemma log_in_order_later marketData k k' log :
  (k <= k')%nat -> log_in_order marketData k log -> log_in_order marketData k' log.
Proof.
  intros Hk [Hsorted Hdays]. split; [exact Hsorted|].
  eapply Forall_impl; [|exact Hdays].
  intros t (j & dj & Hj & Hdj & Ht). exists j, dj.
  repeat split; [lia|assumption|assumption].
Qed.

(** X8: when the price series is in date order, so is the trade log. *)
Theorem trade_log_in_date_order cfg params r :
  dates_ascending (marketData params) ->
  runBacktest cfg params = inr r ->
  StronglySorted Z.le (map trade_date (res_trades r)).
Proof.
  intros Hasc Hrun.
  apply runBacktest_inr in Hrun as (d0 & fd & _ & Hfd & ->).
  cbn [summarize res_trades].
  set (n := length (marketData params)) in *.
  assert (Hloop : forall k,
            log_in_order (marketData params) k
              (trades (state_after cfg params d0 k))).
  { unfold state_after.
    apply (simulate_days_indexed cfg params _
             (fun k s => log_in_order (marketData params) k (trades s))).
    - intros k s day Hday Hs.
      destruct (day_step_day_log cfg params
                  (determineCooldownPeriod (marketData params)) s k day Hday)
        as (l & -> & Hl).
      apply (log_in_order_day _ k day); assumption.
    - intros k s _ Hs. apply (log_in_order_later _ k); [lia|exact Hs].
    - split; constructor. }
  destruct (final_sweep_day_log fd (state_after cfg params d0 n))
    as (l & -> & Hl).
  pose proof (final_day_index _ _ Hfd) as Hlt. fold n in Hlt.
  assert (Hprev : log_in_order (marketData params) (n - 1)
                    (trades (state_after cfg params d0 (n - 1)))) by apply Hloop.
  assert (Hn : log_in_order (marketData params) n
                 (trades (state_after cfg params d0 n))) by apply Hloop.
  destruct Hn as [Hsorted Hdays].
  rewrite map_app.
  apply (sorted_snoc_all _ _ (md_date fd)); [exact Hsorted| |].
  - apply Forall_map. eapply Forall_impl; [|exact Hdays].
    intros t (j & dj & Hj & Hdj & ->).
    apply (Hasc j (n - 1)%nat dj fd); [lia|assumption|assumption].
  - apply Forall_map. eapply Forall_impl; [|exact Hl].
    intros t Ht. apply Ht.
Qed.

Lemma drawdown_step_unit (st : Q * Q) (v : Q) :
  0 <= v -> 0 <= fst st <= 1 -> 0 <= fst (drawdown_step st v) <= 1.
Proof.
  destruct st as [m pk]. intros Hv Hm. unfold drawdown_step. cbn [fst] in *.
  destruct (Qltb pk v) eqn:Hcmp; cbn [fst]; [exact Hm|].
  destruct (Qltb 0 pk) eqn:Hpk; cbn [fst]; [|exact Hm].
  reflect_tests.
  assert (Hdd : 0 <= (pk - v) / pk /\ (pk - v) / pk <= 1).
  { split.
    - apply Qle_shift_div_l; [exact Hpk|lra].
    - apply Qle_shift_div_r; [exact Hpk|lra]. }
  split.
  - eapply Qle_trans; [apply Hm|apply Q.le_max_l].
  - apply Q.max_lub; [apply Hm|apply Hdd].
Qed.

(** On a curve of values that are not negative the result is in [0, 1]. *)
Lemma calculateMaxDrawdown_unit (equityCurve : list Q) :
  Forall (fun v => 0 <= v) equityCurve ->
  0 <= calculateMaxDrawdown equityCurve <= 1.
Proof.
  intro Hpos. unfold calculateMaxDrawdown.
  destruct equityCurve as [|firstValue rest] eqn:Hl; [split; discriminate|].
  rewrite <- Hl in *. clear Hl.
  assert (Hgen : forall l st,
            Forall (fun v => 0 <= v) l -> 0 <= fst st <= 1 ->
            0 <= fst (fold_left drawdown_step l st) <= 1).
  { induction l as [|v l IH]; intros st Hl Hst; cbn [fold_left]; [exact Hst|].
    inversion Hl as [|? ? Hv Hl']; subst.
    apply IH; [exact Hl'|]. apply drawdown_step_unit; assumption. }
  apply Hgen; [exact Hpos|]. cbn [fst]. split; discriminate.
Qed.

Ltac equity_frame := cbv zeta; break_tests; reflexivity.

Lemma contribution_phase_equity cfg params i day fg s :
  equityCurve (contribution_phase cfg params i day fg s) = equityCurve s.
Proof.
  unfold contribution_phase, invest_contribution, defer_contribution.
  equity_frame.
Qed.

Lemma sell_phase_equity cfg params day fg s :
  equityCurve (sell_phase cfg params day fg s) = equityCurve s.
Proof. unfold sell_phase. equity_frame. Qed.

Lemma release_phase_equity params day fg inCooldown s :
  equityCurve (release_phase params day fg inCooldown s) = equityCurve s.
Proof. unfold release_phase. equity_frame. Qed.

Lemma lump_sum_phase_equity cfg params day fg inCooldown inDowntrend s :
  equityCurve (lump_sum_phase cfg params day fg inCooldown inDowntrend s)
  = equityCurve s.
Proof. unfold lump_sum_phase. equity_frame. Qed.

Lemma final_sweep_equity day s :
  equityCurve (final_sweep day s) = equityCurve s.
Proof. unfold final_sweep. equity_frame. Qed.

Section Equity.
Variable cfg : Config.
Variable params : BacktestParams.
Hypothesis in_domain : inputs_in_domain cfg params.

Lemma market_price_positive i day :
  nth_error (marketData params) i = Some day -> 0 < close day.
Proof.
  intro Hday. destruct in_domain as (Hp & _).
  rewrite Forall_forall in Hp. apply Hp. eapply nth_error_In. exact Hday.
Qed.

Lemma sentiment_value_nonneg date fg :
  findClosestFearGreedData date (fearGreedData params) = Some fg ->
  0 <= value fg.
Proof.
  intro Hfg. destruct in_domain as (_ & Hv & _).
  rewrite Forall_forall in Hv. apply Hv. eapply findClosest_In. exact Hfg.
Qed.

Lemma day_step_equity_ok cooldownPeriods s i day :
  nth_error (marketData params) i = Some day ->
  equity_ok s -> equity_ok (day_step cfg params cooldownPeriods s i).
Proof.
  intros Hday Hs.
  pose proof (market_price_positive i day Hday) as Hp.
  destruct in_domain as (_ & _ & HF & _ & Hw).
  apply (day_step_inv cfg params _ equity_ok i day);
    try (intros s0 H0; exact H0); auto.
  - intros s0 [Hl He]. split.
    + apply contribution_phase_ok; assumption.
    + rewrite contribution_phase_equity. exact He.
  - intros s0 [[Hc Hsh] He]. split; [split; assumption|].
    state_simpl. apply Forall_app. split; [exact He|].
    constructor; [|constructor].
    assert (0 <= shares s0 * close day) by (apply Qmult_le_0_compat; lra).
    lra.
  - intros fg s0 _ [Hl He]. split.
    + apply sell_phase_ok; assumption.
    + rewrite sell_phase_equity. exact He.
  - intros fg c s0 _ [Hl He]. split.
    + apply release_phase_ok; assumption.
    + rewrite release_phase_equity. exact He.
  - intros fg c dt s0 Hfg [Hl He]. split.
    + apply lump_sum_phase_ok; try assumption.
      apply (sentiment_value_nonneg _ _ Hfg).
    + rewrite lump_sum_phase_equity. exact He.
Qed.

Lemma state_after_equity_ok d0 k : equity_ok (state_after cfg params d0 k).
Proof.
  unfold state_after. apply simulate_days_inv.
  - intros s i day. apply day_step_equity_ok.
  - destruct in_domain as (_ & _ & _ & HIC & _).
    unfold equity_ok, ledger_ok, initial_state. state_simpl.
    destruct (useLumpSum params); repeat split; try lra;
      (constructor; [lra|constructor]).
Qed.


End Equity.

(** X5: with the inputs in their domain, the maximum drawdown a run reports
    is between 0 and 1. *)
Theorem run_maxDrawdown_in_unit_interval cfg params r :
  inputs_in_domain cfg params ->
  runBacktest cfg params = inr r ->
  0 <= res_maxDrawdown r <= 1.
Proof.
  intros Hdom Hrun.
  apply runBacktest_inr in Hrun as (d0 & fd & _ & _ & ->).
  cbn [summarize res_maxDrawdown]. rewrite final_sweep_equity.
  apply calculateMaxDrawdown_unit.
  apply (state_after_equity_ok cfg params Hdom).
Qed.


Lemma average_loop (data : list MarketDataPoint) (start n : nat) (st : Q * Z) :
  (start + n <= length data)%nat ->
  fold_left (average_step data) (seq start n) st
  = (fold_left (fun acc item => acc + close item)
       (firstn n (skipn start data)) (fst st),
     (snd st + Z.of_nat n)%Z).
Proof.
  induction n as [|n IH]; intro Hlen.
  - cbn [seq fold_left firstn]. destruct st. cbn [fst snd]. f_equal. lia.
  - rewrite seq_S, fold_left_app, (IH ltac:(lia)). cbn [fold_left].
    unfold average_step at 1. cbn [fst snd].
    destruct (nth_error data (start + n)) as [item|] eqn:Hitem.
    2:{ apply nth_error_None in Hitem. lia. }
    assert (Hwin : nth_error (skipn start data) n = Some item).
    { rewrite nth_error_skipn. exact Hitem. }
    rewrite (firstn_snoc_nth_error _ _ _ Hwin), fold_left_app.
    cbn [fold_left]. f_equal. lia.
Qed.

(** X9: [calculateMovingAverage] gives no value when fewer than [periods]
    points end at [endIndex] or [periods] is 0; otherwise, inside the data,
    it is the sum of the closes of the [periods] points ending at [endIndex],
    divided by [periods]. *)
Theorem calculateMovingAverage_spec (data : list MarketDataPoint)
    (periods endIndex : nat) :
  ((endIndex + 1 < periods)%nat \/ periods = 0%nat ->
   calculateMovingAverage data periods endIndex = None)
  /\ ((0 < periods)%nat -> (periods <= endIndex + 1)%nat ->
      (endIndex < length data)%nat ->
      calculateMovingAverage data periods endIndex
      = Some (sumOfCloses (priceWindow data periods endIndex)
              / inject_Z (Z.of_nat periods))).
Proof.
  unfold calculateMovingAverage. split.
  - intros [H|H].
    + assert (Hlt : (endIndex <? periods - 1)%nat = true)
        by (apply Nat.ltb_lt; lia).
      rewrite Hlt. reflexivity.
    + subst periods. rewrite orb_true_r. reflexivity.
  - intros Hpos Hle Hlen.
    assert (H1 : (endIndex <? periods - 1)%nat = false)
      by (apply Nat.ltb_ge; lia).
    assert (H2 : (periods <=? 0)%nat = false) by (apply Nat.leb_gt; lia).
    rewrite H1, H2. cbn [orb]. cbv zeta.
    change (fun (st : Q * Z) (i : nat) =>
              match nth_error data i with
              | Some item => (fst st + close item, (snd st + 1)%Z)
              | None => st
              end) with (average_step data).
    replace (endIndex + 1 - (endIndex + 1 - periods))%nat with periods by lia.
    rewrite average_loop by lia. cbn [fst snd Z.add].
    assert (H3 : (0 <? Z.of_nat periods)%Z = true) by (apply Z.ltb_lt; lia).
    rewrite H3. reflexivity.
Qed.






(** X11: the weekly decision is the variant's buy rule on the sentiment
    value, whatever the downtrend flag, and [false] without a value. *)
Theorem weekly_rule_is_buy_rule cfg params inDowntrend :
  shouldInvestWeeklyAmount cfg None inDowntrend (strategyVariant params) = false
  /\ forall v,
       shouldInvestWeeklyAmount cfg (Some v) inDowntrend (strategyVariant params)
       = shouldBuy cfg params v.
Proof.
  split; [reflexivity|]. intro v.
  unfold shouldInvestWeeklyAmount, shouldBuy. cbv zeta.
  destruct (strategyVariant params); cbn [variant_eqb andb];
    repeat match goal with
    | |- context [if ?c then _ else _] => destruct c
    end; reflexivity.
Qed.

Ltac priced_cases :=
  cbv zeta; break_tests;
  first
  [ apply priced_same; reflexivity
  | eapply priced_buy; [reflexivity|reflexivity|left; reflexivity]
  | eapply priced_buy; [reflexivity|reflexivity|right; reflexivity] ].

Section Priced.
Variable cfg : Config.
Variable params : BacktestParams.
Variable cooldownPeriods : Z.

Lemma contribution_phase_priced i day fg s :
  priced_step s (contribution_phase cfg params i day fg s).
Proof.
  unfold contribution_phase, invest_contribution, defer_contribution.
  priced_cases.
Qed.

Lemma sell_phase_priced day fg s :
  priced_step s (sell_phase cfg params day fg s).
Proof.
  unfold sell_phase. cbv zeta.
  destruct (negb _ && Qltb 0 (shares s)); [|apply priced_same; reflexivity].
  destruct (lastBuyPrice s) as [lastBuy|] eqn:Hlast;
    [|apply priced_same; reflexivity].
  break_tests; try (apply priced_same; reflexivity).
  eapply (priced_sell _ _ _ lastBuy);
    [reflexivity|reflexivity|exact Hlast|state_simpl; exact Hlast|].
  reflect_tests. assumption.
Qed.

Lemma release_phase_priced day fg inCooldown s :
  priced_step s (release_phase params day fg inCooldown s).
Proof. unfold release_phase. priced_cases. Qed.

Lemma lump_sum_phase_priced day fg inCooldown inDowntrend s :
  priced_step s (lump_sum_phase cfg params day fg inCooldown inDowntrend s).
Proof. unfold lump_sum_phase. priced_cases. Qed.

Lemma final_sweep_priced day s : priced_step s (final_sweep day s).
Proof. unfold final_sweep. priced_cases. Qed.

End Priced.

Lemma nth_error_snoc_cases {A : Type} (l : list A) (x y : A) (j : nat) :
  nth_error (l ++ [x]) j = Some y ->
  nth_error l j = Some y \/ (j = length l /\ y = x).
Proof.
  intro H. destruct (Nat.lt_ge_cases j (length l)) as [Hlt|Hge].
  - left. rewrite nth_error_app1 in H by exact Hlt. exact H.
  - right. rewrite nth_error_app2 in H by exact Hge.
    destruct (j - length l)%nat as [|m] eqn:Hm.
    + cbn in H. injection H as <-. split; [lia|reflexivity].
    + cbn in H. destruct m; discriminate.
Qed.

Lemma nth_error_snoc_old {A : Type} (l : list A) (x y : A) (i : nat) :
  nth_error l i = Some y -> nth_error (l ++ [x]) i = Some y.
Proof.
  intro H. rewrite nth_error_app1; [exact H|].
  apply nth_error_Some. congruence.
Qed.

Lemma sells_at_profit_step s s' :
  priced_step s s' -> sells_at_profit s -> sells_at_profit s'.
Proof.
  intros Hstep [Hlast Hsells].
  assert (Hold : forall t0,
            (forall j t, nth_error (trades s ++ [t0]) j = Some t ->
               trade_type t = sell -> t <> t0 \/ trade_type t0 = buy ->
               exists i b, (i < j)%nat /\ nth_error (trades s ++ [t0]) i = Some b
                           /\ trade_type b = buy
                           /\ MIN_PROFIT_PERCENT <= profitOver (price b) (price t))).
  { intros t0 j t Hj Hsell Hdiff.
    destruct (nth_error_snoc_cases _ _ _ _ Hj) as [Hin|[_ ->]].
    - destruct (Hsells j t Hin Hsell) as (i & b & Hi & Hb & Hbuy & Hprofit).
      exists i, b. repeat split; try assumption.
      apply nth_error_snoc_old. exact Hb.
    - destruct Hdiff as [Hd|Hd]; [congruence|congruence]. }
  destruct Hstep as [Ht Hp|t Ht Hbuy Hp|t lastBuy Ht Hsell Hp Hp' Hprofit].
  - split; rewrite Ht; [rewrite Hp|]; assumption.
  - split; rewrite Ht.
    + intros p Hp0. destruct Hp as [Hp|Hp]; rewrite Hp in Hp0.
      * injection Hp0 as <-. exists (length (trades s)), t.
        rewrite nth_error_app2, Nat.sub_diag by lia. repeat split. exact Hbuy.
      * destruct (Hlast p Hp0) as (i & b & Hb & Hrest).
        exists i, b. split; [apply nth_error_snoc_old; exact Hb|exact Hrest].
    + intros j t1 Hj Hs1. apply (Hold t j t1 Hj Hs1). right. exact Hbuy.
  - split; rewrite Ht.
    + intros p Hp0. rewrite Hp' in Hp0. injection Hp0 as <-.
      destruct (Hlast lastBuy Hp) as (i & b & Hb & Hrest).
      exists i, b. split; [apply nth_error_snoc_old; exact Hb|exact Hrest].
    + intros j t1 Hj Hs1.
      destruct (nth_error_snoc_cases _ _ _ _ Hj) as [Hin|[Hjlen ->]].
      * destruct (Hsells j t1 Hin Hs1) as (i & b & Hi & Hb & Hbuy & Hpr).
        exists i, b. repeat split; try assumption.
        apply nth_error_snoc_old. exact Hb.
      * destruct (Hlast lastBuy Hp) as (i & b & Hb & Hbuy & Hprice).
        exists i, b. subst j. repeat split.
        -- apply nth_error_Some. congruence.
        -- apply nth_error_snoc_old. exact Hb.
        -- exact Hbuy.
        -- rewrite Hprice. exact Hprofit.
Qed.

Lemma state_after_sells_at_profit cfg params d0 k :
  sells_at_profit (state_after cfg params d0 k).
Proof.
  unfold state_after. apply simulate_days_inv.
  - intros s i day Hday Hs.
    apply (day_step_inv cfg params _ sells_at_profit i day);
      try (intros s0 H0; exact H0); auto.
    + intros s0. apply sells_at_profit_step, contribution_phase_priced.
    + intros fg s0 _. apply sells_at_profit_step, sell_phase_priced.
    + intros fg c s0 _. apply sells_at_profit_step, release_phase_priced.
    + intros fg c dt s0 _. apply sells_at_profit_step, lump_sum_phase_priced.
  - split.
    + intros p Hp. discriminate.
    + intros [|j] t Hj; discriminate.
Qed.

(** X13: with positive prices, every sell of a run's log was made at a
    profit of at least 10% over the price of a buy that comes before it in
    the log. *)
Theorem sells_make_minimum_profit cfg params r :
  Forall (fun day => 0 < close day) (marketData params) ->
  runBacktest cfg params = inr r ->
  forall j t,
    nth_error (res_trades r) j = Some t -> trade_type t = sell ->
    exists i b,
      (i < j)%nat /\ nth_error (res_trades r) i = Some b
      /\ trade_type b = buy
      /\ MIN_PROFIT_PERCENT <= profitOver (price b) (price t).
Proof.
  intros _ Hrun. apply runBacktest_inr in Hrun as (d0 & fd & _ & _ & ->).
  cbn [summarize res_trades].
  apply (sells_at_profit_step _ _ (final_sweep_priced fd _)
           (state_after_sells_at_profit cfg params d0 _)).
Qed.

Lemma last_day_exists (marketData : list MarketDataPoint) :
  marketData <> [] ->
  exists finalDay, nth_error marketData (length marketData - 1) = Some finalDay.
Proof.
  intro Hne. destruct (nth_error marketData (length marketData - 1)) eqn:H.
  - eexists. reflexivity.
  - apply nth_error_None in H. destruct marketData; [congruence|cbn in H; lia].
Qed.

(** X1: [runBacktest] fails exactly on an empty price series, with the
    no-market-data error; on every other input it returns a result. *)
Theorem runBacktest_fails_only_on_empty_data cfg params :
  (marketData params = [] ->
   runBacktest cfg params = inl (NoMarketData (symbol params)))
  /\ (marketData params <> [] -> exists r, runBacktest cfg params = inr r).
Proof.
  unfold runBacktest. split.
  - intros ->. reflexivity.
  - intro Hne. destruct (last_day_exists _ Hne) as [fd Hfd].
    destruct (marketData params) as [|d0 rest] eqn:Hmd; [congruence|].
    cbv zeta. rewrite Hfd. eexists. reflexivity.
Qed.

(** X2: the [totalInvested] a run reports is the initial capital in lump-sum
    mode, where no contribution is ever made, and the weekly contribution
    times the number of contributions otherwise. *)
Theorem totalInvested_counts_contributions cfg params r :
  runBacktest cfg params = inr r ->
  (useLumpSum params = true ->
   res_totalInvested r = initialCapital params
   /\ res_totalContributions r = 0%Z
   /\ res_skippedContributions r = 0%Z)
  /\ (useLumpSum params = false ->
      res_totalInvested r
      == weeklyContribution params * inject_Z (res_totalContributions r)).
Proof.
  intro Hrun. split.
  - intro Hlump. apply (runBacktest_lump_sum_schedule cfg params r Hlump Hrun).
  - intro Hlump. apply runBacktest_inr in Hrun as (d0 & fd & _ & _ & ->).
    destruct (final_state_books cfg params d0 fd) as [Hacc _].
    unfold contributions_accounted, startingCapital in Hacc.
    cbn [summarize res_totalInvested res_totalContributions].
    rewrite Hlump in *. rewrite Hacc. ring.
Qed.


(** X4: after every simulated day the contributions made so far are the
    skipped plus the invested ones, the two counters of skipped contributions
    agree, and the skipped money is either still accumulated or was
    released. *)
Theorem contribution_counters_agree cfg params d0 k :
  let s := state_after cfg params d0 k in
  totalContributions s
  = (skippedContributions s + weeklyContributionsInvested (debugInfo s))%Z
  /\ weeklyContributionsSkipped (debugInfo s) = skippedContributions s
  /\ accumulatedCash s + accumulatedCashInvested (debugInfo s)
     == weeklyContribution params * inject_Z (skippedContributions s).
Proof. apply state_after_counted. Qed.

(** X12: with the 'extreme-only' and 'extreme-fear-hold' variants every
    invested contribution is a doubled one. *)
Theorem extreme_variants_double_every_investment cfg params r :
  strategyVariant params = ExtremeOnly
  \/ strategyVariant params = ExtremeFearHold ->
  runBacktest cfg params = inr r ->
  weeklyContributionsInvested (res_debugInfo r)
  = doubleInvestments (res_debugInfo r).
Proof.
  intros Hv Hrun. apply runBacktest_inr in Hrun as (d0 & fd & _ & _ & ->).
  cbn [summarize res_debugInfo].
  apply (all_doubled_frame _ _ (final_sweep_schedule fd _)).
  apply state_after_doubled. exact Hv.
Qed.

Section LastContribution.
Variable cfg : Config.
Variable params : BacktestParams.

Lemma last_contribution_frame s s' :
  same_schedule s s' ->
  last_contribution_on_market params s -> last_contribution_on_market params s'.
Proof.
  intros (_ & _ & _ & _ & _ & H6 & _) (j & dj & Hj & Hs).
  exists j, dj. rewrite H6. split; assumption.
Qed.

Lemma contribution_phase_on_market i day fg s :
  nth_error (marketData params) i = Some day ->
  last_contribution_on_market params s ->
  last_contribution_on_market params (contribution_phase cfg params i day fg s).
Proof.
  intros Hday Hs. unfold contribution_phase. cbv zeta.
  destruct (useLumpSum params); [exact Hs|].
  match goal with |- context [if ?c then _ else _] => destruct c end;
    [|exact Hs].
  exists i, day. split; [exact Hday|].
  match goal with |- context [if ?c then _ else _] => destruct c end.
  - match goal with
    | |- context [invest_contribution params day fg ?s1] =>
        destruct (invest_contribution_schedule params day fg s1)
          as (_ & _ & -> & _)
    end. reflexivity.
  - reflexivity.
Qed.

Lemma release_phase_on_market day fg inCooldown s :
  last_contribution_on_market params s ->
  last_contribution_on_market params (release_phase params day fg inCooldown s).
Proof.
  intros (j & dj & Hj & Hs). exists j, dj.
  destruct (release_phase_schedule params day fg inCooldown s)
    as (_ & _ & _ & -> & _).
  split; assumption.
Qed.

Lemma state_after_on_market d0 k :
  hd_error (marketData params) = Some d0 ->
  last_contribution_on_market params (state_after cfg params d0 k).
Proof.
  intro Hd0. unfold state_after. apply simulate_days_inv.
  - intros s i day Hday Hs.
    apply (day_step_inv cfg params _ (last_contribution_on_market params) i day);
      try (intros s0 H0; exact H0); auto.
    + intros s0. apply contribution_phase_on_market. exact Hday.
    + intros fg s0 _. apply last_contribution_frame, sell_phase_schedule.
    + intros fg c s0 _. apply release_phase_on_market.
    + intros fg c dt s0 _. apply last_contribution_frame, lump_sum_phase_schedule.
  - exists 0%nat, d0. split; [|reflexivity].
    destruct (marketData params); [discriminate|].
    cbn in *. exact Hd0.
Qed.

End LastContribution.

(** X15: contributions are at least seven days apart, so on a price series in
    date order a run makes at most one contribution per seven days between
    the first and the last price point. *)
Theorem at_most_one_contribution_per_week cfg params r :
  dates_ascending (marketData params) ->
  runBacktest cfg params = inr r ->
  exists firstDay finalDay,
    hd_error (marketData params) = Some firstDay
    /\ nth_error (marketData params) (length (marketData params) - 1)
       = Some finalDay
    /\ (7 * MS_PER_DAY * res_totalContributions r
        <= getTime (md_date finalDay) - getTime (md_date firstDay))%Z.
Proof.
  intros Hasc Hrun. apply runBacktest_inr in Hrun as (d0 & fd & Hd0 & Hfd & ->).
  exists d0, fd. split; [exact Hd0|]. split; [exact Hfd|].
  cbn [summarize res_totalContributions].
  set (n := length (marketData params)) in *.
  pose proof (state_after_spaced cfg params d0 n) as Hsp.
  pose proof (state_after_on_market cfg params d0 n Hd0) as (j & dj & Hj & Hlast).
  destruct (final_sweep_schedule fd (state_after cfg params d0 n))
    as (_ & _ & -> & _).
  unfold contributions_spaced in Hsp. rewrite Hlast in Hsp.
  assert (Hjn : (j <= n - 1)%nat).
  { assert (j < n)%nat by (apply nth_error_Some; congruence). lia. }
  pose proof (Hasc j (n - 1)%nat dj fd Hjn Hj Hfd). lia.
Qed.

Lemma summarize_returns params d0 fd s :
  let r := summarize params d0 fd s in
  res_totalReturn r = jssub (jsdiv (res_finalValue r) (res_totalInvested r)) 1
  /\ res_buyAndHoldReturn r
     = jssub (jsdiv (res_buyAndHoldValue r) (res_totalInvested r)) 1.
Proof. split; reflexivity. Qed.

(** X21: when something was invested, the verdict of the report compares the
    final value with the buy-and-hold value. *)
Theorem comparison_compares_final_values cfg params r :
  runBacktest cfg params = inr r ->
  0 < res_totalInvested r ->
  ((exists amount, comparison r = OUTPERFORMED amount)
   <-> res_buyAndHoldValue r < res_finalValue r)
  /\ ((exists amount, comparison r = UNDERPERFORMED amount)
      <-> res_finalValue r < res_buyAndHoldValue r)
  /\ (comparison r = MATCHED <-> res_finalValue r == res_buyAndHoldValue r).
Proof.
  intros Hrun Hti. apply runBacktest_inr in Hrun as (d0 & fd & _ & _ & Hr).
  destruct (summarize_returns params d0 fd
              (final_sweep fd (state_after cfg params d0
                                 (length (marketData params)))))
    as [Htr Hbh].
  rewrite <- Hr in Htr, Hbh. clear Hr.
  unfold comparison. rewrite Htr, Hbh. clear Htr Hbh.
  set (fv := res_finalValue r). set (bh := res_buyAndHoldValue r).
  set (ti := res_totalInvested r) in *.
  unfold jsdiv. rewrite (Qeq_bool_false_pos ti Hti).
  cbn [jssub jsadd jsminus jsgtb]. cbv zeta.
  set (d := fv / ti + - (1) - (bh / ti + - (1))).
  assert (Hd : d == (fv - bh) / ti) by (unfold d; field; lra).
  assert (Hpos : 0 < d <-> bh < fv).
  { rewrite Hd. split; intro H.
    - apply (Qmult_lt_compat_r _ _ ti Hti) in H.
      rewrite Qmult_0_l, div_mul_cancel in H by lra. lra.
    - apply Qlt_shift_div_l; [exact Hti|]. lra. }
  assert (Hneg : d < 0 <-> fv < bh).
  { rewrite Hd. split; intro H.
    - apply (Qmult_lt_compat_r _ _ ti Hti) in H.
      rewrite Qmult_0_l, div_mul_cancel in H by lra. lra.
    - apply Qlt_shift_div_r; [exact Hti|]. lra. }
  destruct (Qltb 0 d) eqn:H1; [|destruct (Qltb d 0) eqn:H2]; reflect_tests.
  - split; [|split].
    + split; [intros _; apply Hpos; exact H1|intros _; eexists; reflexivity].
    + split; [intros [a Ha]; discriminate|].
      intro H. apply Hneg in H. lra.
    + split; [discriminate|]. intro H. apply Hpos in H1. lra.
  - split; [|split].
    + split; [intros [a Ha]; discriminate|].
      intro H. apply Hpos in H. lra.
    + split; [intros _; apply Hneg; exact H2|intros _; eexists; reflexivity].
    + split; [discriminate|]. intro H. apply Hneg in H2. lra.
  - split; [|split].
    + split; [intros [a Ha]; discriminate|].
      intro H. apply Hpos in H. lra.
    + split; [intros [a Ha]; discriminate|].
      intro H. apply Hneg in H. lra.
    + split; [|reflexivity]. intros _.
      destruct (Qlt_le_dec bh fv) as [Hlt|Hle].
      * apply Hpos in Hlt. lra.
      * destruct (Qlt_le_dec fv bh) as [Hlt'|Hle'].
        -- apply Hneg in Hlt'. lra.
        -- lra.
Qed.

Lemma best_scan_prefix (results : list StrategyResult) (firstResult : StrategyResult)
    (k : nat) :
  Forall (fun r => exists q, finiteReturn r q) results ->
  nth_error results 0 = Some firstResult ->
  (S k <= length results)%nat ->
  best_invariant results (S k)
    (fold_left (best_step results) (seq 1 k) (0%nat, res_totalReturn firstResult)).
Proof.
  intros Hfin Hfirst. induction k as [|k IH]; intro Hk.
  - cbn [seq fold_left].
    rewrite Forall_forall in Hfin.
    destruct (Hfin firstResult (nth_error_In _ _ Hfirst)) as [q Hq].
    exists firstResult, q. cbn [fst snd].
    split; [lia|]. split; [exact Hfirst|]. split; [exact Hq|].
    split; [exact Hq|]. split.
    + intros j r' q' Hj Hr' Hq'. assert (j = 0%nat) by lia. subst j.
      rewrite Hfirst in Hr'. injection Hr' as <-.
      unfold finiteReturn in *. rewrite Hq in Hq'. injection Hq' as <-.
      apply Qle_refl.
    + intros j r' q' Hj. lia.
  - rewrite seq_S, fold_left_app. cbn [fold_left Nat.add].
    specialize (IH ltac:(lia)).
    destruct (fold_left (best_step results) (seq 1 k)
                (0%nat, res_totalReturn firstResult)) as [bi br].
    destruct IH as (best & q & Hbi & Hbest & Hq & Hbr & Hmax & Hfirstmax).
    cbn [fst snd] in *.
    destruct (nth_error results (S k)) as [rk|] eqn:Hrk.
    2:{ apply nth_error_None in Hrk. lia. }
    rewrite Forall_forall in Hfin.
    destruct (Hfin rk (nth_error_In _ _ Hrk)) as [qk Hqk].
    unfold best_step. rewrite Hrk. cbn [snd].
    unfold finiteReturn in Hqk. rewrite Hqk, Hbr. cbn [jsgtb].
    destruct (Qltb q qk) eqn:Hcmp; reflect_tests.
    + exists rk, qk. cbn [fst snd].
      split; [lia|]. split; [exact Hrk|]. split; [exact Hqk|].
      split; [reflexivity|]. split.
      * intros j r' q' Hj Hr' Hq'. destruct (Nat.eq_dec j (S k)) as [->|Hne].
        -- rewrite Hrk in Hr'. injection Hr' as <-.
           unfold finiteReturn in Hq'. rewrite Hqk in Hq'. injection Hq' as <-.
           apply Qle_refl.
        -- apply Qlt_le_weak. eapply Qle_lt_trans; [|exact Hcmp].
           apply (Hmax j r' q'); [lia|assumption|assumption].
      * intros j r' q' Hj Hr' Hq'. eapply Qle_lt_trans; [|exact Hcmp].
        apply (Hmax j r' q'); [lia|assumption|assumption].
    + exists best, q. cbn [fst snd].
      split; [lia|]. split; [exact Hbest|]. split; [exact Hq|].
      split; [reflexivity|]. split.
      * intros j r' q' Hj Hr' Hq'. destruct (Nat.eq_dec j (S k)) as [->|Hne].
        -- rewrite Hrk in Hr'. injection Hr' as <-.
           unfold finiteReturn in Hq'. rewrite Hqk in Hq'. injection Hq' as <-.
           exact Hcmp.
        -- apply (Hmax j r' q'); [lia|assumption|assumption].
      * exact Hfirstmax.
Qed.

(** X22: on results whose total returns are all finite, the best-strategy scan
    picks a result of highest total return, the first one of them; it picks
    nothing exactly when there are no results. *)
Theorem bestStrategyIndex_spec (results : list StrategyResult) :
  (bestStrategyIndex results = None <-> results = [])
  /\ (Forall (fun r => exists q, finiteReturn r q) results ->
      results <> [] ->
      exists i best q,
        bestStrategyIndex results = Some i
        /\ nth_error results i = Some best
        /\ finiteReturn best q
        /\ (forall r' q', In r' results -> finiteReturn r' q' -> q' <= q)
        /\ (forall j r' q', (j < i)%nat -> nth_error results j = Some r' ->
              finiteReturn r' q' -> q' < q)).
Proof.
  split.
  - unfold bestStrategyIndex. destruct results; split; congruence.
  - intros Hfin Hne. destruct results as [|firstResult rest] eqn:Hres;
      [congruence|].
    rewrite <- Hres in *.
    assert (Hfirst : nth_error results 0 = Some firstResult)
      by (rewrite Hres; reflexivity).
    assert (Hlen : (S (length results - 1) <= length results)%nat)
      by (rewrite Hres; cbn; lia).
    pose proof (best_scan_prefix results firstResult (length results - 1)
                  Hfin Hfirst Hlen) as Hinv.
    assert (Hbest_eq :
              bestStrategyIndex results
              = Some (fst (fold_left (best_step results)
                             (seq 1 (length results - 1))
                             (0%nat, res_totalReturn firstResult))))
      by (rewrite Hres; reflexivity).
    rewrite Hbest_eq. clear Hbest_eq.
    destruct (fold_left (best_step results) (seq 1 (length results - 1))
                (0%nat, res_totalReturn firstResult)) as [bi br].
    destruct Hinv as (best & q & Hbi & Hbest & Hq & Hbr & Hmax & Hfirstmax).
    cbn [fst snd] in *.
    exists bi, best, q. split; [reflexivity|]. split; [exact Hbest|].
    split; [exact Hq|]. split; [|exact Hfirstmax].
    intros r' q' Hin Hq'. apply In_nth_error in Hin as [j Hj].
    apply (Hmax j r' q'); [|exact Hj|exact Hq'].
    assert (j < length results)%nat by (apply nth_error_Some; congruence). lia.
Qed.

Lemma runBacktest_returns cfg params :
  marketData params <> [] -> exists r, runBacktest cfg params = inr r.
Proof.
  intro Hne. unfold runBacktest. destruct (last_day_exists _ Hne) as [fd Hfd].
  destruct (marketData params) as [|d0 rest] eqn:Hmd; [congruence|].
  cbv zeta. rewrite Hfd. eexists. reflexivity.
Qed.

Lemma runBacktest_strategyName cfg params r :
  runBacktest cfg params = inr r ->
  res_strategyName r = strategyNameOf (strategyVariant params).
Proof.
  intro Hrun. apply runBacktest_inr in Hrun as (d0 & fd & _ & _ & ->).
  reflexivity.
Qed.

(** X18: [runAllStrategyVariations] fails on an empty price series; on any
    other it returns four results, those of [runBacktest] for 'default',
    'extreme-only', 'extreme-fear-hold' and 'combined' in this order, each
    with weekly contributions of 500 and no lump sum. *)
Theorem runAllStrategyVariations_spec cfg params :
  (marketData params = [] ->
   runAllStrategyVariations cfg params = inl (NoMarketData (symbol params)))
  /\ (marketData params <> [] ->
      exists r1 r2 r3 r4,
        runAllStrategyVariations cfg params = inr [r1; r2; r3; r4]
        /\ runBacktest cfg (variantParams params Default) = inr r1
        /\ runBacktest cfg (variantParams params ExtremeOnly) = inr r2
        /\ runBacktest cfg (variantParams params ExtremeFearHold) = inr r3
        /\ runBacktest cfg (variantParams params Combined) = inr r4
        /\ map res_strategyName [r1; r2; r3; r4]
           = ["Fear & Greed"; "Extreme Fear & Greed Only";
              "Extreme Fear Buy & Hold"; "Combined Approach"]%string).
Proof.
  unfold runAllStrategyVariations, strategyVariants. cbn [fold_left]. split.
  - intro Hmd. unfold runBacktest at 1. cbn [variantParams marketData symbol].
    rewrite Hmd. reflexivity.
  - intro Hne.
    destruct (runBacktest_returns cfg (variantParams params Default) Hne)
      as [r1 H1].
    destruct (runBacktest_returns cfg (variantParams params ExtremeOnly) Hne)
      as [r2 H2].
    destruct (runBacktest_returns cfg (variantParams params ExtremeFearHold) Hne)
      as [r3 H3].
    destruct (runBacktest_returns cfg (variantParams params Combined) Hne)
      as [r4 H4].
    exists r1, r2, r3, r4. rewrite H1, H2, H3, H4. cbn [app].
    repeat (split; [reflexivity|]). cbn [map].
    rewrite (runBacktest_strategyName _ _ _ H1),
      (runBacktest_strategyName _ _ _ H2),
      (runBacktest_strategyName _ _ _ H3),
      (runBacktest_strategyName _ _ _ H4).
    reflexivity.
Qed.

(** X17: without a lump sum the result of [runBacktest] does not depend on
    the initial capital. *)
Theorem periodic_run_ignores_initialCapital cfg params capital :
  useLumpSum params = false ->
  runBacktest cfg (withInitialCapital params capital) = runBacktest cfg params.
Proof. apply periodic_ignores_initialCapital. Qed.

(** X19: the results of [runAllStrategyVariations] depend on the price
    series, the sentiment series and the symbol only: on no capital, variant
    or mode of its argument. *)
Theorem runAllStrategyVariations_reads_data_only cfg params params' :
  marketData params' = marketData params ->
  fearGreedData params' = fearGreedData params ->
  symbol params' = symbol params ->
  runAllStrategyVariations cfg params' = runAllStrategyVariations cfg params.
Proof.
  intros Hmd Hfg Hsym.
  assert (Hv : forall variant,
            runBacktest cfg (variantParams params' variant)
            = runBacktest cfg (variantParams params variant)).
  { intro variant.
    rewrite <- (periodic_ignores_initialCapital cfg
                  (variantParams params variant) (initialCapital params')
                  eq_refl).
    unfold variantParams, withInitialCapital.
    cbn [marketData fearGreedData symbol initialCapital strategyVariant
         weeklyContribution useLumpSum].
    rewrite Hmd, Hfg, Hsym. reflexivity. }
  unfold runAllStrategyVariations, strategyVariants. cbn [fold_left].
  rewrite !Hv. reflexivity.
Qed.

(** X16: with a lump sum, positive capital and positive prices, buy and hold
    is the initial capital scaled by the price change from the first to the
    last close, and its return is that price change. *)
Theorem lump_sum_buy_and_hold cfg params r :
  useLumpSum params = true ->
  0 < initialCapital params ->
  Forall (fun day => 0 < close day) (marketData params) ->
  runBacktest cfg params = inr r ->
  exists firstDay finalDay q,
    hd_error (marketData params) = Some firstDay
    /\ nth_error (marketData params) (length (marketData params) - 1)
       = Some finalDay
    /\ res_buyAndHoldValue r
       == initialCapital params * (close finalDay / close firstDay)
    /\ res_buyAndHoldReturn r = JFin q
    /\ q == close finalDay / close firstDay - 1.
Proof.
  intros Hlump HIC Hpos Hrun.
  apply runBacktest_inr in Hrun as (d0 & fd & Hd0 & Hfd & ->).
  pose proof (state_after_idle cfg params d0 (length (marketData params)) Hlump)
    as Hidle.
  apply (schedule_idle_frame params d0 _ _ (final_sweep_schedule fd _)) in Hidle.
  destruct Hidle as (Hti & _ & _ & _ & Hbh).
  assert (Hp0 : 0 < close d0).
  { rewrite Forall_forall in Hpos. apply Hpos.
    destruct (marketData params); [discriminate|].
    cbn in Hd0. injection Hd0 as ->. left. reflexivity. }
  exists d0, fd. eexists. split; [exact Hd0|]. split; [exact Hfd|].
  cbn [summarize res_buyAndHoldValue res_buyAndHoldReturn].
  rewrite Hlump, Hti, Hbh. unfold jsdiv.
  rewrite (Qeq_bool_false_pos _ HIC). cbn [jssub jsadd].
  split; [field; lra|]. split; [reflexivity|]. field. lra.
Qed.

Lemma netShares_app (l : list Trade) (t : Trade) :
  netShares (l ++ [t]) == netShares l + signedShares t.
Proof.
  induction l as [|a l IH]; cbn [app netShares fold_right].
  - ring.
  - fold (netShares (l ++ [t])). fold (netShares l). rewrite IH. ring.
Qed.

Ltac sized_cases :=
  cbv zeta; break_tests;
  first
  [ apply sized_same; reflexivity
  | eapply sized_buy; reflexivity
  | eapply sized_sell; reflexivity ].

Section Sized.
Variable cfg : Config.
Variable params : BacktestParams.

Lemma contribution_phase_sized i day fg s :
  sized_step s (contribution_phase cfg params i day fg s).
Proof.
  unfold contribution_phase, invest_contribution, defer_contribution.
  sized_cases.
Qed.

Lemma sell_phase_sized day fg s :
  sized_step s (sell_phase cfg params day fg s).
Proof. unfold sell_phase. sized_cases. Qed.

Lemma release_phase_sized day fg inCooldown s :
  sized_step s (release_phase params day fg inCooldown s).
Proof. unfold release_phase. sized_cases. Qed.

Lemma lump_sum_phase_sized day fg inCooldown inDowntrend s :
  sized_step s (lump_sum_phase cfg params day fg inCooldown inDowntrend s).
Proof. unfold lump_sum_phase. sized_cases. Qed.

Lemma final_sweep_sized day s : sized_step s (final_sweep day s).
Proof. unfold final_sweep. sized_cases. Qed.

End Sized.

Lemma firstn_snoc_old {A : Type} (l : list A) (x : A) (j : nat) :
  (j <= length l)%nat -> firstn j (l ++ [x]) = firstn j l.
Proof.
  intro Hj. rewrite firstn_app.
  replace (j - length l)%nat with 0%nat by lia.
  cbn [firstn]. apply app_nil_r.
Qed.

Lemma sells_sized_step s s' :
  sized_step s s' -> sells_sized s -> sells_sized s'.
Proof.
  intros Hstep [Hnet Hsells].
  assert (Hold : forall t0 j t,
            nth_error (trades s) j = Some t -> trade_type t = sell ->
            trade_shares t
            == SELL_PERCENTAGE * netShares (firstn j (trades s ++ [t0]))).
  { intros t0 j t Hj Hsell.
    rewrite firstn_snoc_old.
    - apply (Hsells j t Hj Hsell).
    - apply Nat.lt_le_incl. apply nth_error_Some. congruence. }
  destruct Hstep as [Ht Hsh|t Ht Hbuy Hsh|t Ht Hsell Hsize Hsh].
  - split; rewrite Ht; [rewrite Hsh|]; assumption.
  - split; rewrite Ht.
    + rewrite Hsh, netShares_app, Hnet. unfold signedShares. rewrite Hbuy.
      reflexivity.
    + intros j t1 Hj Hs1.
      destruct (nth_error_snoc_cases _ _ _ _ Hj) as [Hin|[_ ->]].
      * apply (Hold t j t1 Hin Hs1).
      * congruence.
  - split; rewrite Ht.
    + rewrite Hsh, netShares_app, Hnet. unfold signedShares. rewrite Hsell.
      ring.
    + intros j t1 Hj Hs1.
      destruct (nth_error_snoc_cases _ _ _ _ Hj) as [Hin|[-> ->]].
      * apply (Hold t j t1 Hin Hs1).
      * rewrite firstn_snoc_old, firstn_all by lia.
        rewrite Hsize, Hnet. ring.
Qed.

Lemma state_after_sells_sized cfg params d0 k :
  sells_sized (state_after cfg params d0 k).
Proof.
  unfold state_after. apply simulate_days_inv.
  - intros s i day Hday Hs.
    apply (day_step_inv cfg params _ sells_sized i day);
      try (intros s0 H0; exact H0); auto.
    + intros s0. apply sells_sized_step, contribution_phase_sized.
    + intros fg s0 _. apply sells_sized_step, sell_phase_sized.
    + intros fg c s0 _. apply sells_sized_step, release_phase_sized.
    + intros fg c dt s0 _. apply sells_sized_step, lump_sum_phase_sized.
  - split.
    + reflexivity.
    + intros [|j] t Hj; discriminate.
Qed.

(** X14: with positive prices, every sell of a run's log sells 30% of the
    shares the log held before it (shares bought minus shares sold). *)
Theorem sells_sell_thirty_percent cfg params r :
  Forall (fun day => 0 < close day) (marketData params) ->
  runBacktest cfg params = inr r ->
  forall j t,
    nth_error (res_trades r) j = Some t -> trade_type t = sell ->
    trade_shares t == SELL_PERCENTAGE * netShares (firstn j (res_trades r)).
Proof.
  intros _ Hrun. apply runBacktest_inr in Hrun as (d0 & fd & _ & _ & ->).
  cbn [summarize res_trades].
  apply (sells_sized_step _ _ (final_sweep_sized fd _)
           (state_after_sells_sized cfg params d0 _)).
Qed.

(** A series whose dates are sorted is in date order. *)
Lemma dates_ascending_sorted (marketData : list MarketDataPoint) :
  StronglySorted Z.le (map (fun day => getTime (md_date day)) marketData) ->
  dates_ascending marketData.
Proof.
  induction marketData as [|day rest IH]; intros Hsorted i j di dj Hij Hi Hj.
  - destruct i; discriminate.
  - cbn [map] in Hsorted. apply StronglySorted_inv in Hsorted as [Hrest Hall].
    destruct i as [|i], j as [|j]; cbn [nth_error] in Hi, Hj.
    + injection Hi as <-. injection Hj as <-. lia.
    + injection Hi as <-.
      rewrite Forall_forall in Hall. apply Hall.
      apply in_map_iff. exists dj. split; [reflexivity|].
      eapply nth_error_In; eassumption.
    + lia.
    + apply (IH Hrest i j di dj); [lia|assumption|assumption].
Qed.
(** ** The properties on the sample runs *)


Lemma ledger_never_negative_witness :
  0 <= cash (state_after default_config contributionRun (mkMarket 0%Z 100) 2)
  /\ 0 <= shares (state_after default_config contributionRun (mkMarket 0%Z 100) 2).
Proof.
  refine (proj1 (ledger_never_negative default_config contributionRun
                   (mkMarket 0%Z 100) eq_refl _ _ _ _ _) 2%nat).
  - repeat constructor.
  - repeat constructor; discriminate.
  - reflexivity.
  - discriminate.
  - discriminate.
Defined.

Lemma single_point_annualizedReturn_NaN_witness :
  exists r,
    runBacktest default_config singlePointRun = inr r
    /\ res_annualizedReturn r = AnnVal JNaN.
Proof.
  apply (single_point_annualizedReturn_NaN default_config singlePointRun
           (mkMarket 0%Z 100)); reflexivity.
Defined.

Lemma extreme_fear_hold_never_sells_witness :
  exists r,
    runBacktest default_config (fearThenGreed ExtremeFearHold) = inr r
    /\ Forall (fun t => trade_type t <> sell) (res_trades r).
Proof.
  assert (Hrun : exists r,
            runBacktest default_config (fearThenGreed ExtremeFearHold) = inr r).
  { eexists. vm_compute. reflexivity. }
  destruct Hrun as [r Hrun]. exists r. split; [exact Hrun|].
  apply Forall_forall. intros t Hin.
  exact (extreme_fear_hold_never_sells default_config
           (fearThenGreed ExtremeFearHold) r eq_refl Hrun t Hin).
Defined.


Lemma calculateMaxDrawdown_spec_witness :
  0 <= calculateMaxDrawdown [100; 120; 90; 130; 65] <= 1.
Proof.
  refine (proj1 (calculateMaxDrawdown_spec [100; 120; 90; 130; 65] _ _)).
  - discriminate.
  - repeat constructor.
Defined.

Lemma sell_preceded_by_buy_witness :
  exists r,
    runBacktest default_config (fearThenGreed Default) = inr r
    /\ (exists t, nth_error (res_trades r) 1 = Some t /\ trade_type t = sell)
    /\ (forall t rest, res_trades r = t :: rest -> trade_type t = buy).
Proof.
  assert (Hrun : exists r,
            runBacktest default_config (fearThenGreed Default) = inr r
            /\ exists t, nth_error (res_trades r) 1 = Some t
                         /\ trade_type t = sell).
  { eexists. split; [vm_compute; reflexivity|].
    eexists. split; reflexivity. }
  destruct Hrun as (r & Hrun & Hsell). exists r.
  split; [exact Hrun|]. split; [exact Hsell|].
  exact (proj2 (sell_preceded_by_buy default_config (fearThenGreed Default) r Hrun)).
Defined.

(** ** The further properties on the sample runs *)

Ltac sample_run :=
  eexists; vm_compute; reflexivity.

Ltac sample_domain :=
  split; [repeat constructor|];
  split; [repeat constructor; discriminate|];
  split; [reflexivity|];
  split; discriminate.

Ltac sample_dates :=
  apply dates_ascending_sorted; repeat constructor; discriminate.

Lemma totalInvested_counts_contributions_witness :
  exists r,
    runBacktest default_config contributionRun = inr r
    /\ res_totalInvested r
       == weeklyContribution contributionRun
          * inject_Z (res_totalContributions r).
Proof.
  assert (Hrun : exists r, runBacktest default_config contributionRun = inr r)
    by sample_run.
  destruct Hrun as [r Hrun]. exists r. split; [exact Hrun|].
  exact (proj2 (totalInvested_counts_contributions default_config
                  contributionRun r Hrun) eq_refl).
Defined.


Lemma run_maxDrawdown_in_unit_interval_witness :
  exists r,
    runBacktest default_config (fearThenGreed Default) = inr r
    /\ 0 <= res_maxDrawdown r <= 1.
Proof.
  assert (Hrun : exists r,
            runBacktest default_config (fearThenGreed Default) = inr r)
    by sample_run.
  destruct Hrun as [r Hrun]. exists r. split; [exact Hrun|].
  refine (run_maxDrawdown_in_unit_interval default_config
            (fearThenGreed Default) r _ Hrun).
  sample_domain.
Defined.


Lemma trades_made_on_market_days_witness :
  exists r,
    runBacktest default_config (fearThenGreed Default) = inr r
    /\ trades_on_market (marketData (fearThenGreed Default)) (res_trades r).
Proof.
  assert (Hrun : exists r,
            runBacktest default_config (fearThenGreed Default) = inr r)
    by sample_run.
  destruct Hrun as [r Hrun]. exists r. split; [exact Hrun|].
  exact (trades_made_on_market_days default_config (fearThenGreed Default)
           r Hrun).
Defined.

Lemma trade_log_in_date_order_witness :
  exists r,
    runBacktest default_config (fearThenGreed Default) = inr r
    /\ StronglySorted Z.le (map trade_date (res_trades r)).
Proof.
  assert (Hrun : exists r,
            runBacktest default_config (fearThenGreed Default) = inr r)
    by sample_run.
  destruct Hrun as [r Hrun]. exists r. split; [exact Hrun|].
  refine (trade_log_in_date_order default_config (fearThenGreed Default) r
            _ Hrun).
  sample_dates.
Defined.


Lemma extreme_variants_double_every_investment_witness :
  exists r,
    runBacktest default_config (weeklyFearRun ExtremeOnly) = inr r
    /\ weeklyContributionsInvested (res_debugInfo r)
       = doubleInvestments (res_debugInfo r).
Proof.
  assert (Hrun : exists r,
            runBacktest default_config (weeklyFearRun ExtremeOnly) = inr r)
    by sample_run.
  destruct Hrun as [r Hrun]. exists r. split; [exact Hrun|].
  exact (extreme_variants_double_every_investment default_config
           (weeklyFearRun ExtremeOnly) r (or_introl eq_refl) Hrun).
Defined.

Lemma sells_make_minimum_profit_witness :
  exists r t,
    runBacktest default_config (fearThenGreed Default) = inr r
    /\ nth_error (res_trades r) 1 = Some t
    /\ trade_type t = sell
    /\ exists i b,
         (i < 1)%nat /\ nth_error (res_trades r) i = Some b
         /\ trade_type b = buy
         /\ MIN_PROFIT_PERCENT <= profitOver (price b) (price t).
Proof.
  assert (Hrun : exists r t,
            runBacktest default_config (fearThenGreed Default) = inr r
            /\ nth_error (res_trades r) 1 = Some t /\ trade_type t = sell).
  { eexists. eexists. split; [vm_compute; reflexivity|].
    split; reflexivity. }
  destruct Hrun as (r & t & Hrun & Hnth & Hsell). exists r, t.
  split; [exact Hrun|]. split; [exact Hnth|]. split; [exact Hsell|].
  refine (sells_make_minimum_profit default_config (fearThenGreed Default) r
            _ Hrun 1%nat t Hnth Hsell).
  repeat constructor.
Defined.

Lemma sells_sell_thirty_percent_witness :
  exists r t,
    runBacktest default_config (fearThenGreed Default) = inr r
    /\ nth_error (res_trades r) 1 = Some t
    /\ trade_type t = sell
    /\ trade_shares t
       == SELL_PERCENTAGE * netShares (firstn 1 (res_trades r)).
Proof.
  assert (Hrun : exists r t,
            runBacktest default_config (fearThenGreed Default) = inr r
            /\ nth_error (res_trades r) 1 = Some t /\ trade_type t = sell).
  { eexists. eexists. split; [vm_compute; reflexivity|].
    split; reflexivity. }
  destruct Hrun as (r & t & Hrun & Hnth & Hsell). exists r, t.
  split; [exact Hrun|]. split; [exact Hnth|]. split; [exact Hsell|].
  refine (sells_sell_thirty_percent default_config (fearThenGreed Default) r
            _ Hrun 1%nat t Hnth Hsell).
  repeat constructor.
Defined.

Lemma at_most_one_contribution_per_week_witness :
  exists r firstDay finalDay,
    runBacktest default_config contributionRun = inr r
    /\ hd_error (marketData contributionRun) = Some firstDay
    /\ nth_error (marketData contributionRun)
         (length (marketData contributionRun) - 1) = Some finalDay
    /\ (7 * MS_PER_DAY * res_totalContributions r
        <= getTime (md_date finalDay) - getTime (md_date firstDay))%Z.
Proof.
  assert (Hrun : exists r, runBacktest default_config contributionRun = inr r)
    by sample_run.
  destruct Hrun as [r Hrun].
  assert (Hdates : dates_ascending (marketData contributionRun))
    by sample_dates.
  destruct (at_most_one_contribution_per_week default_config contributionRun
              r Hdates Hrun) as (firstDay & finalDay & Hfirst & Hfinal & Hle).
  exists r, firstDay, finalDay.
  split; [exact Hrun|]. split; [exact Hfirst|]. split; [exact Hfinal|].
  exact Hle.
Defined.

Lemma lump_sum_buy_and_hold_witness :
  exists r q,
    runBacktest default_config (fearThenGreed Default) = inr r
    /\ res_buyAndHoldValue r == 10000 * (150 / 100)
    /\ res_buyAndHoldReturn r = JFin q
    /\ q == 150 / 100 - 1.
Proof.
  assert (Hrun : exists r,
            runBacktest default_config (fearThenGreed Default) = inr r)
    by sample_run.
  destruct Hrun as [r Hrun].
  assert (Hprices : Forall (fun day => 0 < close day)
                      (marketData (fearThenGreed Default)))
    by repeat constructor.
  destruct (lump_sum_buy_and_hold default_config (fearThenGreed Default) r
              eq_refl eq_refl Hprices Hrun)
    as (firstDay & finalDay & q & Hfirst & Hfinal & Hvalue & Hreturn & Hq).
  injection Hfirst as <-. injection Hfinal as <-.
  exists r, q.
  split; [exact Hrun|]. split; [exact Hvalue|]. split; [exact Hreturn|].
  exact Hq.
Defined.

Lemma periodic_run_ignores_initialCapital_witness :
  runBacktest default_config (withInitialCapital contributionRun 1)
  = runBacktest default_config contributionRun.
Proof.
  exact (periodic_run_ignores_initialCapital default_config contributionRun 1
           eq_refl).
Defined.

Lemma runAllStrategyVariations_reads_data_only_witness :
  runAllStrategyVariations default_config (fearThenGreed Combined)
  = runAllStrategyVariations default_config (fearThenGreed Default).
Proof.
  exact (runAllStrategyVariations_reads_data_only default_config
           (fearThenGreed Default) (fearThenGreed Combined)
           eq_refl eq_refl eq_refl).
Defined.

Lemma trade_breakdown_matches_counters_witness :
  exists r,
    runBacktest default_config (fearThenGreed Default) = inr r
    /\ Z.of_nat (buyTrades r) = executedBuys (res_debugInfo r)
    /\ Z.of_nat (sellTrades r) = executedSells (res_debugInfo r)
    /\ (buyTrades r + sellTrades r)%nat = length (res_trades r).
Proof.
  assert (Hrun : exists r,
            runBacktest default_config (fearThenGreed Default) = inr r)
    by sample_run.
  destruct Hrun as [r Hrun]. exists r. split; [exact Hrun|].
  exact (trade_breakdown_matches_counters default_config
           (fearThenGreed Default) r Hrun).
Defined.

Lemma comparison_compares_final_values_witness :
  exists r,
    runBacktest default_config (fearThenGreed Default) = inr r
    /\ ((exists amount, comparison r = OUTPERFORMED amount)
        <-> res_buyAndHoldValue r < res_finalValue r).
Proof.
  assert (Hrun : exists r,
            runBacktest default_config (fearThenGreed Default) = inr r
            /\ 0 < res_totalInvested r).
  { eexists. split; [vm_compute; reflexivity|reflexivity]. }
  destruct Hrun as (r & Hrun & Hinvested). exists r. split; [exact Hrun|].
  exact (proj1 (comparison_compares_final_values default_config
                  (fearThenGreed Default) r Hrun Hinvested)).
Defined.
